(** * CV portal: the validation task and the upload route

    A shallow embedding of the two server-side pieces of the CV portal:

    - the background task [validateCvDataTask] with its helpers
      [createDocumentValidationPrompt] and [processValidationResults];
    - the tRPC route [cvRouter.upload] with [validateFileContent].

    JavaScript numbers are IEEE 754 binary64 values; they are modelled with
    the Standard Library's executable specification [SpecFloat] at precision
    53 and maximal exponent 1024.  Counters that the code only ever
    increments by one are natural numbers.  The reply of the model, on which
    the code trims and matches white space, is a sequence of UTF-16 code
    units; the other strings are of type [string].  What the program gets
    from outside (storage, the table, the task queue, the network, the clock)
    is a record of functions, [Env], and the state it changes is [World]. *)

From Stdlib Require Import ZArith List String Ascii Bool Lia SpecFloat DecimalString.
From stdpp Require Import gmap strings.
Import ListNotations.

Local Open Scope Z_scope.

(** ** JavaScript numbers *)

Module Number.

Definition prec : Z := 53.
Definition emax : Z := 1024.

Definition number : Type := spec_float.

Definition zero : number := S754_zero false.
Definition add : number -> number -> number := SFadd prec emax.
Definition mul : number -> number -> number := SFmul prec emax.
Definition div : number -> number -> number := SFdiv prec emax.

(** An integer of the program seen as a number ([fields.length], a counter). *)
Definition of_Z (z : Z) : number := binary_normalize prec emax z 0 false.
Definition of_nat (n : nat) : number := of_Z (Z.of_nat n).

(** A decimal literal [num/den] of the source text denotes the binary64
    value nearest to the quotient: the correctly rounded division of the
    two integers. *)
Definition decimal (num den : Z) : number := div (of_Z num) (of_Z den).

(** The literal [0.7]: 0x1.6666666666666p-1. *)
Definition lit_0_7 : number := S754_finite false 6305039478318694 (-53).

(** [Math.ceil] on a number.  The result is integral, so it is returned as
    an integer; infinities and NaN are kept apart. *)
Inductive integral : Type :=
| Int (z : Z)
| PlusInfinity
| MinusInfinity
| NotANumber.

(** Ceiling of [num / 2^k] for [k >= 0]. *)
Definition cdiv_pow2 (num k : Z) : Z := - ((- num) / 2 ^ k).

Definition ceil (x : number) : integral :=
  match x with
  | S754_zero _ => Int 0
  | S754_infinity false => PlusInfinity
  | S754_infinity true => MinusInfinity
  | S754_nan => NotANumber
  | S754_finite s m e =>
      let v := cond_Zopp s (Zpos m) in
      if 0 <=? e then Int (v * 2 ^ e) else Int (cdiv_pow2 v (- e))
  end.

(** [a >= c] for an integer [a] and the result of [Math.ceil]. *)
Definition ge_integral (a : Z) (c : integral) : bool :=
  match c with
  | Int z => z <=? a
  | MinusInfinity => true
  | PlusInfinity | NotANumber => false
  end.

End Number.

(** ** The response aggregator: [processValidationResults] *)

Module Aggregator.
Import Number.

(** [ValidationField.status].  The reply of the model is cast to its
    interface, not checked, and the code compares the status with string
    literals: [other] stands for any string that is none of the four. *)
Inductive status : Type :=
| match_
| partial_match
| no_match
| not_found
| other (text : string).

Definition status_eqb (a b : status) : bool :=
  match a, b with
  | match_, match_ | partial_match, partial_match
  | no_match, no_match | not_found, not_found => true
  | other a, other b => String.eqb a b
  | _, _ => false
  end.

(** [interface ValidationField] *)
Record ValidationField : Type := {
  field : string;
  fstatus : status;
  confidence : number;
  reason : string;
  extractedValue : option string
}.

(** [interface AIValidationResponse] *)
Record AIValidationResponse : Type := { fields : list ValidationField }.

Inductive overall : Type := validated | failed.

(** The string stored in the [validationStatus] column. *)
Definition overall_string (o : overall) : string :=
  match o with
  | validated => "validated"
  | failed => "failed"
  end.

Record Summary : Type := {
  totalChecked : nat;
  matchCount : nat;
  partialMatchCount : nat;
  noMatchCount : nat;
  overallConfidence : number
}.

Record ProcessedValidationResults : Type := {
  pfields : list ValidationField;
  summary : Summary
}.

Record Processed : Type := {
  overallStatus : overall;
  processedResults : ProcessedValidationResults;
  errors : list string
}.

(** The local variables of the [for ... of] loop. *)
Record Tally : Type := {
  t_match : nat;
  t_partial : nat;
  t_noMatch : nat;
  t_total : nat;
  t_errors : list string
}.

Definition tally0 : Tally :=
  {| t_match := 0; t_partial := 0; t_noMatch := 0; t_total := 0;
     t_errors := [] |}.

(** The template literal [`${field.field}: ${field.reason}`]. *)
Definition field_error (f : ValidationField) : string :=
  String.append (field f) (String.append ": " (reason f)).

(** One iteration of the loop body. *)
Definition tally_step (t : Tally) (f : ValidationField) : Tally :=
  let t1 :=
    match fstatus f with
    | match_ =>
        {| t_match := S (t_match t); t_partial := t_partial t;
           t_noMatch := t_noMatch t; t_total := t_total t;
           t_errors := t_errors t |}
    | partial_match =>
        {| t_match := t_match t; t_partial := S (t_partial t);
           t_noMatch := t_noMatch t; t_total := t_total t;
           t_errors := t_errors t |}
    | no_match =>
        {| t_match := t_match t; t_partial := t_partial t;
           t_noMatch := S (t_noMatch t); t_total := t_total t;
           t_errors := t_errors t ++ [field_error f] |}
    | not_found | other _ => t
    end in
  if negb (status_eqb (fstatus f) not_found)
  then {| t_match := t_match t1; t_partial := t_partial t1;
          t_noMatch := t_noMatch t1; t_total := S (t_total t1);
          t_errors := t_errors t1 |}
  else t1.

Definition tally (fs : list ValidationField) : Tally :=
  fold_left tally_step fs tally0.

(** [Math.ceil(totalChecked * 0.7)] *)
Definition threshold (total : nat) : integral :=
  ceil (mul (of_nat total) lit_0_7).

Definition generic_error : string :=
  "Insufficient matches found between form data and PDF content".

(** The [if / else if] chain; it returns the status and the error list,
    to which only the last branch may add. *)
Definition decide_status (t : Tally) : overall * list string :=
  if (0 <? t_noMatch t)%nat then (failed, t_errors t)
  else if (t_match t =? t_total t)%nat && (0 <? t_total t)%nat
       then (validated, t_errors t)
  else if ge_integral (Z.of_nat (t_match t + t_partial t))
                      (threshold (t_total t))
       then (validated, t_errors t)
  else (failed,
        if (List.length (t_errors t) =? 0)%nat
        then t_errors t ++ [generic_error]
        else t_errors t).

(** [fields.reduce((sum, f) => sum + (f.confidence ?? 0), 0)
      / Math.max(fields.length, 1)];
    [confidence] is a number, on which [?? 0] is the identity. *)
Definition mean_confidence (fs : list ValidationField) : number :=
  div (fold_left (fun sum f => add sum (confidence f)) fs zero)
      (of_nat (Nat.max (List.length fs) 1)).

Definition processValidationResults (aiResponse : AIValidationResponse)
  : Processed :=
  let fs := fields aiResponse in
  let t := tally fs in
  let '(st, errs) := decide_status t in
  {| overallStatus := st;
     processedResults :=
       {| pfields := fs;
          summary :=
            {| totalChecked := t_total t;
               matchCount := t_match t;
               partialMatchCount := t_partial t;
               noMatchCount := t_noMatch t;
               overallConfidence := mean_confidence fs |} |};
     errors := errs |}.

End Aggregator.

(** ** JavaScript strings and the clean-up of the model's reply *)

Module Text.

(** A JavaScript string is a sequence of UTF-16 code units. *)
Definition code_unit : Type := N.
Definition jstring : Type := list code_unit.

Definition units (s : string) : jstring :=
  map N_of_ascii (list_ascii_of_string s).

(** The class [\s] of regular expressions, which is also what
    [String.prototype.trim] removes: WhiteSpace and LineTerminator. *)
Definition is_space (c : code_unit) : bool :=
  ((9 <=? c) && (c <=? 13) || (c =? 32) || (c =? 160) || (c =? 5760)
   || (8192 <=? c) && (c <=? 8202) || (c =? 8232) || (c =? 8233)
   || (c =? 8239) || (c =? 8287) || (c =? 12288) || (c =? 65279))%N.

Fixpoint jeqb (a b : jstring) : bool :=
  match a, b with
  | [], [] => true
  | x :: a', y :: b' => (x =? y)%N && jeqb a' b'
  | _, _ => false
  end.

(** [s.startsWith(p)] *)
Fixpoint startsWith (p s : jstring) : bool :=
  match p, s with
  | [], _ => true
  | x :: p', y :: s' => (x =? y)%N && startsWith p' s'
  | _ :: _, [] => false
  end.

Fixpoint trimStart (s : jstring) : jstring :=
  match s with
  | c :: s' => if is_space c then trimStart s' else s
  | [] => []
  end.

Fixpoint trimEnd (s : jstring) : jstring :=
  match s with
  | c :: s' =>
      match trimEnd s' with
      | [] => if is_space c then [] else [c]
      | r => c :: r
      end
  | [] => []
  end.

(** [s.trim()] *)
Definition trim (s : jstring) : jstring := trimEnd (trimStart s).

(** [s.replace(/<pat>\s*/, '')] for a literal [pat]: the leftmost
    occurrence of [pat] is removed together with the longest run of white
    space after it; without an occurrence the string is unchanged. *)
Fixpoint replace_open (pat s : jstring) : jstring :=
  if startsWith pat s then trimStart (skipn (List.length pat) s)
  else match s with
       | c :: s' => c :: replace_open pat s'
       | [] => []
       end.

Definition backticks : jstring := units "```".

(** Does [\s*```$] match the whole of [s]?  The star may stop after any
    number of white-space units. *)
Fixpoint matches_close (s : jstring) : bool :=
  jeqb s backticks
  || match s with
     | c :: s' => is_space c && matches_close s'
     | [] => false
     end.

(** [s.replace(/\s*```$/, '')]: the leftmost position from which the
    pattern matches up to the end of the string is where the string is cut. *)
Fixpoint replace_close (s : jstring) : jstring :=
  if matches_close s then []
  else match s with
       | c :: s' => c :: replace_close s'
       | [] => []
       end.

(** The clean-up of [validateCvDataTask] between receiving the reply and
    [JSON.parse]. *)
Definition clean (aiResponse : jstring) : jstring :=
  let cleanedResponse := trim aiResponse in
  if startsWith (units "```json") cleanedResponse
  then replace_close (replace_open (units "```json") cleanedResponse)
  else if startsWith backticks cleanedResponse
  then replace_close (replace_open backticks cleanedResponse)
  else cleanedResponse.

(** A reply [x] wrapped in a fence: the opening backticks with a language
    tag, white space [w1], the reply, white space [w2], the closing
    backticks. *)
Definition fenced (tag w1 x w2 : jstring) : jstring :=
  backticks ++ tag ++ w1 ++ x ++ w2 ++ backticks.

Definition all_space (w : jstring) : bool := forallb is_space w.

Definition newline : jstring := [10%N].

End Text.

(** ** The prompt builder: [createDocumentValidationPrompt] *)

Module Prompt.

Local Infix "+++" := String.append (right associativity, at level 60).

(** [CVValidationPayload["formData"]] *)
Record FormData : Type := {
  fullName : string;
  email : string;
  phone : option string;
  skills : option string;
  experience : option string
}.

(** The double-quote character. *)
Definition dq : string := String (ascii_of_nat 34) EmptyString.

(** A piece of text between double quotes. *)
Definition q (s : string) : string := dq +++ s +++ dq.

Definition nl : string := String (ascii_of_nat 10) EmptyString.

(** [x ?? 'Not provided'] *)
Definition orNotProvided (x : option string) : string :=
  match x with
  | Some s => s
  | None => "Not provided"
  end.

Definition join_lines (ls : list string) : string := String.concat nl ls.

(** The lines of the template literal; the literal starts and ends with a
    line break, hence the empty first and last lines. *)
Definition prompt_lines (formData : FormData) : list string :=
  [ "";
    "Please analyze the CV/Resume document (PDF or image) and validate if the following form data matches what you can see in the document.";
    "";
    "CRITICAL: Your response must be ONLY the JSON object. Do not include any markdown formatting, code blocks, or explanatory text. Just return the raw JSON.";
    "";
    "FORM DATA TO VALIDATE:";
    "- Full Name: " +++ q (fullName formData);
    "- Email: " +++ q (email formData);
    "- Phone: " +++ q (orNotProvided (phone formData));
    "- Skills: " +++ q (orNotProvided (skills formData));
    "- Experience: " +++ q (orNotProvided (experience formData));
    "";
    "For each field, determine:";
    "1. Does the form data match what's visible in the CV document?";
    "2. How confident are you in this match (0.0 to 1.0)?";
    "3. What specific value did you find in the CV document (if any)?";
    "4. Why did you make this determination?";
    "";
    "Return your analysis as a JSON object with this exact structure:";
    "{";
    "  " +++ q "fields" +++ ": [";
    "    {";
    "      " +++ q "field" +++ ": " +++ q "fullName" +++ ",";
    "      " +++ q "status" +++ ": " +++ q "match|partial_match|no_match|not_found" +++ ",";
    "      " +++ q "confidence" +++ ": 0.95,";
    "      " +++ q "reason" +++ ": " +++ q "Explanation of your reasoning" +++ ",";
    "      " +++ q "extractedValue" +++ ": " +++ q "What you found in the CV document";
    "    },";
    "    {";
    "      " +++ q "field" +++ ": " +++ q "email" +++ ",";
    "      " +++ q "status" +++ ": " +++ q "match|partial_match|no_match|not_found" +++ ",";
    "      " +++ q "confidence" +++ ": 0.90,";
    "      " +++ q "reason" +++ ": " +++ q "Explanation of your reasoning" +++ ",";
    "      " +++ q "extractedValue" +++ ": " +++ q "What you found in the CV document";
    "    },";
    "    {";
    "      " +++ q "field" +++ ": " +++ q "phone" +++ ",";
    "      " +++ q "status" +++ ": " +++ q "match|partial_match|no_match|not_found" +++ ",";
    "      " +++ q "confidence" +++ ": 0.85,";
    "      " +++ q "reason" +++ ": " +++ q "Explanation of your reasoning" +++ ",";
    "      " +++ q "extractedValue" +++ ": " +++ q "What you found in the CV document";
    "    },";
    "    {";
    "      " +++ q "field" +++ ": " +++ q "skills" +++ ",";
    "      " +++ q "status" +++ ": " +++ q "match|partial_match|no_match|not_found" +++ ",";
    "      " +++ q "confidence" +++ ": 0.80,";
    "      " +++ q "reason" +++ ": " +++ q "Explanation of your reasoning" +++ ",";
    "      " +++ q "extractedValue" +++ ": " +++ q "What you found in the CV document";
    "    },";
    "    {";
    "      " +++ q "field" +++ ": " +++ q "experience" +++ ",";
    "      " +++ q "status" +++ ": " +++ q "match|partial_match|no_match|not_found" +++ ",";
    "      " +++ q "confidence" +++ ": 0.75,";
    "      " +++ q "reason" +++ ": " +++ q "Explanation of your reasoning" +++ ",";
    "      " +++ q "extractedValue" +++ ": " +++ q "What you found in the CV document";
    "    }";
    "  ]";
    "}";
    "";
    "Status definitions:";
    "- " +++ q "match" +++ ": Form data exactly or very closely matches what's visible in the CV";
    "- " +++ q "partial_match" +++ ": Form data partially matches CV content but has differences";
    "- " +++ q "no_match" +++ ": Form data contradicts what's visible in the CV";
    "- " +++ q "not_found" +++ ": Could not find this information in the CV document";
    "";
    "Be thorough but practical. Consider variations in formatting, abbreviations, and synonyms. Look carefully at all text visible in the CV document, whether it's a PDF or image format.";
    "" ].

Definition createDocumentValidationPrompt (formData : FormData) : string :=
  join_lines (prompt_lines formData).

(** [needle] occurs in [hay]. *)
Definition occurs_in (needle hay : string) : Prop :=
  exists pre post, hay = pre +++ needle +++ post.

End Prompt.

(** ** Exceptions and effects *)

Module Js.

(** What a [throw] or a rejected promise carries: an [Error] instance with
    its message, or some other value. *)
Inductive thrown : Type :=
| ErrorObject (message : string)
| NotAnError.

(** [e instanceof Error && e.message.includes(s)] needs [includes]. *)
Fixpoint includes (needle hay : string) : bool :=
  String.prefix needle hay
  || match hay with
     | String _ hay' => includes needle hay'
     | EmptyString => false
     end.

(** [s.endsWith(suffix)] *)
Definition endsWith (suffix s : string) : bool :=
  let n := String.length s in
  let k := String.length suffix in
  (k <=? n)%nat && String.eqb (String.substring (n - k) k s) suffix.

(** [toLowerCase] on the letters A-Z; other characters are kept. *)
Definition lower_ascii (a : ascii) : ascii :=
  let n := nat_of_ascii a in
  if (65 <=? n)%nat && (n <=? 90)%nat then ascii_of_nat (n + 32) else a.

Fixpoint toLowerCase (s : string) : string :=
  match s with
  | EmptyString => EmptyString
  | String a s' => String (lower_ascii a) (toLowerCase s')
  end.

(** Decimal text of a non-negative integer, as in [`${n}`]. *)
Definition decimal_string (n : N) : string :=
  DecimalString.NilZero.string_of_uint (N.to_uint n).

(** Computations over a state [St] that may throw. *)
Section Effects.
Context {St : Type}.

Definition M (A : Type) : Type := St -> (thrown + A) * St.

Definition ret {A} (a : A) : M A := fun s => (inr a, s).
Definition throw {A} (e : thrown) : M A := fun s => (inl e, s).

Definition bind {A B} (m : M A) (k : A -> M B) : M B :=
  fun s =>
    match m s with
    | (inr a, s') => k a s'
    | (inl e, s') => (inl e, s')
    end.

(** [try { m } catch (e) { h e }] *)
Definition try_catch {A} (m : M A) (h : thrown -> M A) : M A :=
  fun s =>
    match m s with
    | (inr a, s') => (inr a, s')
    | (inl e, s') => h e s'
    end.

(** [try { m } finally { f }] for an [f] that does not throw. *)
Definition try_finally {A} (m : M A) (f : St -> St) : M A :=
  fun s => let '(r, s') := m s in (r, f s').

Definition modify (f : St -> St) : M unit := fun s => (inr tt, f s).
Definition gets {A} (f : St -> A) : M A := fun s => (inr (f s), s).

(** A call that the environment may make fail. *)
Definition may_throw (fault : option thrown) : M unit :=
  match fault with
  | Some e => throw e
  | None => ret tt
  end.

Definition lift {A} (r : thrown + A) : M A := fun s => (r, s).
End Effects.

End Js.

Notation "'let!' x ':=' m 'in' k" := (Js.bind m (fun x => k))
(at level 10, x name, m at level 100, k at level 200,
 format "'[v' 'let!'  x  ':='  m  'in' '/' k ']'").

(** ** The [CV] table and the rest of the world *)

Module Db.
Import Js.

(** The column [validationResults] holds JSON: the task stores
    [JSON.parse(JSON.stringify(processedResults))].  [JSON.stringify] writes
    NaN and the infinities as [null] and the negative zero as [0]; every
    other number is read back as it was written. *)
Definition json_number (x : Number.number) : option Number.number :=
  match x with
  | S754_nan | S754_infinity _ => None
  | S754_zero _ => Some (S754_zero false)
  | S754_finite _ _ _ => Some x
  end.

Record JsonField : Type := {
  j_field : string;
  j_status : Aggregator.status;
  j_confidence : option Number.number;      (* [None] is [null] *)
  j_reason : string;
  j_extractedValue : option string          (* [None]: no such key *)
}.

Record JsonSummary : Type := {
  j_totalChecked : nat;
  j_matchCount : nat;
  j_partialMatchCount : nat;
  j_noMatchCount : nat;
  j_overallConfidence : option Number.number
}.

Record JsonResults : Type := {
  j_fields : list JsonField;
  j_summary : JsonSummary
}.

Definition json_field (f : Aggregator.ValidationField) : JsonField :=
  {| j_field := Aggregator.field f;
     j_status := Aggregator.fstatus f;
     j_confidence := json_number (Aggregator.confidence f);
     j_reason := Aggregator.reason f;
     j_extractedValue := Aggregator.extractedValue f |}.

(** [JSON.parse(JSON.stringify(processedResults))] *)
Definition json_round_trip (r : Aggregator.ProcessedValidationResults)
  : JsonResults :=
  let s := Aggregator.summary r in
  {| j_fields := map json_field (Aggregator.pfields r);
     j_summary :=
       {| j_totalChecked := Aggregator.totalChecked s;
          j_matchCount := Aggregator.matchCount s;
          j_partialMatchCount := Aggregator.partialMatchCount s;
          j_noMatchCount := Aggregator.noMatchCount s;
          j_overallConfidence := json_number (Aggregator.overallConfidence s) |} |}.

(** A row of the [CV] table (the columns the code reads or writes). *)
Record CV : Type := {
  id : string;
  fullName : string;
  email : string;
  phone : option string;
  skills : option string;
  experience : option string;
  fileName : string;
  fileUrl : string;
  validationStatus : string;
  validationResults : option JsonResults;
  validationErrors : list string;
  validatedAt : option N
}.

(** Outbound requests of the validation task. *)
Inductive call : Type :=
| CallFetch (url : string)
| CallGetObject (name : string)
| CallModel.

(** The payload [tasks.trigger] is given. *)
Record TaskPayload : Type := {
  cvId : string;
  p_fileUrl : string;
  formData : Prompt.FormData
}.

Record World : Type := {
  bucket : gmap string (list Byte.byte);   (* the MinIO bucket 'cvs' *)
  table : gmap string CV;                  (* the CV table *)
  queue : list TaskPayload;                (* triggered validation tasks *)
  calls : list call                        (* requests made by the task *)
}.

Definition set_bucket (f : gmap string (list Byte.byte) -> gmap string (list Byte.byte))
  (w : World) : World :=
  {| bucket := f (bucket w); table := table w; queue := queue w;
     calls := calls w |}.

Definition set_table (f : gmap string CV -> gmap string CV) (w : World) : World :=
  {| bucket := bucket w; table := f (table w); queue := queue w;
     calls := calls w |}.

Definition enqueue (p : TaskPayload) (w : World) : World :=
  {| bucket := bucket w; table := table w; queue := queue w ++ [p];
     calls := calls w |}.

Definition record_call (c : call) (w : World) : World :=
  {| bucket := bucket w; table := table w; queue := queue w;
     calls := calls w ++ [c] |}.

Definition record_not_found : thrown :=
  ErrorObject "Record to update not found.".

(** [prisma.cV.update({ where: { id }, data })].  The call can fail for a
    reason of its own (the database cannot be reached, the query times out):
    that is [fault], and the table is then as before.  Otherwise the row is
    replaced by [f row]; without such a row the call throws. *)
Definition update (fault : option thrown) (key : string) (f : CV -> CV)
  : M (St := World) unit :=
  fun w =>
    match fault with
    | Some e => (inl e, w)
    | None =>
        match table w !! key with
        | Some row => (inr tt, set_table (fun t => <[key := f row]> t) w)
        | None => (inl record_not_found, w)
        end
    end.

End Db.

(** ** The upload route: [cvRouter.upload] *)

Module Upload.
Import Js Db.

Local Infix "+++" := String.append (right associativity, at level 60).

Definition MAX_FILE_SIZE : N := 10 * 1024 * 1024.
Definition PDF_MAGIC_BYTES : list Byte.byte :=
  [Byte.x25; Byte.x50; Byte.x44; Byte.x46].

(** What the route gets from outside the program. *)
Record Env : Type := {
  base64_decode : string -> list Byte.byte;   (* Buffer.from(s, 'base64') *)
  Date_now : N;
  MINIO_USE_SSL : string;
  MINIO_ENDPOINT : string;
  MINIO_PORT : string;
  putObject_fault : string -> list Byte.byte -> option thrown;
  create_fault : string -> option thrown;     (* by file name of the row *)
  new_id : string;                            (* the id the table assigns *)
  trigger_fault : TaskPayload -> option thrown
}.

(** The input of the mutation, after the schema of the route accepted it. *)
Record Input : Type := {
  i_fullName : string;
  i_email : string;
  i_phone : option string;
  i_skills : option string;
  i_experience : option string;
  i_fileName : string;
  i_fileContent : string
}.

Record Result : Type := {
  success : bool;
  r_id : string;
  r_message : string
}.

(** [PDF_MAGIC_BYTES.every((byte, index) => magicBytes[index] === byte)]
    with [magicBytes = Array.from(buffer.slice(0, 4))]. *)
Definition isPDF (buffer : list Byte.byte) : bool :=
  let magicBytes := firstn 4 buffer in
  forallb (fun '(index, byte) =>
             match nth_error magicBytes index with
             | Some b => Byte.eqb b byte
             | None => false
             end)
          (combine (seq 0 (List.length PDF_MAGIC_BYTES)) PDF_MAGIC_BYTES).

Definition too_large : thrown :=
  ErrorObject ("File too large. Maximum size is "
               +++ decimal_string (MAX_FILE_SIZE / (1024 * 1024)) +++ "MB").
Definition invalid_format : thrown :=
  ErrorObject "Invalid file format. Only PDF files are allowed.".
Definition invalid_extension : thrown :=
  ErrorObject "Invalid file extension. Only .pdf files are allowed.".

Definition validateFileContent (env : Env) (base64Content fileName : string)
  : thrown + list Byte.byte :=
  let buffer := base64_decode env base64Content in
  if (MAX_FILE_SIZE <? N.of_nat (List.length buffer))%N then inl too_large
  else if negb (isPDF buffer) then inl invalid_format
  else if negb (endsWith ".pdf" (toLowerCase fileName))
       then inl invalid_extension
  else inr buffer.

(** [minioClient.putObject('cvs', name, buffer, ...)] *)
Definition putObject (env : Env) (name : string) (buffer : list Byte.byte)
  : M (St := World) unit :=
  let! _ := may_throw (putObject_fault env name buffer) in
  modify (set_bucket (fun b => <[name := buffer]> b)).

Definition unique_constraint : thrown :=
  ErrorObject "Unique constraint failed on the fields: (`id`)".

(** [ctx.db.cV.create({ data })]; the validation columns take the defaults
    of the schema. *)
Definition create (env : Env) (input : Input) (uniqueFileName url : string)
  : M (St := World) CV :=
  let! _ := may_throw (create_fault env uniqueFileName) in
  let cv :=
    {| id := new_id env;
       fullName := i_fullName input;
       email := i_email input;
       phone := i_phone input;
       skills := i_skills input;
       experience := i_experience input;
       fileName := uniqueFileName;
       fileUrl := url;
       validationStatus := "pending";
       validationResults := None;
       validationErrors := [];
       validatedAt := None |} in
  let! t := gets table in
  match t !! new_id env with
  | Some _ => throw unique_constraint
  | None =>
      let! _ := modify (set_table (fun t => <[new_id env := cv]> t)) in
      ret cv
  end.

(** [tasks.trigger("validate-cv-data", payload)] *)
Definition trigger (env : Env) (payload : TaskPayload) : M (St := World) unit :=
  let! _ := may_throw (trigger_fault env payload) in
  modify (enqueue payload).

Definition storage_unavailable : thrown :=
  ErrorObject "Storage service is currently unavailable. Please try again later.".
Definition already_exists : thrown :=
  ErrorObject "A CV with this email already exists.".
Definition upload_failed : thrown :=
  ErrorObject "Failed to upload CV. Please try again.".

(** The outer [catch (error)] of the mutation. *)
Definition on_error (error : thrown) : thrown :=
  match error with
  | ErrorObject msg =>
      if includes "File too large" msg
         || includes "Invalid file format" msg
         || includes "Invalid file extension" msg
      then error
      else if includes "ECONNREFUSED" msg || includes "ENOTFOUND" msg
      then storage_unavailable
      else if includes "Unique constraint" msg
      then already_exists
      else upload_failed
  | NotAnError => upload_failed
  end.

(** [`${timestamp}-${input.fileName}`] *)
Definition unique_name (env : Env) (input : Input) : string :=
  let timestamp := Date_now env in
  decimal_string timestamp +++ "-" +++ i_fileName input.

(** [`${protocol}://${env.MINIO_ENDPOINT}:${env.MINIO_PORT}/cvs/${uniqueFileName}`] *)
Definition file_url (env : Env) (uniqueFileName : string) : string :=
  let protocol :=
    if String.eqb (MINIO_USE_SSL env) "true" then "https" else "http" in
  protocol +++ "://" +++ MINIO_ENDPOINT env +++ ":" +++ MINIO_PORT env
  +++ "/cvs/" +++ uniqueFileName.

(** The [payload] object handed to the task. *)
Definition task_payload (input : Input) (cv_id url : string) : TaskPayload :=
  {| cvId := cv_id;
     p_fileUrl := url;
     formData :=
       {| Prompt.fullName := i_fullName input;
          Prompt.email := i_email input;
          Prompt.phone := i_phone input;
          Prompt.skills := i_skills input;
          Prompt.experience := i_experience input |} |}.

Definition uploaded (cv_id : string) : Result :=
  {| success := true;
     r_id := cv_id;
     r_message := "CV uploaded successfully. AI validation is in progress." |}.

Definition upload (env : Env) (input : Input) : M (St := World) Result :=
  try_catch
    (let! fileBuffer :=
       lift (validateFileContent env (i_fileContent input) (i_fileName input)) in
     let uniqueFileName := unique_name env input in
     let! _ := putObject env uniqueFileName fileBuffer in
     let fileUrl := file_url env uniqueFileName in
     let! cv := create env input uniqueFileName fileUrl in
     let payload := task_payload input (id cv) fileUrl in
     let! _ :=
       try_catch (trigger env payload)
                 (fun triggerError => ret tt) in
     ret (uploaded (id cv)))
    (fun error => throw (on_error error)).

End Upload.

(** ** The background task: [validateCvDataTask] *)

Module Task.
Import Js Db.

Local Infix "+++" := String.append (right associativity, at level 60).

(** The payload as it arrives: any JSON-like value. *)
#[local] Set Warnings "-register-all".
Inductive value : Type :=
| VUndefined
| VNull
| VBool (b : bool)
| VNumber (n : Number.number)
| VString (s : string)
| VObject (props : list (string * value)).

Fixpoint assoc (key : string) (props : list (string * value)) : value :=
  match props with
  | [] => VUndefined
  | (k, v) :: rest => if String.eqb k key then v else assoc key rest
  end.

(** [v?.key] *)
Definition prop (key : string) (v : value) : value :=
  match v with
  | VObject props => assoc key props
  | _ => VUndefined
  end.

(** Truthiness, as tested by [if (v)]. *)
Definition truthy (v : value) : bool :=
  match v with
  | VUndefined | VNull => false
  | VBool b => b
  | VNumber (S754_zero _) | VNumber S754_nan => false
  | VNumber _ => true
  | VString s => negb (String.eqb s "")
  | VObject _ => true
  end.

(** [z.string()] and [z.string().optional()] *)
Definition z_string (v : value) : option string :=
  match v with
  | VString s => Some s
  | _ => None
  end.

Definition z_optional_string (v : value) : option (option string) :=
  match v with
  | VUndefined => Some None
  | VString s => Some (Some s)
  | _ => None
  end.

Definition parse_formData (v : value) : option Prompt.FormData :=
  match v with
  | VObject _ =>
      match z_string (prop "fullName" v), z_string (prop "email" v),
            z_optional_string (prop "phone" v),
            z_optional_string (prop "skills" v),
            z_optional_string (prop "experience" v) with
      | Some n, Some e, Some p, Some s, Some x =>
          Some {| Prompt.fullName := n; Prompt.email := e; Prompt.phone := p;
                  Prompt.skills := s; Prompt.experience := x |}
      | _, _, _, _, _ => None
      end
  | _ => None
  end.

Definition parse_payload (v : value) : option TaskPayload :=
  match v with
  | VObject _ =>
      match z_string (prop "cvId" v), z_string (prop "fileUrl" v),
            parse_formData (prop "formData" v) with
      | Some i, Some u, Some fd =>
          Some {| cvId := i; p_fileUrl := u; formData := fd |}
      | _, _, _ => None
      end
  | _ => None
  end.

Record Response : Type := {
  ok : bool;
  status : N;
  statusText : string;
  arrayBuffer : thrown + list Byte.byte
}.

Record Message : Type := { content : option Text.jstring }.
Record Choice : Type := { message : option Message }.
Record Completion : Type := { choices : option (list Choice) }.

Record ChatResponse : Type := {
  c_ok : bool;
  c_status : N;
  c_statusText : string;
  c_text : thrown + string;
  c_json : thrown + Completion
}.

Inductive Attachment : Type :=
| File (filename file_data : string)
| ImageUrl (url : string).

Record RequestBody : Type := {
  model : string;
  prompt_text : string;
  attachment : Attachment;
  temperature : Number.number
}.

(** The three places where the task updates the row: [validating] at the
    start, the results at the end, [failed] in the [catch].  A run reaches
    each of them at most once, so a fault for each place covers every way in
    which the database can fail during a run. *)
Inductive update_site : Type :=
| MarkValidating
| StoreResults
| MarkFailed.

(** What the task gets from outside the program. *)
Record Env : Type := {
  zod_message : value -> string;            (* text of the ZodError *)
  new_Date : N;
  update_fault : update_site -> option thrown;  (* a failing [prisma.cV.update] *)
  fetch : string -> thrown + Response;
  getObject : string -> thrown + list Byte.byte;
  base64_encode : list Byte.byte -> string; (* buffer.toString('base64') *)
  chat_completions : RequestBody -> thrown + ChatResponse;
  JSON_parse : Text.jstring -> thrown + Aggregator.AIValidationResponse
}.

(** [CVValidationPayload.parse(payload)] *)
Definition CVValidationPayload_parse (env : Env) (payload : value)
  : thrown + TaskPayload :=
  match parse_payload payload with
  | Some p => inr p
  | None => inl (ErrorObject (zod_message env payload))
  end.

(** [s.split('/')] *)
Fixpoint split_slash (s : string) : list string :=
  match s with
  | EmptyString => [EmptyString]
  | String a s' =>
      if Ascii.eqb a "/"%char then EmptyString :: split_slash s'
      else match split_slash s' with
           | w :: ws => String a w :: ws
           | [] => [String a EmptyString]
           end
  end.

Definition set_validating (row : CV) : CV :=
  {| id := id row; fullName := fullName row; email := email row;
     phone := phone row; skills := skills row; experience := experience row;
     fileName := fileName row; fileUrl := fileUrl row;
     validationStatus := "validating";
     validationResults := validationResults row;
     validationErrors := validationErrors row;
     validatedAt := validatedAt row |}.

Definition set_results (st : string)
  (res : JsonResults) (errs : list string)
  (now : N) (row : CV) : CV :=
  {| id := id row; fullName := fullName row; email := email row;
     phone := phone row; skills := skills row; experience := experience row;
     fileName := fileName row; fileUrl := fileUrl row;
     validationStatus := st;
     validationResults := Some res;
     validationErrors := errs;
     validatedAt := Some now |}.

Definition set_failed (errorMessage : string) (now : N) (row : CV) : CV :=
  {| id := id row; fullName := fullName row; email := email row;
     phone := phone row; skills := skills row; experience := experience row;
     fileName := fileName row; fileUrl := fileUrl row;
     validationStatus := "failed";
     validationResults := validationResults row;
     validationErrors := [errorMessage];
     validatedAt := Some now |}.

(** [prisma.cV.update] with [where: { id: v }] for an unchecked [v]. *)
Definition invalid_id : thrown :=
  ErrorObject "Argument `id`: Invalid value provided. Expected String.".

Definition update_where (fault : option thrown) (v : value) (f : CV -> CV)
  : M (St := World) unit :=
  match v with
  | VString key => update fault key f
  | _ => throw invalid_id
  end.

Definition do_fetch (env : Env) (url : string) : M (St := World) Response :=
  let! _ := modify (record_call (CallFetch url)) in
  lift (fetch env url).

Definition do_getObject (env : Env) (name : string)
  : M (St := World) (list Byte.byte) :=
  let! _ := modify (record_call (CallGetObject name)) in
  lift (getObject env name).

Definition do_chat (env : Env) (body : RequestBody)
  : M (St := World) ChatResponse :=
  let! _ := modify (record_call CallModel) in
  lift (chat_completions env body).

Definition gemini : string := "google/gemini-2.0-flash-001".

(** The [if (isPdf) ... else ...] that builds [requestBody]. *)
Definition build_request (env : Env) (validatedPayload : TaskPayload)
  : M (St := World) RequestBody :=
  let url := p_fileUrl validatedPayload in
  let isPdf := includes ".pdf" (toLowerCase url)
               || includes "pdf" (toLowerCase url) in
  let prompt :=
    Prompt.createDocumentValidationPrompt (formData validatedPayload) in
  if isPdf then
    let urlParts := split_slash url in
    let fileName := List.last urlParts EmptyString in
    let! pdfBuffer :=
      try_catch
        (let! response := do_fetch env url in
         if ok response then lift (arrayBuffer response)
         else throw (ErrorObject
                       ("Public access failed: "
                        +++ decimal_string (status response) +++ " "
                        +++ statusText response)))
        (fun publicError => do_getObject env fileName) in
    let base64PDF :=
      "data:application/pdf;base64," +++ base64_encode env pdfBuffer in
    ret {| model := gemini;
           prompt_text := prompt;
           attachment :=
             File (if String.eqb fileName "" then "document.pdf" else fileName)
                  base64PDF;
           temperature := Number.decimal 1 10 |}
  else
    ret {| model := gemini;
           prompt_text := prompt;
           attachment := ImageUrl url;
           temperature := Number.decimal 1 10 |}.

Definition type_error : thrown :=
  ErrorObject "Cannot read properties of undefined (reading '0')".

(** [completion.choices[0]?.message?.content] *)
Definition first_content (completion : Completion)
  : thrown + option Text.jstring :=
  match choices completion with
  | None => inl type_error
  | Some [] => inr None
  | Some (c :: _) =>
      inr (match message c with
           | Some m => content m
           | None => None
           end)
  end.

Record TaskResult : Type := {
  t_success : bool;
  t_cvId : string;
  t_status : string;
  t_results : Aggregator.ProcessedValidationResults;
  t_errors : list string
}.

(** The part of the outer [try] after the model was called: from the
    response to the update of the row. *)
Definition handle_response (env : Env) (validatedPayload : TaskPayload)
  (response : ChatResponse) : M (St := World) TaskResult :=
  let! _ :=
    if negb (c_ok response) then
      let! errorText := lift (c_text response) in
      throw (ErrorObject
               ("OpenRouter API error: "
                +++ decimal_string (c_status response) +++ " "
                +++ c_statusText response +++ " - " +++ errorText))
    else ret tt in
  let! completion := lift (c_json response) in
  let! aiResponse := lift (first_content completion) in
  match aiResponse with
  | None | Some [] => throw (ErrorObject "No response from OpenAI")
  | Some aiResponse =>
      let cleanedResponse := Text.clean aiResponse in
      let! validationResults := lift (JSON_parse env cleanedResponse) in
      let r := Aggregator.processValidationResults validationResults in
      let overallStatus :=
        Aggregator.overall_string (Aggregator.overallStatus r) in
      let! _ :=
        update (update_fault env StoreResults) (cvId validatedPayload)
               (set_results overallStatus
                            (json_round_trip (Aggregator.processedResults r))
                            (Aggregator.errors r) (new_Date env)) in
      ret {| t_success := true;
             t_cvId := cvId validatedPayload;
             t_status := overallStatus;
             t_results := Aggregator.processedResults r;
             t_errors := Aggregator.errors r |}
  end.

(** [payload.cvId], as the first [logger.log] of the body reads it: on
    [null] and [undefined] the read throws a TypeError. *)
Definition cannot_read_cvId (of_what : string) : thrown :=
  ErrorObject ("Cannot read properties of " +++ of_what
               +++ " (reading 'cvId')").

Definition read_cvId (payload : value) : thrown + value :=
  match payload with
  | VUndefined => inl (cannot_read_cvId "undefined")
  | VNull => inl (cannot_read_cvId "null")
  | _ => inr (prop "cvId" payload)
  end.

(** The body of the outer [try] after its first [logger.log]. *)
Definition pipeline_after_log (env : Env) (payload : value)
  : M (St := World) TaskResult :=
  let! validatedPayload := lift (CVValidationPayload_parse env payload) in
  let! _ :=
    update (update_fault env MarkValidating) (cvId validatedPayload)
           set_validating in
  let! requestBody := build_request env validatedPayload in
  let! response := do_chat env requestBody in
  handle_response env validatedPayload response.

(** The body of the outer [try]: the first [logger.log] evaluates
    [payload.cvId], then the rest runs. *)
Definition pipeline (env : Env) (payload : value) : M (St := World) TaskResult :=
  let! logged_cvId := lift (read_cvId payload) in
  pipeline_after_log env payload.

(** [error instanceof Error ? error.message : "Unknown validation error"] *)
Definition error_message (error : thrown) : string :=
  match error with
  | ErrorObject m => m
  | NotAnError => "Unknown validation error"
  end.

(** The outer [catch (error)]: the row is marked as failed when the payload
    has a truthy [cvId], a failure of that update is swallowed, and the
    error is thrown again. *)
Definition on_error (env : Env) (payload : value) (error : thrown)
  : M (St := World) TaskResult :=
  let errorMessage := error_message error in
  let! _ :=
    if truthy (prop "cvId" payload) then
      try_catch
        (update_where (update_fault env MarkFailed) (prop "cvId" payload)
                      (set_failed errorMessage (new_Date env)))
        (fun updateError => ret tt)
    else ret tt in
  throw error.

(** [prisma.$disconnect()] changes nothing of the world modelled here. *)
Definition disconnect (w : World) : World := w.

(** The [run] function of the task [validateCvDataTask]. *)
Definition validateCvDataTask (env : Env) (payload : value)
  : M (St := World) TaskResult :=
  try_finally
    (try_catch (pipeline env payload) (on_error env payload))
    disconnect.

(** How often the model endpoint was called. *)
Definition model_calls (w : World) : nat :=
  List.length
    (List.filter (fun c => match c with CallModel => true | _ => false end)
                 (calls w)).

End Task.

(** ** The statements of the specification *)

Module Spec.
Import Number Aggregator.

Definition is_status (s : status) (f : ValidationField) : bool :=
  status_eqb (fstatus f) s.

(** How many verdicts have status [s]. *)
Definition count (s : status) (fs : list ValidationField) : nat :=
  List.length (List.filter (is_status s) fs).

(** The checked verdicts: those whose status is not [not_found]. *)
Definition checked (fs : list ValidationField) : list ValidationField :=
  List.filter (fun f => negb (is_status not_found f)) fs.

(** [ceil(n * 0.7)] over the integers: the least [c] with [7 n <= 10 c]. *)
Definition ceil_70_percent (n : nat) : Z := (7 * Z.of_nat n + 9) / 10.

(** The outcome as the specification words it. *)
Definition outcome (fs : list ValidationField) : overall :=
  if existsb (is_status no_match) fs then failed
  else if forallb (is_status match_) (checked fs)
          || (ceil_70_percent (List.length (checked fs))
              <=? Z.of_nat (count match_ fs + count partial_match fs))
       then validated
  else failed.

(** The arithmetic mean of a list of numbers; 0 for the empty list. *)
Definition sum (xs : list number) : number := fold_left add xs zero.

Definition arithmetic_mean (xs : list number) : number :=
  match xs with
  | [] => zero
  | _ :: _ => div (sum xs) (of_nat (List.length xs))
  end.

(** The literals [0.9], [0.8] and [1.0]. *)
Definition lit_0_9 : number := S754_finite false 8106479329266893 (-53).
Definition lit_0_8 : number := S754_finite false 7205759403792794 (-53).
Definition lit_1_0 : number := S754_finite false 4503599627370496 (-52).

(** JavaScript arrays hold fewer than [2^32] elements. *)
Definition array_length_ok {A} (l : list A) : Prop :=
  Z.of_nat (List.length l) < 2 ^ 32.

(** The failure rule as the specification words it: whenever the body of
    the task raises [e], the record that the payload names is [failed] with
    the message of [e] as its only error. *)
Definition failure_forces_failed (env : Task.Env) (payload : Task.value)
  (w : Db.World) : Prop :=
  forall key row e w1,
    Task.prop "cvId" payload = Task.VString key ->
    Db.table w !! key = Some row ->
    Task.pipeline env payload w = (inl e, w1) ->
    exists w' failed_row,
      Task.validateCvDataTask env payload w = (inl e, w') /\
      Db.table w' !! key = Some failed_row /\
      Db.validationStatus failed_row = "failed"%string /\
      Db.validationErrors failed_row = [Task.error_message e].

End Spec.

(** ** Invariants used by the proofs *)

Module Logic.
Import Js Db.

(** Shifting [M] right by [j] bits: [lo] is what was shifted out, and the
    round and sticky bits say how [lo] compares with half a unit. *)
Definition loc_ok (j lo : Z) (r s : bool) : Prop :=
  match r, s with
  | false, false => lo = 0
  | false, true => 0 < lo /\ 2 * lo < 2 ^ j
  | true, false => 2 * lo = 2 ^ j
  | true, true => 2 ^ j < 2 * lo
  end.

Definition shr_inv (M j : Z) (x : shr_record) : Prop :=
  0 <= shr_m x /\
  exists lo, M = shr_m x * 2 ^ j + lo /\ 0 <= lo < 2 ^ j /\
             loc_ok j lo (shr_r x) (shr_s x).

(** Every run of [m] relates the world before to the world after by [R]. *)
Definition steps {A} (R : World -> World -> Prop) (m : M (St := World) A)
  : Prop :=
  forall w r w', m w = (r, w') -> R w w'.

(** No row of the table disappears. *)
Definition rows_kept (w w' : World) : Prop :=
  forall key, is_Some (table w !! key) -> is_Some (table w' !! key).

(** Rows are kept and the model endpoint is called exactly [n] more times. *)
Definition calls_model (n : nat) (w w' : World) : Prop :=
  rows_kept w w' /\
  Task.model_calls w' = (Task.model_calls w + n)%nat.

(** Rows are kept and the model endpoint is called at most once more. *)
Definition calls_model_at_most_once (w w' : World) : Prop :=
  rows_kept w w' /\
  (Task.model_calls w <= Task.model_calls w' <= Task.model_calls w + 1)%nat.

End Logic.

(** ** Sample data *)

Module Examples.
Import Number Aggregator Spec.

Definition verdict (name : string) (st : status) (c : number)
  : ValidationField :=
  {| field := name; fstatus := st; confidence := c;
     reason := String.append "about " name; extractedValue := None |}.

(** Ten checked verdicts of which six match and four carry a status outside
    the interface. *)
Definition six_of_ten : AIValidationResponse :=
  {| fields :=
       repeat (verdict "m" match_ lit_0_9) 6
       ++ repeat (verdict "x" (other "unclear") lit_0_8) 4 |}.

(** Seven matches, three partial matches and one field that was not found. *)
Definition seven_three : AIValidationResponse :=
  {| fields :=
       repeat (verdict "m" match_ lit_0_9) 7
       ++ repeat (verdict "p" partial_match lit_0_8) 3
       ++ [verdict "phone" not_found zero] |}.

Definition nothing_found : AIValidationResponse :=
  {| fields := [verdict "phone" not_found zero;
                verdict "skills" not_found zero] |}.

Definition one_mismatch : AIValidationResponse :=
  {| fields := [verdict "fullName" match_ lit_1_0;
                verdict "email" no_match lit_0_9;
                verdict "phone" not_found zero;
                verdict "skills" no_match lit_0_8] |}.

Definition three_confidences : AIValidationResponse :=
  {| fields := [verdict "fullName" match_ lit_0_9;
                verdict "email" not_found lit_0_8;
                verdict "phone" partial_match lit_1_0] |}.

(** A world with nothing stored, and an environment for the upload route
    in which storage and the table work and the task trigger throws. *)
Definition empty_world : Db.World :=
  {| Db.bucket := ∅; Db.table := ∅; Db.queue := []; Db.calls := [] |}.

Definition raw_bytes (s : string) : list Byte.byte :=
  map byte_of_ascii (list_ascii_of_string s).

Definition upload_env : Upload.Env :=
  {| Upload.base64_decode := raw_bytes;
     Upload.Date_now := 1753962000000%N;
     Upload.MINIO_USE_SSL := "false";
     Upload.MINIO_ENDPOINT := "localhost";
     Upload.MINIO_PORT := "9000";
     Upload.putObject_fault := fun _ _ => None;
     Upload.create_fault := fun _ => None;
     Upload.new_id := "cv1";
     Upload.trigger_fault :=
       fun _ => Some (Js.ErrorObject "TRIGGER_API_KEY is not set") |}.

Definition good_input : Upload.Input :=
  {| Upload.i_fullName := "Ada Lovelace";
     Upload.i_email := "ada@example.org";
     Upload.i_phone := None;
     Upload.i_skills := Some "mathematics";
     Upload.i_experience := None;
     Upload.i_fileName := "Ada CV.PDF";
     Upload.i_fileContent := "%PDF-1.4 ..." |}.

Definition text_input : Upload.Input :=
  {| Upload.i_fullName := "Ada Lovelace";
     Upload.i_email := "ada@example.org";
     Upload.i_phone := None;
     Upload.i_skills := None;
     Upload.i_experience := None;
     Upload.i_fileName := "cv.pdf.txt";
     Upload.i_fileContent := "%PDF-1.4 ..." |}.

(** A world with one uploaded CV, a well-shaped payload for it, and an
    environment for the task in which the document is served and the model
    answers with text that is not JSON. *)
Definition row1 : Db.CV :=
  {| Db.id := "cv1"; Db.fullName := "Ada Lovelace";
     Db.email := "ada@example.org"; Db.phone := None;
     Db.skills := Some "mathematics"; Db.experience := None;
     Db.fileName := "1753962000000-cv.pdf";
     Db.fileUrl := "http://localhost:9000/cvs/1753962000000-cv.pdf";
     Db.validationStatus := "pending"; Db.validationResults := None;
     Db.validationErrors := []; Db.validatedAt := None |}.

Definition one_cv : Db.World :=
  {| Db.bucket := ∅; Db.table := {[ "cv1"%string := row1 ]}; Db.queue := [];
     Db.calls := [] |}.

Definition payload1 : Task.value :=
  Task.VObject
    [("cvId"%string, Task.VString "cv1");
     ("fileUrl"%string,
      Task.VString "http://localhost:9000/cvs/1753962000000-cv.pdf");
     ("formData"%string,
      Task.VObject [("fullName"%string, Task.VString "Ada Lovelace");
                    ("email"%string, Task.VString "ada@example.org");
                    ("skills"%string, Task.VString "mathematics")])].

(** The same payload without its [fileUrl]: a shape error. *)
Definition payload_without_url : Task.value :=
  Task.VObject
    [("cvId"%string, Task.VString "cv1");
     ("formData"%string,
      Task.VObject [("fullName"%string, Task.VString "Ada Lovelace");
                    ("email"%string, Task.VString "ada@example.org")])].

Definition prose_reply : Task.ChatResponse :=
  {| Task.c_ok := true; Task.c_status := 200%N; Task.c_statusText := "OK";
     Task.c_text := inr ""%string;
     Task.c_json :=
       inr {| Task.choices :=
                Some [{| Task.message :=
                           Some {| Task.content :=
                                     Some (Text.units "Sure, here it is") |} |}] |} |}.

Definition task_env : Task.Env :=
  {| Task.zod_message := fun _ => "Required"%string;
     Task.new_Date := 1753962060000%N;
     Task.update_fault := fun _ => None;
     Task.fetch :=
       fun _ => inr {| Task.ok := true; Task.status := 200%N;
                       Task.statusText := "OK";
                       Task.arrayBuffer := inr (raw_bytes "%PDF-1.4 ...") |};
     Task.getObject := fun _ => inl (Js.ErrorObject "connect ECONNREFUSED");
     Task.base64_encode := fun _ => "JVBERi0xLjQgLi4u"%string;
     Task.chat_completions := fun _ => inr prose_reply;
     Task.JSON_parse :=
       fun _ => inl (Js.ErrorObject "Unexpected token S in JSON at position 0") |}.

Definition ada : Prompt.FormData :=
  {| Prompt.fullName := "Ada Lovelace";
     Prompt.email := "ada@example.org";
     Prompt.phone := None;
     Prompt.skills := Some "mathematics";
     Prompt.experience := None |}.

End Examples.

(** ** The payload between the route and the task *)

Module Wire.
Import Db Task.

(** An optional field of the input: its string, or [undefined]. *)
Definition optional_value (x : option string) : value :=
  match x with
  | Some s => VString s
  | None => VUndefined
  end.

(** The [formData] object of the payload that [upload] builds. *)
Definition formData_value (fd : Prompt.FormData) : value :=
  VObject [("fullName"%string, VString (Prompt.fullName fd));
           ("email"%string, VString (Prompt.email fd));
           ("phone"%string, optional_value (Prompt.phone fd));
           ("skills"%string, optional_value (Prompt.skills fd));
           ("experience"%string, optional_value (Prompt.experience fd))].

(** The [payload] object of [upload] as the task receives it. *)
Definition payload_value (p : TaskPayload) : value :=
  VObject [("cvId"%string, VString (cvId p));
           ("fileUrl"%string, VString (p_fileUrl p));
           ("formData"%string, formData_value (formData p))].

End Wire.

(** ** The queries of the router *)

Module Router.
Import Js Db.


(** The columns that [getValidationStatus] selects. *)
Record ValidationView : Type := {
  v_id : string;
  v_validationStatus : string;
  v_validationResults : option JsonResults;
  v_validationErrors : list string;
  v_validatedAt : option N
}.

Definition select_validation (cv : CV) : ValidationView :=
  {| v_id := id cv;
     v_validationStatus := validationStatus cv;
     v_validationResults := validationResults cv;
     v_validationErrors := validationErrors cv;
     v_validatedAt := validatedAt cv |}.

Definition cv_not_found : thrown := ErrorObject "CV not found".

(** [getValidationStatus] *)
Definition getValidationStatus (key : string) : M (St := World) ValidationView :=
  let! cv := gets (fun w => table w !! key) in
  match cv with
  | None => throw cv_not_found
  | Some cv => ret (select_validation cv)
  end.

End Router.

(** ** The polling of the form *)

Module Client.

(** The [refetchInterval] of the status query of [CVForm]: the status is
    [query.state.data?.validationStatus], absent before the first answer;
    [None] is [false], no further polling. *)
Definition refetchInterval (status : option string) : option N :=
  match status with
  | Some st =>
      if String.eqb st "pending" || String.eqb st "validating"
      then Some 3000%N else None
  | None => None
  end.

End Client.

(** ** The bucket at module load: [initBucket] *)

Module Minio.
Import Js.

Local Infix "+++" := String.append (right associativity, at level 60).

(** The bucket ['cvs'] of the object store. *)
Record Storage : Type := {
  bucket_exists : bool;
  bucket_policy : option string
}.

(** Which calls to the object store fail. *)
Record Env : Type := {
  bucketExists_fault : option thrown;
  makeBucket_fault : option thrown;
  setBucketPolicy_fault : option thrown
}.

Definition bucketExists (env : Env) : M (St := Storage) bool :=
  let! _ := may_throw (bucketExists_fault env) in
  gets bucket_exists.

Definition makeBucket (env : Env) : M (St := Storage) unit :=
  let! _ := may_throw (makeBucket_fault env) in
  modify (fun s => {| bucket_exists := true; bucket_policy := bucket_policy s |}).

Definition setBucketPolicy (env : Env) (policy : string)
  : M (St := Storage) unit :=
  let! _ := may_throw (setBucketPolicy_fault env) in
  modify (fun s => {| bucket_exists := bucket_exists s;
                      bucket_policy := Some policy |}).

(** [JSON.stringify(policy)] *)
Definition policy_json : string :=
  "{" +++ Prompt.q "Version" +++ ":" +++ Prompt.q "2012-10-17" +++ ","
  +++ Prompt.q "Statement" +++ ":[{"
  +++ Prompt.q "Sid" +++ ":" +++ Prompt.q "PublicReadGetObject" +++ ","
  +++ Prompt.q "Effect" +++ ":" +++ Prompt.q "Allow" +++ ","
  +++ Prompt.q "Principal" +++ ":" +++ Prompt.q "*" +++ ","
  +++ Prompt.q "Action" +++ ":[" +++ Prompt.q "s3:GetObject" +++ "],"
  +++ Prompt.q "Resource" +++ ":" +++ Prompt.q "arn:aws:s3:::cvs/*"
  +++ "}]}".

Definition initBucket (env : Env) : M (St := Storage) unit :=
  try_catch
    (let! exists_ := bucketExists env in
     let! _ := if negb exists_ then makeBucket env else ret tt in
     try_catch (setBucketPolicy env policy_json)
               (fun _ => ret tt))
    (fun _ => ret tt).

End Minio.

(** ** Further invariants and sample data *)

Module Frame.
Import Js Db.

(** The bucket, the queue and every row other than [key] are as before. *)
Definition untouched_except (key : string) (w w' : World) : Prop :=
  bucket w' = bucket w /\
  queue w' = queue w /\
  forall k, k <> key -> table w' !! k = table w !! k.

(** The table and the queue are as before. *)
Definition no_row_no_task (w w' : World) : Prop :=
  table w' = table w /\ queue w' = queue w /\ calls w' = calls w.

(** A string without the character [/]. *)
Fixpoint no_slash (s : string) : bool :=
  match s with
  | EmptyString => true
  | String a s' => negb (Ascii.eqb a "/"%char) && no_slash s'
  end.

(** Two rows with the same uploaded data: they differ at most in the
    validation columns. *)
Definition same_upload (a b : CV) : Prop :=
  id a = id b /\ fullName a = fullName b /\ email a = email b /\
  phone a = phone b /\ skills a = skills b /\ experience a = experience b /\
  fileName a = fileName b /\ fileUrl a = fileUrl b.

(** Nothing but the validation columns of the row [key] has changed. *)
Definition validation_only (key : string) (w w' : World) : Prop :=
  untouched_except key w w' /\
  forall row, table w !! key = Some row ->
              exists row', table w' !! key = Some row' /\ same_upload row row'.

(** Does the message contain one of the phrases by which the route
    recognizes the errors of [validateFileContent]? *)
Definition validation_phrase (msg : string) : bool :=
  includes "File too large" msg
  || includes "Invalid file format" msg
  || includes "Invalid file extension" msg.

(** A fault of the environment whose message has no such phrase. *)
Definition plain_fault (fault : option thrown) : bool :=
  match fault with
  | Some (ErrorObject msg) => negb (validation_phrase msg)
  | Some NotAnError | None => true
  end.

(** Is [suffix] what [s] ends with?  The relation that [endsWith] decides. *)
Definition ends_with (suffix s : string) : Prop :=
  exists pre, s = String.append pre suffix.

End Frame.

Module Samples.
Import Number Aggregator Spec.

Definition all_matches : AIValidationResponse :=
  {| fields := [Examples.verdict "fullName" match_ lit_1_0;
                Examples.verdict "email" match_ lit_0_9] |}.

(** [one_mismatch] in another order. *)
Definition one_mismatch_reordered : AIValidationResponse :=
  {| fields := [Examples.verdict "skills" no_match lit_0_8;
                Examples.verdict "phone" not_found zero;
                Examples.verdict "email" no_match lit_0_9;
                Examples.verdict "fullName" match_ lit_1_0] |}.

(** An upload environment in which everything works. *)
Definition working_env : Upload.Env :=
  {| Upload.base64_decode := Examples.raw_bytes;
     Upload.Date_now := 1753962000000%N;
     Upload.MINIO_USE_SSL := "false";
     Upload.MINIO_ENDPOINT := "localhost";
     Upload.MINIO_PORT := "9000";
     Upload.putObject_fault := fun _ _ => None;
     Upload.create_fault := fun _ => None;
     Upload.new_id := "cv1";
     Upload.trigger_fault := fun _ => None |}.

(** The object store refuses the connection. *)
Definition storage_down_env : Upload.Env :=
  {| Upload.base64_decode := Examples.raw_bytes;
     Upload.Date_now := 1753962000000%N;
     Upload.MINIO_USE_SSL := "false";
     Upload.MINIO_ENDPOINT := "localhost";
     Upload.MINIO_PORT := "9000";
     Upload.putObject_fault :=
       fun _ _ => Some (Js.ErrorObject "connect ECONNREFUSED 127.0.0.1:9000");
     Upload.create_fault := fun _ => None;
     Upload.new_id := "cv1";
     Upload.trigger_fault := fun _ => None |}.

(** The table refuses the row. *)
Definition table_down_env : Upload.Env :=
  {| Upload.base64_decode := Examples.raw_bytes;
     Upload.Date_now := 1753962000000%N;
     Upload.MINIO_USE_SSL := "false";
     Upload.MINIO_ENDPOINT := "localhost";
     Upload.MINIO_PORT := "9000";
     Upload.putObject_fault := fun _ _ => None;
     Upload.create_fault :=
       fun _ => Some (Js.ErrorObject "Can't reach database server");
     Upload.new_id := "cv1";
     Upload.trigger_fault := fun _ => None |}.

Definition payload_of_ada : Db.TaskPayload :=
  {| Db.cvId := "cv1";
     Db.p_fileUrl := "http://localhost:9000/cvs/1753962000000-cv.pdf";
     Db.formData := Examples.ada |}.

Definition good_reply : Task.ChatResponse :=
  {| Task.c_ok := true; Task.c_status := 200%N; Task.c_statusText := "OK";
     Task.c_text := inr ""%string;
     Task.c_json :=
       inr {| Task.choices :=
                Some [{| Task.message :=
                           Some {| Task.content :=
                                     Some (Text.units "{ }") |} |}] |} |}.

(** A task environment in which the public download fails, the object store
    serves the file and the model answers with two matches. *)
Definition answering_env : Task.Env :=
  {| Task.zod_message := fun _ => "Required"%string;
     Task.new_Date := 1753962060000%N;
     Task.update_fault := fun _ => None;
     Task.fetch := fun _ => inl (Js.ErrorObject "fetch failed");
     Task.getObject := fun _ => inr (Examples.raw_bytes "%PDF-1.4 ...");
     Task.base64_encode := fun _ => "JVBERi0xLjQgLi4u"%string;
     Task.chat_completions := fun _ => inr good_reply;
     Task.JSON_parse := fun _ => inr all_matches |}.

(** A task environment in which the row is set to [validating], the
    document is served, the model endpoint cannot be reached, and from then
    on the database cannot be reached either. *)
Definition database_lost_env : Task.Env :=
  {| Task.zod_message := fun _ => "Required"%string;
     Task.new_Date := 1753962060000%N;
     Task.update_fault :=
       fun site =>
         match site with
         | Task.MarkValidating => None
         | _ => Some (Js.ErrorObject "Can't reach database server")
         end;
     Task.fetch :=
       fun _ => inr {| Task.ok := true; Task.status := 200%N;
                       Task.statusText := "OK";
                       Task.arrayBuffer :=
                         inr (Examples.raw_bytes "%PDF-1.4 ...") |};
     Task.getObject := fun _ => inl (Js.ErrorObject "connect ECONNREFUSED");
     Task.base64_encode := fun _ => "JVBERi0xLjQgLi4u"%string;
     Task.chat_completions := fun _ => inl (Js.ErrorObject "fetch failed");
     Task.JSON_parse := fun _ => inr all_matches |}.

(** A task environment as [answering_env] in which the database rejects
    the update that stores the results. *)
Definition results_rejected_env : Task.Env :=
  {| Task.zod_message := fun _ => "Required"%string;
     Task.new_Date := 1753962060000%N;
     Task.update_fault :=
       fun site =>
         match site with
         | Task.StoreResults => Some (Js.ErrorObject "Query timed out")
         | _ => None
         end;
     Task.fetch := fun _ => inl (Js.ErrorObject "fetch failed");
     Task.getObject := fun _ => inr (Examples.raw_bytes "%PDF-1.4 ...");
     Task.base64_encode := fun _ => "JVBERi0xLjQgLi4u"%string;
     Task.chat_completions := fun _ => inr good_reply;
     Task.JSON_parse := fun _ => inr all_matches |}.

Definition storage_missing : Minio.Storage :=
  {| Minio.bucket_exists := false; Minio.bucket_policy := None |}.

Definition store_works : Minio.Env :=
  {| Minio.bucketExists_fault := None; Minio.makeBucket_fault := None;
     Minio.setBucketPolicy_fault := None |}.

End Samples.

(** * Proofs *)

(** ** Binary64 arithmetic: the threshold [Math.ceil(n * 0.7)] *)

Section Binary64.
  Import Number Logic.

Lemma digits2_pos_size p : digits2_pos p = Pos.size p.
Proof. induction p; simpl; congruence. Qed.

Lemma digits2_log2 p : Zpos (digits2_pos p) = Z.log2 (Zpos p) + 1.
Proof.
  rewrite digits2_pos_size.
  destruct p; simpl; try reflexivity; lia.
Qed.

Lemma digits2_bounds p :
  2 ^ (Zpos (digits2_pos p) - 1) <= Zpos p < 2 ^ Zpos (digits2_pos p).
Proof.
  rewrite digits2_log2.
  replace (Z.log2 (Zpos p) + 1 - 1) with (Z.log2 (Zpos p)) by lia.
  replace (Z.log2 (Zpos p) + 1) with (Z.succ (Z.log2 (Zpos p))) by lia.
  apply Z.log2_spec. lia.
Qed.

Lemma digits2_unique p d :
  2 ^ (d - 1) <= Zpos p < 2 ^ d -> Zpos (digits2_pos p) = d.
Proof.
  intros H. rewrite digits2_log2.
  assert (0 < d).
  { destruct (Z_lt_le_dec 0 d) as [|Hd]; [assumption|].
    assert (2 ^ d <= 2 ^ 0) by (destruct (Z.eq_dec d 0) as [->|]; [lia|rewrite Z.pow_neg_r by lia; simpl; lia]).
    simpl in *. lia. }
  assert (Z.log2 (Zpos p) = d - 1); [|lia].
  apply Z.log2_unique; [lia|]. replace (Z.succ (d - 1)) with d by lia. exact H.
Qed.

Lemma shr_1_inv M j x : 0 <= j -> shr_inv M j x -> shr_inv M (j + 1) (shr_1 x).
Proof.
  intros Hj [Hm [lo [HM [Hlo Hloc]]]].
  destruct x as [m r s]; simpl in *.
  assert (Hp : 2 ^ (j + 1) = 2 * 2 ^ j) by (rewrite Z.pow_add_r by lia; lia).
  assert (Hp0 : 0 < 2 ^ j) by (apply Z.pow_pos_nonneg; lia).
  unfold shr_inv.
  destruct m as [|[p|p|]|p]; simpl; try lia; (split; [lia|]).
  - (* 0 *) exists lo. rewrite Hp. repeat split; try lia.
    destruct r, s; simpl in *; lia.
  - (* p~1 *) exists (lo + 2 ^ j). rewrite Hp. repeat split; try lia.
    destruct r, s; simpl in *; lia.
  - exists lo. rewrite Hp. repeat split; try lia.
    destruct r, s; simpl in *; lia.
  - exists (lo + 2 ^ j). rewrite Hp. repeat split; try lia.
    destruct r, s; simpl in *; lia.
Qed.

Lemma shr_iter_inv p : forall M j x,
  0 <= j -> shr_inv M j x -> shr_inv M (j + Zpos p) (SpecFloat.iter_pos shr_1 p x).
Proof.
  induction p as [p IH|p IH|]; intros M j x Hj Hx; simpl.
  - replace (j + Zpos p~1) with (((j + 1) + Zpos p) + Zpos p) by lia.
    apply IH; [lia|]. apply IH; [lia|]. apply shr_1_inv; assumption.
  - replace (j + Zpos p~0) with ((j + Zpos p) + Zpos p) by lia.
    apply IH; [lia|]. apply IH; assumption.
  - apply shr_1_inv; assumption.
Qed.

Lemma shr_inv_start M : 0 <= M -> shr_inv M 0 (shr_record_of_loc M loc_Exact).
Proof.
  intros H. split; [exact H|]. exists 0. simpl. repeat split; lia.
Qed.

Lemma round_nearest_even_inv M j x :
  0 <= j -> shr_inv M j x ->
  let q := round_nearest_even (shr_m x) (loc_of_shr_record x) in
  shr_m x <= q <= shr_m x + 1 /\ 2 * Z.abs (q * 2 ^ j - M) <= 2 ^ j.
Proof.
  intros Hj [Hm [lo [HM [Hlo Hloc]]]].
  destruct x as [m r s]; simpl in *.
  assert (Hp0 : 0 < 2 ^ j) by (apply Z.pow_pos_nonneg; lia).
  destruct r, s; simpl in *; try destruct (Z.even m); split; try lia.
Qed.

Lemma fexp_normal d : -1074 <= d - 53 -> fexp prec emax d = d - 53.
Proof. unfold fexp, emin, prec, emax. lia. Qed.

Lemma shr_fexp_exact m e :
  Zpos (digits2_pos m) = 53 -> -1074 <= e ->
  shr_fexp prec emax (Zpos m) e loc_Exact
  = ({| shr_m := Zpos m; shr_r := false; shr_s := false |}, e).
Proof.
  intros Hd He. unfold shr_fexp. simpl Zdigits2. rewrite Hd.
  rewrite fexp_normal by lia.
  replace (53 + e - 53 - e) with 0 by lia. reflexivity.
Qed.

Lemma binary_round_aux_exact s m e :
  Zpos (digits2_pos m) = 53 -> -1074 <= e <= 971 ->
  binary_round_aux prec emax s (Zpos m) e loc_Exact = S754_finite s m e.
Proof.
  intros Hd He. unfold binary_round_aux.
  rewrite shr_fexp_exact by lia. simpl.
  rewrite shr_fexp_exact by lia. simpl.
  replace (e <=? emax - prec) with true; [reflexivity|].
  symmetry. apply Z.leb_le. unfold emax, prec. lia.
Qed.

Lemma binary_round_aux_normal s M e :
  let d := Zpos (digits2_pos M) in
  53 < d -> -1074 <= d + e - 53 -> d + e - 53 + 1 <= 971 ->
  exists m2 e2,
    binary_round_aux prec emax s (Zpos M) e loc_Exact = S754_finite s m2 e2 /\
    e + (d - 53) <= e2 <= e + (d - 53) + 1 /\
    2 * Z.abs (Zpos m2 * 2 ^ (e2 - e) - Zpos M) <= 2 ^ (d - 53).
Proof.
  intros d Hd Hlo Hhi.
  destruct (digits2_bounds M) as [HM1 HM2]. fold d in HM1, HM2.
  unfold binary_round_aux.
  assert (Hsh : shr_fexp prec emax (Zpos M) e loc_Exact
          = (SpecFloat.iter_pos shr_1 (Z.to_pos (d - 53))
               (shr_record_of_loc (Zpos M) loc_Exact), e + (d - 53))).
  { unfold shr_fexp. simpl Zdigits2. fold d. rewrite fexp_normal by lia.
    replace (d + e - 53 - e) with (d - 53) by lia.
    destruct (d - 53) eqn:E; try lia. reflexivity. }
  rewrite Hsh. clear Hsh.
  set (j := d - 53) in *.
  assert (Hinv : shr_inv (Zpos M) j
            (SpecFloat.iter_pos shr_1 (Z.to_pos j) (shr_record_of_loc (Zpos M) loc_Exact))).
  { replace j with (0 + Zpos (Z.to_pos j)) at 1 by (rewrite Z2Pos.id; lia).
    apply shr_iter_inv; [lia|]. apply shr_inv_start. lia. }
  set (x := SpecFloat.iter_pos shr_1 (Z.to_pos j) (shr_record_of_loc (Zpos M) loc_Exact)) in *.
  assert (Hj : 0 <= j) by lia.
  destruct (round_nearest_even_inv _ _ _ Hj Hinv) as [Hq Habs].
  set (q := round_nearest_even (shr_m x) (loc_of_shr_record x)) in *.
  destruct Hinv as [Hm [lo [HMeq [Hlo' _]]]].
  assert (Hpj : 0 < 2 ^ j) by (apply Z.pow_pos_nonneg; lia).
  assert (Hsplit : 2 ^ d = 2 ^ 53 * 2 ^ j).
  { rewrite <- Z.pow_add_r by lia. f_equal. lia. }
  assert (Hsplit1 : 2 ^ (d - 1) = 2 ^ 52 * 2 ^ j).
  { rewrite <- Z.pow_add_r by lia. f_equal. lia. }
  assert (Hmx : 2 ^ 52 <= shr_m x < 2 ^ 53).
  { split.
    - destruct (Z_lt_le_dec (shr_m x) (2 ^ 52)) as [Hc|Hc]; [exfalso|exact Hc].
      assert (shr_m x * 2 ^ j <= (2 ^ 52 - 1) * 2 ^ j)
        by (apply Z.mul_le_mono_nonneg_r; lia).
      lia.
    - destruct (Z_lt_le_dec (shr_m x) (2 ^ 53)) as [Hc|Hc]; [exact Hc|exfalso].
      assert (2 ^ 53 * 2 ^ j <= shr_m x * 2 ^ j)
        by (apply Z.mul_le_mono_nonneg_r; lia).
      lia. }
  destruct (Z.eq_dec q (2 ^ 53)) as [Hq53|Hq53].
  - (* the carry reaches 2^53 *)
    rewrite Hq53.
    assert (Hsh2 : shr_fexp prec emax (2 ^ 53) (e + j) loc_Exact
       = ({| shr_m := 2 ^ 52; shr_r := false; shr_s := false |}, e + j + 1)).
    { unfold shr_fexp. change (Zdigits2 (2 ^ 53)) with 54.
      rewrite fexp_normal by lia.
      replace (54 + (e + j) - 53 - (e + j)) with 1 by lia. reflexivity. }
    rewrite Hsh2. simpl shr_m. change (2 ^ 52) with (Zpos (2 ^ 52)%positive).
    cbv iota beta.
    replace (e + j + 1 <=? emax - prec) with true
      by (symmetry; apply Z.leb_le; unfold emax, prec; lia).
    eexists _, _. split; [reflexivity|]. split; [lia|].
    replace (e + j + 1 - e) with (j + 1) by lia.
    rewrite Z.pow_add_r by lia.
    change (Zpos (2 ^ 52)%positive * (2 ^ j * 2 ^ 1)) with (2 ^ 52 * (2 ^ j * 2)).
    rewrite Hq53 in Habs. replace (2 ^ 52 * (2 ^ j * 2)) with (2 ^ 53 * 2 ^ j) by (change (2^53) with (2 * 2^52); lia).
    exact Habs.
  - assert (Hqr : 2 ^ 52 <= q < 2 ^ 53) by lia.
    destruct q as [|qp|qp] eqn:Eq; try (exfalso; lia).
    assert (Hdq : Zpos (digits2_pos qp) = 53) by (apply digits2_unique; exact Hqr).
    rewrite shr_fexp_exact by lia. simpl shr_m. cbv iota beta.
    replace (e + j <=? emax - prec) with true
      by (symmetry; apply Z.leb_le; unfold emax, prec; lia).
    eexists _, _. split; [reflexivity|]. split; [lia|].
    replace (e + j - e) with j by lia. exact Habs.
Qed.

Lemma pos_iter_xO m k : Zpos (Pos.iter xO m k) = Zpos m * 2 ^ Zpos k.
Proof.
  induction k as [|k IH] using Pos.peano_ind.
  - simpl. lia.
  - rewrite Pos.iter_succ, Pos2Z.inj_succ, Z.pow_succ_r by lia.
    rewrite Pos2Z.inj_xO, IH. lia.
Qed.

Lemma of_Z_normal p :
  let d := Zpos (digits2_pos p) in
  d <= 53 ->
  exists m, of_Z (Zpos p) = S754_finite false m (d - 53) /\
            Zpos m = Zpos p * 2 ^ (53 - d) /\
            Zpos (digits2_pos m) = 53.
Proof.
  intros d Hd. unfold of_Z, binary_normalize, binary_round.
  assert (0 < d) by (unfold d; lia).
  replace (fexp prec emax (Zpos (digits2_pos p) + 0)) with (d - 53)
    by (fold d; rewrite fexp_normal; lia).
  unfold shl_align. replace (d - 53 - 0) with (d - 53) by lia.
  destruct (digits2_bounds p) as [Hb1 Hb2]. fold d in Hb1, Hb2.
  destruct (d - 53) as [|k|k] eqn:E; try lia.
  - exists p. assert (d = 53) by lia.
    rewrite binary_round_aux_exact by (fold d; lia).
    replace (53 - d) with 0 by lia. repeat split; [lia|fold d; lia].
  - assert (Hk : 53 - d = Zpos k) by lia.
    assert (Hdig : Zpos (digits2_pos (Pos.iter xO p k)) = 53).
    { apply digits2_unique. rewrite pos_iter_xO, <- Hk.
      replace (2 ^ (53 - 1)) with (2 ^ (d - 1) * 2 ^ (53 - d))
        by (rewrite <- Z.pow_add_r by lia; f_equal; lia).
      replace (2 ^ 53) with (2 ^ d * 2 ^ (53 - d))
        by (rewrite <- Z.pow_add_r by lia; f_equal; lia).
      assert (0 < 2 ^ (53 - d)) by (apply Z.pow_pos_nonneg; lia).
      split; [apply Z.mul_le_mono_nonneg_r; lia|apply Z.mul_lt_mono_pos_r; lia]. }
    exists (Pos.iter xO p k).
    rewrite binary_round_aux_exact by lia.
    repeat split; [|exact Hdig]. rewrite pos_iter_xO, Hk. reflexivity.
Qed.

Lemma cdiv_pow2_unique v k c :
  0 <= k -> (c - 1) * 2 ^ k < v <= c * 2 ^ k -> cdiv_pow2 v k = c.
Proof.
  intros Hk H. unfold cdiv_pow2.
  assert (0 < 2 ^ k) by (apply Z.pow_pos_nonneg; lia).
  assert ((- v) / 2 ^ k = - c); [|lia].
  symmetry. apply Z.div_unique with (r := c * 2 ^ k - v); lia.
Qed.

Lemma threshold_exact (n : nat) :
  Z.of_nat n < 2 ^ 49 ->
  Aggregator.threshold n = Int (Spec.ceil_70_percent n).
Proof.
  intros Hn. unfold Aggregator.threshold, Spec.ceil_70_percent, of_nat.
  destruct (Z.of_nat n) as [|p|p] eqn:En; try lia.
  - reflexivity.
  - clear En n.
    set (d := Zpos (digits2_pos p)).
    destruct (digits2_bounds p) as [Hb1 Hb2]. fold d in Hb1, Hb2.
    assert (Hd0 : 0 < d) by (unfold d; lia).
    assert (Hd : d <= 49).
    { destruct (Z_lt_le_dec 49 d) as [Hc|Hc]; [exfalso|exact Hc].
      assert (2 ^ 49 <= 2 ^ (d - 1)) by (apply Z.pow_le_mono_r; lia). lia. }
    destruct (of_Z_normal p ltac:(fold d; lia)) as [mn [Hof [Hmn Hdn]]].
    fold d in Hof, Hmn. rewrite Hof. unfold mul, lit_0_7, SFmul. simpl xorb.
    set (md := 6305039478318694%positive).
    set (t := 53 - d) in *.
    assert (Ht : 4 <= t <= 52) by lia.
    assert (HT : 16 <= 2 ^ t).
    { change 16 with (2 ^ 4). apply Z.pow_le_mono_r; lia. }
    set (T := 2 ^ t) in *.
    assert (HnT : 2 ^ 52 <= Zpos p * T < 2 ^ 53).
    { rewrite <- Hmn. destruct (digits2_bounds mn) as [H1 H2].
      rewrite Hdn in H1, H2. exact (conj H1 H2). }
    (* size of the exact product *)
    set (M := (mn * md)%positive).
    assert (HM : Zpos M = Zpos p * T * Zpos md) by (unfold M; rewrite Pos2Z.inj_mul, Hmn; reflexivity).
    assert (HMr : 2 ^ 104 <= Zpos M < 2 ^ 106).
    { rewrite HM. unfold md. lia. }
    set (dM := Zpos (digits2_pos M)).
    destruct (digits2_bounds M) as [HdM1 HdM2]. fold dM in HdM1, HdM2.
    assert (HdM : 105 <= dM <= 106).
    { split.
      - destruct (Z_lt_le_dec dM 105) as [Hc|Hc]; [exfalso|exact Hc].
        assert (2 ^ dM <= 2 ^ 104) by (apply Z.pow_le_mono_r; lia). lia.
      - destruct (Z_lt_le_dec 106 dM) as [Hc|Hc]; [exfalso|exact Hc].
        assert (2 ^ 106 <= 2 ^ (dM - 1)) by (apply Z.pow_le_mono_r; lia). lia. }
    destruct (binary_round_aux_normal false M (d - 53 + -53)
                ltac:(fold dM; lia) ltac:(fold dM; lia) ltac:(fold dM; lia))
      as [m2 [e2 [Hr [He2 Habs]]]].
    fold dM in He2, Habs. rewrite Hr. unfold ceil. simpl cond_Zopp.
    destruct (0 <=? e2) eqn:Ee; [apply Z.leb_le in Ee; lia|].
    f_equal. apply cdiv_pow2_unique; [lia|].
    set (c := (7 * Zpos p + 9) / 10).
    assert (Hc : 10 * (c - 1) + 1 <= 7 * Zpos p <= 10 * c).
    { unfold c. pose proof (Z.div_mod (7 * Zpos p + 9) 10 ltac:(lia)).
      pose proof (Z.mod_pos_bound (7 * Zpos p + 9) 10 ltac:(lia)). lia. }
    (* scale by 2^(e2 - e) *)
    set (e := d - 53 + -53) in *.
    set (sh := dM - 53) in *.
    assert (Hsh : 52 <= sh <= 53) by lia.
    set (g := e2 - e) in *.
    assert (Hg : sh <= g <= sh + 1) by lia.
    assert (HD : 2 ^ (- e) = T * 2 ^ 53).
    { unfold T. rewrite <- Z.pow_add_r by lia. f_equal. lia. }
    assert (HD2 : 2 ^ (- e) = 2 ^ (- e2) * 2 ^ g).
    { rewrite <- Z.pow_add_r by lia. f_equal. lia. }
    assert (Hg0 : 0 < 2 ^ g) by (apply Z.pow_pos_nonneg; lia).
    assert (He20 : 0 < 2 ^ (- e2)) by (apply Z.pow_pos_nonneg; lia).
    set (R := Zpos m2 * 2 ^ g) in *.
    assert (Hmd : 10 * Zpos md = 7 * 2 ^ 53 - 4) by reflexivity.
    assert (Hsh53 : 2 ^ sh <= 2 ^ 53) by (apply Z.pow_le_mono_r; lia).
    assert (Hshpos : 0 < 2 ^ sh) by (apply Z.pow_pos_nonneg; lia).
    (* bounds on R relative to c * 2^(-e) *)
    assert (HR : (c - 1) * 2 ^ (- e) < R <= c * 2 ^ (- e)).
    { rewrite HD. split.
      - (* lower *)
        assert (10 * R >= 10 * Zpos M - 5 * 2 ^ 53) by lia.
        assert (10 * Zpos M = 7 * Zpos p * (T * 2 ^ 53) - 4 * (Zpos p * T)) by (rewrite HM; lia).
        assert ((10 * (c - 1) + 1) * (T * 2 ^ 53) <= 7 * Zpos p * (T * 2 ^ 53))
          by (apply Z.mul_le_mono_nonneg_r; lia).
        lia.
      - (* upper *)
        assert (10 * Zpos M = 7 * Zpos p * (T * 2 ^ 53) - 4 * (Zpos p * T)) by (rewrite HM; lia).
        destruct (Z.eq_dec (7 * Zpos p) (10 * c)) as [Heq|Hne].
        + (* 0.7 n is an integer: both sides are multiples of 2^sh *)
          assert (HMlt : Zpos M < c * (T * 2 ^ 53)) by nia.
          assert (HRm : exists a, R = a * 2 ^ sh).
          { exists (Zpos m2 * 2 ^ (g - sh)). unfold R.
            rewrite <- Z.mul_assoc, <- Z.pow_add_r by lia. do 2 f_equal. lia. }
          assert (HCm : exists b, c * (T * 2 ^ 53) = b * 2 ^ sh).
          { exists (c * 2 ^ (t + 53 - sh)). rewrite <- Z.mul_assoc, <- Z.pow_add_r by lia.
            unfold T. rewrite <- Z.pow_add_r by lia. do 2 f_equal. lia. }
          destruct HRm as [a Ha], HCm as [b Hb]. rewrite Ha, Hb in *.
          assert (a <= b); [|apply Z.mul_le_mono_nonneg_r; lia].
          destruct (Z_lt_le_dec b a) as [Hba|Hba]; [exfalso|exact Hba].
          assert ((b + 1) * 2 ^ sh <= a * 2 ^ sh) by (apply Z.mul_le_mono_nonneg_r; lia).
          lia.
        + assert (7 * Zpos p * (T * 2 ^ 53) <= (10 * c - 1) * (T * 2 ^ 53))
            by (apply Z.mul_le_mono_nonneg_r; lia).
          assert (10 * R <= 10 * Zpos M + 5 * 2 ^ 53) by lia.
          lia. }
    rewrite HD2 in HR. unfold R in HR.
    split.
    + apply Z.mul_lt_mono_pos_r with (p := 2 ^ g); [lia|]. lia.
    + apply Z.mul_le_mono_pos_r with (p := 2 ^ g); [lia|]. lia.
Qed.

End Binary64.

(** ** The response aggregator *)

Section Aggregation.
  Import Number Aggregator Spec.

  Implicit Types (fs : list ValidationField) (r : AIValidationResponse).

Lemma filter_length_le {A} (p : A -> bool) (l : list A) :
  (List.length (List.filter p l) <= List.length l)%nat.
Proof. induction l as [|a l IH]; simpl; [lia|]. destruct (p a); simpl; lia. Qed.

Lemma forallb_filter_length {A} (p : A -> bool) (l : list A) :
  forallb p l = (List.length (List.filter p l) =? List.length l)%nat.
Proof.
  induction l as [|a l IH]; simpl; [reflexivity|].
  pose proof (filter_length_le p l).
  destruct (p a); simpl; [exact IH|].
  symmetry. apply Nat.eqb_neq. lia.
Qed.

Lemma existsb_filter_length {A} (p : A -> bool) (l : list A) :
  existsb p l = (0 <? List.length (List.filter p l))%nat.
Proof.
  induction l as [|a l IH]; simpl; [reflexivity|].
  destruct (p a); simpl; [reflexivity|exact IH].
Qed.

Lemma count_match_checked fs :
  count match_ fs = List.length (List.filter (is_status match_) (checked fs)).
Proof.
  unfold count, checked, is_status.
  induction fs as [|f fs IH]; simpl; [reflexivity|].
  destruct (fstatus f) eqn:E; simpl; rewrite ?E; simpl; rewrite ?IH; reflexivity.
Qed.

Lemma checked_split fs :
  (count match_ fs + count partial_match fs + count no_match fs
   <= List.length (checked fs))%nat.
Proof.
  unfold count, checked, is_status.
  induction fs as [|f fs IH]; simpl; [lia|].
  destruct (fstatus f) eqn:E; simpl; rewrite ?E; simpl; lia.
Qed.

(** What the loop has computed when it ends, started from any tally. *)
Lemma tally_fold fs : forall t,
  let t' := fold_left tally_step fs t in
  t_match t' = (t_match t + count match_ fs)%nat /\
  t_partial t' = (t_partial t + count partial_match fs)%nat /\
  t_noMatch t' = (t_noMatch t + count no_match fs)%nat /\
  t_total t' = (t_total t + List.length (checked fs))%nat /\
  t_errors t' = t_errors t ++ map field_error (List.filter (is_status no_match) fs).
Proof.
  induction fs as [|f fs IH]; intros t; simpl.
  - unfold count, checked. simpl. rewrite app_nil_r. repeat split; lia.
  - specialize (IH (tally_step t f)). simpl in IH.
    destruct IH as (H1 & H2 & H3 & H4 & H5).
    rewrite H1, H2, H3, H4, H5. clear H1 H2 H3 H4 H5.
    unfold tally_step, count, checked, is_status.
    destruct (fstatus f) eqn:E; simpl; rewrite ?E; simpl;
      rewrite <- ?app_assoc; simpl; repeat split; try reflexivity; lia.
Qed.

Lemma tally_errors_length fs :
  List.length (t_errors (tally fs)) = t_noMatch (tally fs).
Proof.
  destruct (tally_fold fs tally0) as (_ & _ & Hn & _ & He).
  fold (tally fs) in Hn, He. rewrite He, Hn. simpl.
  rewrite length_map. reflexivity.
Qed.

Lemma tally_counts fs :
  t_match (tally fs) = count match_ fs /\
  t_partial (tally fs) = count partial_match fs /\
  t_noMatch (tally fs) = count no_match fs /\
  t_total (tally fs) = List.length (checked fs) /\
  t_errors (tally fs) = map field_error (List.filter (is_status no_match) fs).
Proof. exact (tally_fold fs tally0). Qed.

Lemma processed_status r :
  overallStatus (processValidationResults r)
  = fst (decide_status (tally (fields r))).
Proof.
  unfold processValidationResults.
  destruct (decide_status (tally (fields r))); reflexivity.
Qed.

Lemma processed_errors r :
  errors (processValidationResults r)
  = snd (decide_status (tally (fields r))).
Proof.
  unfold processValidationResults.
  destruct (decide_status (tally (fields r))); reflexivity.
Qed.

Lemma processed_summary r :
  summary (processedResults (processValidationResults r))
  = {| totalChecked := t_total (tally (fields r));
       matchCount := t_match (tally (fields r));
       partialMatchCount := t_partial (tally (fields r));
       noMatchCount := t_noMatch (tally (fields r));
       overallConfidence := mean_confidence (fields r) |}.
Proof.
  unfold processValidationResults.
  destruct (decide_status (tally (fields r))); reflexivity.
Qed.

Lemma checked_length_ok fs :
  array_length_ok fs -> Z.of_nat (List.length (checked fs)) < 2 ^ 49.
Proof.
  unfold array_length_ok. intros H.
  pose proof (filter_length_le (fun f => negb (is_status not_found f)) fs) as Hle.
  fold (checked fs) in Hle.
  assert (2 ^ 32 < 2 ^ 49) by reflexivity. lia.
Qed.

Lemma ceil_70_percent_10 : ceil_70_percent 10 = 7.
Proof. reflexivity. Qed.

(** The sum that [reduce] computes is the sum of the confidences. *)
Lemma reduce_sum fs : forall acc,
  fold_left (fun sum f => add sum (confidence f)) fs acc
  = fold_left add (map confidence fs) acc.
Proof. induction fs as [|f fs IH]; intros acc; simpl; [reflexivity|apply IH]. Qed.

Lemma mean_confidence_mean fs :
  mean_confidence fs = arithmetic_mean (map confidence fs).
Proof.
  unfold mean_confidence, arithmetic_mean. rewrite reduce_sum.
  destruct fs as [|f fs]; [reflexivity|].
  simpl map. cbv iota. unfold Spec.sum. simpl List.length.
  rewrite length_map.
  replace (Nat.max (S (List.length fs)) 1) with (S (List.length fs)) by lia.
  reflexivity.
Qed.

Lemma all_not_found_filter fs :
  forallb (is_status not_found) fs = true ->
  forall s, s <> not_found -> List.filter (is_status s) fs = [].
Proof.
  intros Hall s Hs. induction fs as [|f fs IH]; [reflexivity|].
  simpl in Hall. apply andb_prop in Hall as [Hf Hfs].
  simpl. rewrite (IH Hfs). unfold is_status in *.
  destruct (fstatus f), s; simpl in *; try discriminate; congruence.
Qed.

Lemma all_not_found_checked fs :
  forallb (is_status not_found) fs = true -> checked fs = [].
Proof.
  intros Hall. unfold checked. induction fs as [|f fs IH]; [reflexivity|].
  simpl in Hall. apply andb_prop in Hall as [Hf Hfs].
  simpl. rewrite Hf. simpl. exact (IH Hfs).
Qed.

(** The decision of the code is the outcome of the specification. *)
Lemma processed_outcome r :
  array_length_ok (fields r) ->
  overallStatus (processValidationResults r) = outcome (fields r).
Proof.
  intros Hlen.
  rewrite processed_status. unfold decide_status, outcome.
  destruct (tally_counts (fields r)) as (Hm & Hp & Hn & Ht & He).
  rewrite Hm, Hp, Hn, Ht.
  rewrite threshold_exact by (apply checked_length_ok; exact Hlen).
  rewrite existsb_filter_length. fold (count no_match (fields r)).
  destruct (0 <? count no_match (fields r))%nat; [reflexivity|].
  rewrite forallb_filter_length, <- count_match_checked.
  simpl ge_integral.
  destruct (count match_ (fields r) =? List.length (checked (fields r)))%nat eqn:Eall;
    simpl.
  - destruct (0 <? List.length (checked (fields r)))%nat eqn:Epos; [reflexivity|].
    simpl. apply Nat.ltb_ge in Epos.
    replace (List.length (checked (fields r))) with 0%nat by lia.
    change (ceil_70_percent 0) with 0.
    replace (0 <=? Z.of_nat (count match_ (fields r)
                             + count partial_match (fields r)))
      with true by (symmetry; apply Z.leb_le; lia).
    reflexivity.
  - destruct (ceil_70_percent (List.length (checked (fields r)))
              <=? Z.of_nat (count match_ (fields r)
                            + count partial_match (fields r)));
      reflexivity.
Qed.

(** When every status is one of the four of the interface, a checked verdict
    is a match, a partial match or a mismatch. *)
Lemma checked_split_interface fs :
  forallb (fun f => match fstatus f with other _ => false | _ => true end) fs
  = true ->
  List.length (checked fs)
  = (count match_ fs + count partial_match fs + count no_match fs)%nat.
Proof.
  unfold count, checked, is_status.
  induction fs as [|f fs IH]; simpl; [reflexivity|].
  intros H. apply andb_prop in H as [Hf Hfs]. specialize (IH Hfs).
  destruct (fstatus f) eqn:E; simpl; rewrite ?E; simpl; try lia;
    discriminate.
Qed.

(** When every status is one of the four of the interface, the threshold is
    always met: the outcome is [failed] only through a [no_match] verdict. *)
Lemma interface_threshold_met r :
  array_length_ok (fields r) ->
  forallb (fun f => match fstatus f with other _ => false | _ => true end)
          (fields r) = true ->
  existsb (is_status no_match) (fields r) = false ->
  overallStatus (processValidationResults r) = validated.
Proof.
  intros Hlen Hint Hno. rewrite (processed_outcome r Hlen). unfold outcome.
  rewrite Hno.
  pose proof (checked_split_interface (fields r) Hint) as Hs.
  rewrite existsb_filter_length in Hno. fold (count no_match (fields r)) in Hno.
  apply Nat.ltb_ge in Hno.
  replace (ceil_70_percent (List.length (checked (fields r)))
           <=? Z.of_nat (count match_ (fields r) + count partial_match (fields r)))
    with true; [rewrite orb_true_r; reflexivity|].
  symmetry. apply Z.leb_le. unfold ceil_70_percent.
  replace (count match_ (fields r) + count partial_match (fields r))%nat
    with (List.length (checked (fields r))) by lia.
  apply Z.lt_succ_r. apply Z.div_lt_upper_bound; lia.
Qed.

End Aggregation.

Section AggregationClaims.
  Import Number Aggregator Spec.

(** C1, as the code behaves.  When every verdict is [not_found] nothing is
    checked, the first two branches of the decision are not taken, and the
    third one compares 0 with [Math.ceil(0 * 0.7) = 0]: the outcome is
    [validated] and no error is reported.  The specification asks for
    [failed] with the generic message here. *)
Theorem all_not_found_is_validated (r : AIValidationResponse) :
  forallb (is_status not_found) (fields r) = true ->
  totalChecked (summary (processedResults (processValidationResults r))) = 0%nat /\
  overallStatus (processValidationResults r) = validated /\
  errors (processValidationResults r) = [].
Proof.
  intros Hall.
  rewrite processed_summary, processed_status, processed_errors. simpl.
  destruct (tally_counts (fields r)) as (Hm & Hp & Hn & Ht & He).
  pose proof (all_not_found_filter (fields r) Hall) as Hnone.
  pose proof (all_not_found_checked (fields r) Hall) as Hc.
  unfold decide_status.
  rewrite Hm, Hp, Hn, Ht, He. unfold count. rewrite Hc.
  rewrite !Hnone by discriminate. simpl. split; [reflexivity|].
  split; reflexivity.
Qed.

Lemma all_not_found_is_validated_witness :
  forallb (is_status not_found) (fields Examples.nothing_found) = true /\
  (totalChecked (summary (processedResults
      (processValidationResults Examples.nothing_found))) = 0%nat /\
   overallStatus (processValidationResults Examples.nothing_found) = validated /\
   errors (processValidationResults Examples.nothing_found) = []).
Proof.
  split; [reflexivity|].
  apply (all_not_found_is_validated Examples.nothing_found). reflexivity.
Defined.

(** C2.  The outcome of [processValidationResults] is the one the
    specification describes: [failed] if some verdict is [no_match];
    otherwise [validated] if every checked verdict is a match or if matches
    and partial matches together reach [ceil(0.7 * totalChecked)]; otherwise
    [failed].  In particular ten checked verdicts with seven matches and three
    partial matches are validated. *)
Theorem outcome_policy (r : AIValidationResponse) :
  array_length_ok (fields r) ->
  overallStatus (processValidationResults r) = outcome (fields r) /\
  (List.length (checked (fields r)) = 10%nat ->
   count match_ (fields r) = 7%nat ->
   count partial_match (fields r) = 3%nat ->
   overallStatus (processValidationResults r) = validated).
Proof.
  intros Hlen. pose proof (processed_outcome r Hlen) as Hmain.
  split; [exact Hmain|].
  intros H10 H7 H3. rewrite Hmain. unfold outcome.
  pose proof (checked_split (fields r)) as Hs.
  rewrite existsb_filter_length. fold (count no_match (fields r)).
  replace (count no_match (fields r)) with 0%nat by lia.
  rewrite H10, H7, H3. simpl.
  destruct (forallb (is_status match_) (checked (fields r))); reflexivity.
Qed.

Lemma outcome_policy_witness :
  array_length_ok (fields Examples.seven_three) /\
  (overallStatus (processValidationResults Examples.seven_three)
   = outcome (fields Examples.seven_three) /\
   (List.length (checked (fields Examples.seven_three)) = 10%nat ->
    count match_ (fields Examples.seven_three) = 7%nat ->
    count partial_match (fields Examples.seven_three) = 3%nat ->
    overallStatus (processValidationResults Examples.seven_three) = validated)).
Proof.
  split; [reflexivity|].
  apply (outcome_policy Examples.seven_three). reflexivity.
Defined.

(** C3.  With at least one [no_match] verdict the outcome is [failed],
    whatever the other verdicts are, and the error list holds exactly the
    entries ["<field>: <reason>"] of the [no_match] verdicts, in input
    order: the name of the field, a colon, a space, the reason. *)
Theorem no_match_fails (r : AIValidationResponse) :
  existsb (is_status no_match) (fields r) = true ->
  overallStatus (processValidationResults r) = failed /\
  errors (processValidationResults r)
  = map (fun f => String.append (field f) (String.append ": " (reason f)))
        (List.filter (fun f => status_eqb (fstatus f) no_match) (fields r)).
Proof.
  intros Hex. rewrite processed_status, processed_errors.
  unfold decide_status.
  destruct (tally_counts (fields r)) as (Hm & Hp & Hn & Ht & He).
  rewrite existsb_filter_length in Hex. fold (count no_match (fields r)) in Hex.
  rewrite Hn, Hex. simpl. split; [reflexivity|exact He].
Qed.

Lemma no_match_fails_witness :
  existsb (is_status no_match) (fields Examples.one_mismatch) = true /\
  (overallStatus (processValidationResults Examples.one_mismatch) = failed /\
   errors (processValidationResults Examples.one_mismatch)
   = ["email: about email"%string; "skills: about skills"%string]).
Proof.
  split; [reflexivity|].
  apply (no_match_fails Examples.one_mismatch). reflexivity.
Defined.



(** The literals are the binary64 values nearest to the decimals. *)
Lemma literals_are_nearest :
  lit_0_7 = decimal 7 10 /\ lit_0_9 = decimal 9 10 /\
  lit_0_8 = decimal 8 10 /\ lit_1_0 = of_Z 1.
Proof. repeat split; reflexivity. Qed.

(** C5.  [overallConfidence] is the arithmetic mean of the confidences of
    all verdicts, those that were not found included; it is 0 for the empty
    list and 0.9 for the confidences 0.9, 0.8 and 1.0. *)
Theorem overall_confidence_is_mean (r : AIValidationResponse) :
  let c := overallConfidence
             (summary (processedResults (processValidationResults r))) in
  c = arithmetic_mean (map confidence (fields r)) /\
  (fields r = [] -> c = zero) /\
  (map confidence (fields r) = [lit_0_9; lit_0_8; lit_1_0] -> c = lit_0_9).
Proof.
  intros c. subst c. rewrite processed_summary. simpl.
  rewrite mean_confidence_mean. split; [reflexivity|]. split.
  - intros ->. reflexivity.
  - intros ->. reflexivity.
Qed.

(** Six matches among ten checked verdicts are below the threshold of seven:
    the outcome is [failed] with the generic message alone. *)
Example below_threshold :
  overallStatus (processValidationResults Examples.six_of_ten) = failed /\
  errors (processValidationResults Examples.six_of_ten) = [generic_error] /\
  totalChecked (summary (processedResults
     (processValidationResults Examples.six_of_ten))) = 10%nat.
Proof. repeat split; reflexivity. Qed.

Example overall_confidence_three :
  overallConfidence
    (summary (processedResults
       (processValidationResults Examples.three_confidences))) = lit_0_9.
Proof. reflexivity. Qed.

End AggregationClaims.

(** ** The clean-up of the model's reply *)

Section Fences.
  Import Text.

  Implicit Types (s x y w p : jstring) (c : code_unit).

Lemma replace_open_unfold p s :
  replace_open p s
  = if startsWith p s then trimStart (skipn (List.length p) s)
    else match s with
         | c :: s' => c :: replace_open p s'
         | [] => []
         end.
Proof. destruct s; reflexivity. Qed.

Lemma replace_close_unfold s :
  replace_close s
  = if matches_close s then []
    else match s with
         | c :: s' => c :: replace_close s'
         | [] => []
         end.
Proof. destruct s; reflexivity. Qed.

Lemma matches_close_unfold s :
  matches_close s
  = jeqb s backticks
    || match s with
       | c :: s' => is_space c && matches_close s'
       | [] => false
       end.
Proof. destruct s; reflexivity. Qed.

Lemma startsWith_prefix p s : startsWith p (p ++ s) = true.
Proof.
  induction p as [|c p IH]; simpl; [reflexivity|].
  rewrite N.eqb_refl. exact IH.
Qed.

Lemma startsWith_longer p q s :
  startsWith p s = false -> startsWith (p ++ q) s = false.
Proof.
  revert s. induction p as [|c p IH]; intros s H; simpl in *; [discriminate|].
  destruct s as [|d s]; [reflexivity|].
  destruct (c =? d)%N; simpl in *; [apply IH; exact H|reflexivity].
Qed.

Lemma skipn_prefix p s : skipn (List.length p) (p ++ s) = s.
Proof. induction p as [|c p IH]; simpl; [reflexivity|exact IH]. Qed.

Lemma replace_open_prefix p s : replace_open p (p ++ s) = trimStart s.
Proof.
  rewrite replace_open_unfold, startsWith_prefix, skipn_prefix. reflexivity.
Qed.

Lemma trimStart_spaces w s :
  all_space w = true -> trimStart (w ++ s) = trimStart s.
Proof.
  induction w as [|c w IH]; simpl; [reflexivity|].
  intros H. apply andb_prop in H as [Hc Hw]. rewrite Hc. exact (IH Hw).
Qed.

Lemma trimStart_app x s :
  trimStart (x ++ s)
  = match trimStart x with
    | [] => trimStart s
    | y => y ++ s
    end.
Proof.
  induction x as [|c x IH]; simpl; [reflexivity|].
  destruct (is_space c); [exact IH|reflexivity].
Qed.

Lemma trimEnd_nil s : trimEnd s = [] <-> all_space s = true.
Proof.
  induction s as [|c s IH]; simpl; [tauto|].
  destruct (trimEnd s) as [|d t] eqn:E.
  - destruct (is_space c); simpl; [tauto|]. split; discriminate.
  - split; [discriminate|]. intros H. apply andb_prop in H as [_ H].
    apply IH in H. discriminate.
Qed.

Lemma trimEnd_keep s t : trimEnd t <> [] -> trimEnd (s ++ t) = s ++ trimEnd t.
Proof.
  intros Ht. induction s as [|c s IH]; simpl; [reflexivity|].
  rewrite IH. destruct (s ++ trimEnd t) as [|d u] eqn:E; [|reflexivity].
  apply app_eq_nil in E as [_ E]. contradiction.
Qed.

Lemma jeqb_length s t : jeqb s t = true -> List.length s = List.length t.
Proof.
  revert t. induction s as [|c s IH]; intros [|d t] H; simpl in *;
    try discriminate; [reflexivity|].
  apply andb_prop in H as [_ H]. f_equal. exact (IH _ H).
Qed.

Lemma matches_close_spaces w :
  all_space w = true -> matches_close (w ++ backticks) = true.
Proof.
  induction w as [|c w IH]; intros H; [reflexivity|].
  simpl in H. apply andb_prop in H as [Hc Hw].
  simpl app. rewrite matches_close_unfold, Hc, (IH Hw).
  apply orb_true_r.
Qed.

Lemma matches_close_app s w :
  all_space w = true -> matches_close (s ++ w ++ backticks) = all_space s.
Proof.
  intros Hw. induction s as [|c s IH]; [exact (matches_close_spaces w Hw)|].
  simpl app. rewrite matches_close_unfold, IH.
  destruct (jeqb (c :: s ++ w ++ backticks) backticks) eqn:E; [|reflexivity].
  apply jeqb_length in E. simpl in E. rewrite !length_app in E.
  simpl in E. lia.
Qed.

Lemma replace_close_app y w :
  all_space w = true -> replace_close (y ++ w ++ backticks) = trimEnd y.
Proof.
  intros Hw. induction y as [|c y IH].
  - simpl app. rewrite replace_close_unfold, matches_close_spaces by exact Hw.
    reflexivity.
  - rewrite replace_close_unfold, matches_close_app by exact Hw.
    change ((c :: y) ++ w ++ backticks) with (c :: (y ++ w ++ backticks)).
    cbv iota. rewrite IH. simpl.
    destruct (is_space c) eqn:Ec; simpl.
    + destruct (all_space y) eqn:Ey.
      * apply trimEnd_nil in Ey. rewrite Ey. reflexivity.
      * destruct (trimEnd y) as [|d t] eqn:Et; [|reflexivity].
        apply trimEnd_nil in Et. congruence.
    + destruct (trimEnd y); reflexivity.
Qed.

Lemma trim_fenced tag w1 x w2 :
  trim (fenced tag w1 x w2) = fenced tag w1 x w2.
Proof.
  unfold trim, fenced. change (trimStart (backticks ++ ?r)) with (backticks ++ r).
  rewrite !app_assoc. rewrite trimEnd_keep; [reflexivity|discriminate].
Qed.

(** What is left of a fenced reply is the reply without the white space
    around it, provided the opening fence is what [replace_open] removes. *)
Lemma strip_fence open_ w1 x w2 :
  all_space w1 = true -> all_space w2 = true ->
  replace_close (replace_open open_ (open_ ++ w1 ++ x ++ w2 ++ backticks))
  = trim x.
Proof.
  intros H1 H2. rewrite replace_open_prefix, trimStart_spaces by exact H1.
  rewrite trimStart_app. unfold trim.
  destruct (trimStart x) as [|c y] eqn:E.
  - rewrite trimStart_spaces by exact H2.
    change (trimStart backticks) with ([] ++ [] ++ backticks).
    apply replace_close_app. reflexivity.
  - apply replace_close_app. exact H2.
Qed.

Lemma clean_json_fence w1 x w2 :
  all_space w1 = true -> all_space w2 = true ->
  clean (fenced (units "json") w1 x w2) = trim x.
Proof.
  intros H1 H2. unfold clean. rewrite trim_fenced. unfold fenced.
  rewrite (app_assoc backticks (units "json")).
  change (backticks ++ units "json") with (units "```json").
  rewrite startsWith_prefix. apply strip_fence; assumption.
Qed.

Lemma clean_plain_fence w1 x w2 :
  all_space w1 = true -> all_space w2 = true -> w1 <> [] ->
  clean (fenced [] w1 x w2) = trim x.
Proof.
  intros H1 H2 Hne. unfold clean. rewrite trim_fenced. unfold fenced.
  simpl ([] ++ _).
  assert (Hj : startsWith (units "```json") (backticks ++ w1 ++ x ++ w2 ++ backticks)
               = false).
  { destruct w1 as [|c w1]; [contradiction|].
    simpl in H1. apply andb_prop in H1 as [Hc _].
    change (startsWith (units "```json") (backticks ++ (c :: w1) ++ x ++ w2 ++ backticks))
      with ((106 =? c)%N && startsWith (units "son") (w1 ++ x ++ w2 ++ backticks)).
    destruct (N.eqb_spec 106 c) as [<-|]; [discriminate|reflexivity]. }
  rewrite Hj, startsWith_prefix. apply strip_fence; assumption.
Qed.

Lemma clean_unfenced x :
  startsWith backticks (trim x) = false -> clean x = trim x.
Proof.
  intros H. unfold clean.
  change (units "```json") with (backticks ++ units "json").
  rewrite startsWith_longer by exact H. rewrite H. reflexivity.
Qed.

(** C6.  A reply wrapped in a fence (with the tag [json], or without a tag
    and with the fence on a line of its own) is parsed like the reply itself:
    the clean-up hands the same text to the parser.  The reply must not itself
    start with three backticks, which no JSON text does. *)
Theorem fenced_reply_parsed_alike {R : Type} (parse : jstring -> R)
    (x w1 w2 : jstring) :
  all_space w1 = true -> all_space w2 = true ->
  startsWith backticks (trim x) = false ->
  parse (clean (fenced (units "json") w1 x w2)) = parse (clean x) /\
  (w1 <> [] -> parse (clean (fenced [] w1 x w2)) = parse (clean x)).
Proof.
  intros H1 H2 Hx. rewrite (clean_unfenced x Hx). split.
  - rewrite clean_json_fence by assumption. reflexivity.
  - intros Hne. rewrite clean_plain_fence by assumption. reflexivity.
Qed.

Lemma fenced_reply_parsed_alike_witness :
  all_space newline = true /\ all_space newline = true /\
  startsWith backticks (trim (units "{ }")) = false /\
  (List.length (clean (fenced (units "json") newline (units "{ }") newline))
   = List.length (clean (units "{ }")) /\
   (newline <> [] ->
    List.length (clean (fenced [] newline (units "{ }") newline))
    = List.length (clean (units "{ }")))).
Proof.
  split; [reflexivity|]. split; [reflexivity|]. split; [reflexivity|].
  apply (fenced_reply_parsed_alike (@List.length code_unit)
           (units "{ }") newline newline); reflexivity.
Defined.

Example clean_fenced_example :
  clean (units "```json
{ }
```") = units "{ }".
Proof. reflexivity. Qed.

End Fences.

(** ** The prompt builder *)

Section PromptBuilder.
  Import Prompt.

  Local Infix "+++" := String.append (right associativity, at level 60).

Lemma string_app_assoc (a b c : string) : (a +++ b) +++ c = a +++ b +++ c.
Proof.
  induction a as [|x a IH]; [reflexivity|].
  change (String x ((a +++ b) +++ c) = String x (a +++ b +++ c)).
  rewrite IH. reflexivity.
Qed.

Lemma string_app_nil_r (a : string) : a +++ "" = a.
Proof.
  induction a as [|x a IH]; [reflexivity|].
  change (String x (a +++ "") = String x a). rewrite IH. reflexivity.
Qed.

Lemma occurs_in_refl (a : string) : occurs_in a a.
Proof.
  exists ""%string, ""%string. change ("" +++ a +++ "") with (a +++ "").
  rewrite string_app_nil_r. reflexivity.
Qed.

Lemma occurs_in_left (a b c : string) : occurs_in a b -> occurs_in a (b +++ c).
Proof.
  intros [pre [post ->]]. exists pre, (post +++ c).
  rewrite !string_app_assoc. reflexivity.
Qed.

Lemma occurs_in_right (a b c : string) : occurs_in a c -> occurs_in a (b +++ c).
Proof.
  intros [pre [post ->]]. exists (b +++ pre), post.
  rewrite !string_app_assoc. reflexivity.
Qed.

(** Every line of a text occurs in the text. *)
Lemma line_occurs (l : string) (ls : list string) :
  In l ls -> occurs_in l (join_lines ls).
Proof.
  unfold join_lines. induction ls as [|a ls IH]; intros Hin; [contradiction|].
  simpl. destruct ls as [|b ls].
  - destruct Hin as [->|[]]. apply occurs_in_refl.
  - destruct Hin as [->|Hin].
    + apply occurs_in_left, occurs_in_refl.
    + apply occurs_in_right, occurs_in_right, IH, Hin.
Qed.

(** C8.  [createDocumentValidationPrompt] is a total function of the form
    data: for every form data it returns a text in which each submitted value
    occurs between double quotes on its labelled line; a phone, skills or
    experience that was submitted is written as it is, and one that is
    absent is written as [Not provided]. *)
Theorem prompt_lists_fields (formData : FormData) :
  let prompt := createDocumentValidationPrompt formData in
  let quoted (s : string) :=
    String (ascii_of_nat 34) (s +++ String (ascii_of_nat 34) EmptyString) in
  occurs_in ("- Full Name: " +++ quoted (fullName formData)) prompt /\
  occurs_in ("- Email: " +++ quoted (email formData)) prompt /\
  (forall s, phone formData = Some s ->
             occurs_in ("- Phone: " +++ quoted s) prompt) /\
  (forall s, skills formData = Some s ->
             occurs_in ("- Skills: " +++ quoted s) prompt) /\
  (forall s, experience formData = Some s ->
             occurs_in ("- Experience: " +++ quoted s) prompt) /\
  (phone formData = None ->
   occurs_in ("- Phone: " +++ quoted "Not provided") prompt) /\
  (skills formData = None ->
   occurs_in ("- Skills: " +++ quoted "Not provided") prompt) /\
  (experience formData = None ->
   occurs_in ("- Experience: " +++ quoted "Not provided") prompt).
Proof.
  intros prompt quoted. subst prompt. unfold createDocumentValidationPrompt.
  assert (Hq : forall s, q s = quoted s) by reflexivity.
  assert (H1 : In ("- Full Name: " +++ q (fullName formData)) (prompt_lines formData))
    by (unfold prompt_lines; do 6 right; left; reflexivity).
  assert (H2 : In ("- Email: " +++ q (email formData)) (prompt_lines formData))
    by (unfold prompt_lines; do 7 right; left; reflexivity).
  assert (H3 : In ("- Phone: " +++ q (orNotProvided (phone formData)))
                  (prompt_lines formData))
    by (unfold prompt_lines; do 8 right; left; reflexivity).
  assert (H4 : In ("- Skills: " +++ q (orNotProvided (skills formData)))
                  (prompt_lines formData))
    by (unfold prompt_lines; do 9 right; left; reflexivity).
  assert (H5 : In ("- Experience: " +++ q (orNotProvided (experience formData)))
                  (prompt_lines formData))
    by (unfold prompt_lines; do 10 right; left; reflexivity).
  apply line_occurs in H1, H2, H3, H4, H5.
  rewrite Hq in H1, H2, H3, H4, H5.
  split; [exact H1|]. split; [exact H2|].
  split; [intros s E; rewrite E in H3; exact H3|].
  split; [intros s E; rewrite E in H4; exact H4|].
  split; [intros s E; rewrite E in H5; exact H5|].
  split; [intros E; rewrite E in H3; exact H3|].
  split; [intros E; rewrite E in H4; exact H4|].
  intros E. rewrite E in H5. exact H5.
Qed.

(** The lines of the sample: a submitted value, an absent one, and an empty
    string, which is kept as it is. *)
Example prompt_of_ada_lines :
  let prompt := createDocumentValidationPrompt Examples.ada in
  let quote := String (ascii_of_nat 34) EmptyString in
  Js.includes (nl +++ "- Skills: " +++ quote +++ "mathematics" +++ quote +++ nl)
           prompt = true /\
  Js.includes (nl +++ "- Phone: " +++ quote +++ "Not provided" +++ quote +++ nl)
           prompt = true /\
  Js.includes (nl +++ "- Phone: " +++ quote +++ quote +++ nl)
           (createDocumentValidationPrompt
              {| fullName := "Ada Lovelace"; email := "ada@example.org";
                 phone := Some ""%string; skills := None;
                 experience := None |}) = true.
Proof. repeat split; vm_compute; reflexivity. Qed.

Example prompt_of_ada_starts :
  String.prefix
    (nl +++ "Please analyze the CV/Resume document")
    (createDocumentValidationPrompt Examples.ada) = true
  /\ String.length (createDocumentValidationPrompt Examples.ada) = 2429%nat.
Proof. split; reflexivity. Qed.

End PromptBuilder.

(** ** The upload route *)

Section UploadRoute.
  Import Js Db Upload.

Lemma isPDF_magic (buffer : list Byte.byte) :
  isPDF buffer = true <-> firstn 4 buffer = PDF_MAGIC_BYTES.
Proof.
  unfold isPDF, PDF_MAGIC_BYTES.
  destruct buffer as [|b0 [|b1 [|b2 [|b3 rest]]]]; simpl.
  - split; discriminate.
  - rewrite andb_false_r. split; discriminate.
  - rewrite !andb_false_r. split; discriminate.
  - rewrite !andb_false_r. split; discriminate.
  - rewrite !andb_true_r. split.
    + intros H. apply andb_prop in H as [H0 H]. apply andb_prop in H as [H1 H].
      apply andb_prop in H as [H2 H3].
      apply Byte.byte_dec_bl in H0, H1, H2, H3. subst. reflexivity.
    + intros H. inversion H. reflexivity.
Qed.

(** A file that fails one of the three checks is rejected with the error of
    the first check it fails. *)
Lemma validateFileContent_rejects env base64Content fileName :
  (MAX_FILE_SIZE < N.of_nat (List.length (base64_decode env base64Content)))%N
  \/ firstn 4 (base64_decode env base64Content) <> PDF_MAGIC_BYTES
  \/ endsWith ".pdf" (toLowerCase fileName) = false ->
  exists e, validateFileContent env base64Content fileName = inl e /\
            (e = too_large \/ e = invalid_format \/ e = invalid_extension).
Proof.
  intros H. unfold validateFileContent.
  destruct (MAX_FILE_SIZE <? N.of_nat (List.length (base64_decode env base64Content)))%N
    eqn:Esize; [eauto|].
  destruct (isPDF (base64_decode env base64Content)) eqn:Epdf; simpl; [|eauto 6].
  destruct (endsWith ".pdf" (toLowerCase fileName)) eqn:Eext; simpl; [|eauto 6].
  exfalso. destruct H as [H|[H|H]].
  - apply N.ltb_ge in Esize. lia.
  - apply H, isPDF_magic, Epdf.
  - discriminate.
Qed.

Lemma on_error_validation e :
  e = too_large \/ e = invalid_format \/ e = invalid_extension ->
  on_error e = e.
Proof. intros [-> | [-> | ->]]; reflexivity. Qed.

(** C9.  An upload whose decoded file is larger than 10MB, does not start
    with the bytes of [%PDF], or has a name that does not end in [.pdf]
    (whatever the case of the letters) raises an error and leaves the world
    as it was: nothing is stored in the bucket, no row is created and no task
    is triggered. *)
Theorem upload_rejects_bad_file (env : Env) (input : Input) (w : World) :
  (MAX_FILE_SIZE
   < N.of_nat (List.length (base64_decode env (i_fileContent input))))%N
  \/ firstn 4 (base64_decode env (i_fileContent input)) <> PDF_MAGIC_BYTES
  \/ endsWith ".pdf" (toLowerCase (i_fileName input)) = false ->
  exists e, upload env input w = (inl e, w) /\
            (e = too_large \/ e = invalid_format \/ e = invalid_extension).
Proof.
  intros H.
  destruct (validateFileContent_rejects env _ _ H) as [e [He Hcase]].
  exists e. split; [|exact Hcase].
  unfold upload, try_catch, bind, lift, throw. rewrite He.
  rewrite (on_error_validation e Hcase). reflexivity.
Qed.

Lemma upload_rejects_bad_file_witness :
  ((MAX_FILE_SIZE
    < N.of_nat (List.length (base64_decode Examples.upload_env
                               (i_fileContent Examples.text_input))))%N
   \/ firstn 4 (base64_decode Examples.upload_env
                  (i_fileContent Examples.text_input)) <> PDF_MAGIC_BYTES
   \/ endsWith ".pdf" (toLowerCase (i_fileName Examples.text_input)) = false) /\
  (exists e, upload Examples.upload_env Examples.text_input Examples.empty_world
             = (inl e, Examples.empty_world) /\
             (e = too_large \/ e = invalid_format \/ e = invalid_extension)).
Proof.
  assert (H : endsWith ".pdf" (toLowerCase (i_fileName Examples.text_input)) = false)
    by reflexivity.
  split; [right; right; exact H|].
  apply (upload_rejects_bad_file Examples.upload_env Examples.text_input
           Examples.empty_world).
  right; right; exact H.
Defined.

Example size_limit_message :
  too_large = ErrorObject "File too large. Maximum size is 10MB"
  /\ MAX_FILE_SIZE = 10485760%N.
Proof. split; reflexivity. Qed.

Example extension_examples :
  endsWith ".pdf" (toLowerCase "Ada CV.PDF") = true /\
  endsWith ".pdf" (toLowerCase "cv.pdf.txt") = false /\
  endsWith ".pdf" (toLowerCase "pdf") = false.
Proof. repeat split; reflexivity. Qed.

(** C10.  When the file passes the checks, the object is stored and the row
    is created, the upload succeeds with the id of the new row even though
    triggering the validation task throws: the row is in the table with
    status [pending] and no task was queued. *)
Theorem upload_survives_trigger_failure (env : Env) (input : Input) (w : World)
    (buffer : list Byte.byte) (triggerError : thrown) :
  let uniqueFileName := unique_name env input in
  let url := file_url env uniqueFileName in
  validateFileContent env (i_fileContent input) (i_fileName input) = inr buffer ->
  putObject_fault env uniqueFileName buffer = None ->
  create_fault env uniqueFileName = None ->
  table w !! new_id env = None ->
  trigger_fault env (task_payload input (new_id env) url) = Some triggerError ->
  exists w',
    upload env input w
    = (inr {| success := true;
              r_id := new_id env;
              r_message :=
                "CV uploaded successfully. AI validation is in progress." |},
       w') /\
    (exists cv, table w' !! new_id env = Some cv /\
                id cv = new_id env /\
                validationStatus cv = "pending"%string) /\
    bucket w' !! uniqueFileName = Some buffer /\
    queue w' = queue w.
Proof.
  intros uniqueFileName url Hval Hput Hcreate Hfresh Htrig.
  unfold upload, try_catch, bind, lift. rewrite Hval.
  fold uniqueFileName. unfold putObject, may_throw, bind.
  rewrite Hput. unfold ret, modify. fold url.
  unfold create, may_throw, bind. rewrite Hcreate.
  unfold ret, gets, modify, throw, set_bucket, set_table. cbn [table].
  rewrite Hfresh.
  unfold trigger, may_throw, bind. cbn [id]. rewrite Htrig. unfold throw.
  eexists. split; [reflexivity|]. cbn [table bucket queue].
  split; [|split; [apply lookup_insert_eq|reflexivity]].
  eexists. split; [apply lookup_insert_eq|]. split; reflexivity.
Qed.

Lemma upload_survives_trigger_failure_witness :
  exists buffer triggerError,
    validateFileContent Examples.upload_env
      (i_fileContent Examples.good_input) (i_fileName Examples.good_input)
    = inr buffer /\
    trigger_fault Examples.upload_env
      (task_payload Examples.good_input (new_id Examples.upload_env)
         (file_url Examples.upload_env
            (unique_name Examples.upload_env Examples.good_input)))
    = Some triggerError /\
    exists w',
      upload Examples.upload_env Examples.good_input Examples.empty_world
      = (inr {| success := true;
                r_id := new_id Examples.upload_env;
                r_message :=
                  "CV uploaded successfully. AI validation is in progress." |},
         w') /\
      (exists cv, table w' !! new_id Examples.upload_env = Some cv /\
                  id cv = new_id Examples.upload_env /\
                  validationStatus cv = "pending"%string) /\
      bucket w' !! unique_name Examples.upload_env Examples.good_input
      = Some buffer /\
      queue w' = queue Examples.empty_world.
Proof.
  exists (Examples.raw_bytes "%PDF-1.4 ..."),
         (ErrorObject "TRIGGER_API_KEY is not set").
  split; [reflexivity|]. split; [reflexivity|].
  apply (upload_survives_trigger_failure Examples.upload_env Examples.good_input
           Examples.empty_world (Examples.raw_bytes "%PDF-1.4 ...")
           (ErrorObject "TRIGGER_API_KEY is not set")).
  - reflexivity.
  - reflexivity.
  - reflexivity.
  - apply lookup_empty.
  - reflexivity.
Defined.

End UploadRoute.

(** ** The background task *)

Section TaskRun.
  Import Js Db Task Logic.

  Implicit Types (w : World) (e : thrown).

Lemma rows_kept_refl w : rows_kept w w.
Proof. intros key H. exact H. Qed.

Lemma rows_kept_trans w1 w2 w3 :
  rows_kept w1 w2 -> rows_kept w2 w3 -> rows_kept w1 w3.
Proof. intros H12 H23 key H. apply H23, H12, H. Qed.

Lemma calls_model_0_refl w : calls_model 0 w w.
Proof. split; [apply rows_kept_refl|lia]. Qed.

Lemma calls_model_add n m w1 w2 w3 :
  calls_model n w1 w2 -> calls_model m w2 w3 -> calls_model (n + m) w1 w3.
Proof.
  intros [K1 C1] [K2 C2]. split; [eapply rows_kept_trans; eassumption|lia].
Qed.

Lemma calls_model_weaken n w1 w2 :
  (n <= 1)%nat -> calls_model n w1 w2 -> calls_model_at_most_once w1 w2.
Proof. intros Hn [K C]. split; [exact K|lia]. Qed.

(** *** Rules for the steps of a computation *)

Lemma steps_ret {A} (a : A) : steps (calls_model 0) (ret a).
Proof. intros w r w' H. injection H as _ <-. apply calls_model_0_refl. Qed.

Lemma steps_throw {A} e : steps (calls_model 0) (throw (A := A) e).
Proof. intros w r w' H. injection H as _ <-. apply calls_model_0_refl. Qed.

Lemma steps_lift {A} (x : thrown + A) : steps (calls_model 0) (lift x).
Proof. intros w r w' H. injection H as _ <-. apply calls_model_0_refl. Qed.

Lemma steps_bind {A B} n m (c : M A) (k : A -> M B) :
  steps (calls_model n) c -> (forall a, steps (calls_model m) (k a)) ->
  m = 0%nat ->
  steps (calls_model n) (bind c k).
Proof.
  intros Hc Hk -> w r w' H. unfold bind in H.
  destruct (c w) as [[e|a] w1] eqn:E.
  - injection H as _ <-. exact (Hc _ _ _ E).
  - replace n with (n + 0)%nat by lia.
    eapply calls_model_add; [exact (Hc _ _ _ E)|exact (Hk a _ _ _ H)].
Qed.

Lemma steps_try_catch {A} (c : M A) (h : thrown -> M A) :
  steps (calls_model 0) c -> (forall e, steps (calls_model 0) (h e)) ->
  steps (calls_model 0) (try_catch c h).
Proof.
  intros Hc Hh w r w' H. unfold try_catch in H.
  destruct (c w) as [[e|a] w1] eqn:E.
  - change 0%nat with (0 + 0)%nat.
    eapply calls_model_add; [exact (Hc _ _ _ E)|exact (Hh e _ _ _ H)].
  - injection H as _ <-. exact (Hc _ _ _ E).
Qed.

Lemma model_calls_record c w :
  model_calls (record_call c w)
  = (model_calls w + match c with CallModel => 1 | _ => 0 end)%nat.
Proof.
  unfold model_calls, record_call. simpl calls.
  rewrite List.filter_app, length_app. destruct c; reflexivity.
Qed.

Lemma steps_record_call c :
  steps (calls_model (match c with CallModel => 1 | _ => 0 end))
        (modify (record_call c)).
Proof.
  intros w r w' H. injection H as _ <-. split.
  - intros key Hk. exact Hk.
  - apply model_calls_record.
Qed.

Lemma steps_update fault key (f : CV -> CV) :
  steps (calls_model 0) (update fault key f).
Proof.
  intros w r w' H. unfold update in H.
  destruct fault as [e0|]; [injection H as _ <-; apply calls_model_0_refl|].
  destruct (table w !! key) as [row|] eqn:E.
  - injection H as _ <-. split; [|unfold model_calls; simpl; lia].
    intros k Hk. unfold set_table. simpl table.
    destruct (decide (key = k)) as [<-|Hne].
    + rewrite lookup_insert_eq. eauto.
    + rewrite lookup_insert_ne by exact Hne. exact Hk.
  - injection H as _ <-. apply calls_model_0_refl.
Qed.

Lemma steps_do_fetch env url : steps (calls_model 0) (do_fetch env url).
Proof.
  unfold do_fetch. eapply steps_bind;
    [exact (steps_record_call (CallFetch url))|intros; apply steps_lift|reflexivity].
Qed.

Lemma steps_do_getObject env name :
  steps (calls_model 0) (do_getObject env name).
Proof.
  unfold do_getObject. eapply steps_bind;
    [exact (steps_record_call (CallGetObject name))|intros; apply steps_lift
    |reflexivity].
Qed.

Lemma steps_do_chat env body : steps (calls_model 1) (do_chat env body).
Proof.
  unfold do_chat. eapply steps_bind;
    [exact (steps_record_call CallModel)|intros; apply steps_lift|reflexivity].
Qed.

(** Decompose a computation that does not call the model. *)
Ltac quiet :=
  repeat first
    [ apply steps_ret
    | apply steps_throw
    | apply steps_lift
    | apply steps_update
    | apply steps_do_fetch
    | apply steps_do_getObject
    | apply steps_try_catch; [|intros ?]
    | eapply steps_bind; [| intros ? | reflexivity]
    | match goal with
      | |- steps _ (if ?b then _ else _) => destruct b
      | |- steps _ (match ?x with _ => _ end) => destruct x
      end ].

Lemma steps_build_request env validatedPayload :
  steps (calls_model 0) (build_request env validatedPayload).
Proof. unfold build_request. cbv zeta. quiet. Qed.

Lemma steps_handle_response env validatedPayload response :
  steps (calls_model 0) (handle_response env validatedPayload response).
Proof. unfold handle_response. cbv zeta. quiet. Qed.

Lemma steps_pipeline_after_log env payload :
  steps calls_model_at_most_once (pipeline_after_log env payload).
Proof.
  intros w r w' H. unfold pipeline_after_log in H. unfold bind at 1 in H.
  destruct (lift (CVValidationPayload_parse env payload) w)
    as [[e|validatedPayload] w1] eqn:E1.
  { injection H as _ <-. apply (calls_model_weaken 0); [lia|].
    exact (steps_lift _ _ _ _ E1). }
  pose proof (steps_lift _ _ _ _ E1) as S1.
  unfold bind at 1 in H.
  destruct (update (update_fault env MarkValidating) (cvId validatedPayload)
              set_validating w1)
    as [[e|[]] w2] eqn:E2.
  { injection H as _ <-. apply (calls_model_weaken 0); [lia|].
    exact (calls_model_add 0 0 _ _ _ S1 (steps_update _ _ _ _ _ _ E2)). }
  pose proof (calls_model_add 0 0 _ _ _ S1 (steps_update _ _ _ _ _ _ E2)) as S2.
  unfold bind at 1 in H.
  destruct (build_request env validatedPayload w2) as [[e|requestBody] w3] eqn:E3.
  { injection H as _ <-. apply (calls_model_weaken 0); [lia|].
    exact (calls_model_add 0 0 _ _ _ S2 (steps_build_request _ _ _ _ _ E3)). }
  pose proof (calls_model_add 0 0 _ _ _ S2 (steps_build_request _ _ _ _ _ E3)) as S3.
  unfold bind at 1 in H.
  destruct (do_chat env requestBody w3) as [[e|response] w4] eqn:E4.
  { injection H as _ <-. apply (calls_model_weaken 1); [lia|].
    exact (calls_model_add 0 1 _ _ _ S3 (steps_do_chat _ _ _ _ _ E4)). }
  pose proof (calls_model_add 0 1 _ _ _ S3 (steps_do_chat _ _ _ _ _ E4)) as S4.
  apply (calls_model_weaken 1); [lia|].
  apply (calls_model_add 1 0 _ _ _ S4).
  exact (steps_handle_response _ _ _ _ _ _ H).
Qed.

(** The pipeline keeps every row of the table and calls the model endpoint
    at most once, however it ends. *)
Lemma steps_pipeline env payload :
  steps calls_model_at_most_once (pipeline env payload).
Proof.
  intros w r w' H. unfold pipeline, bind, lift in H.
  destruct (read_cvId payload) as [e|logged_cvId].
  - injection H as _ <-. apply (calls_model_weaken 0); [lia|].
    apply calls_model_0_refl.
  - exact (steps_pipeline_after_log env payload _ _ _ H).
Qed.

(** C7, amended.  When the body of the task raises [e] (a payload that
    fails the schema, a failing download or model call, a reply that cannot
    be parsed, a failing update) for a payload whose [cvId] names a row, the
    task throws [e] again and makes no further request: the document and the
    model are not asked a second time, and the model endpoint is called at
    most once in the run.  When the database accepts the update of the
    [catch] block, the row is [failed] with the message of [e] as its only
    validation error and the time of validation set; when that update fails,
    its error is swallowed and the world is as the body left it. *)
Theorem failure_marks_record (env : Env) (payload : value) (w w1 : World)
    (key : string) (row : CV) (e : thrown) :
  prop "cvId" payload = VString key ->
  key <> ""%string ->
  table w !! key = Some row ->
  pipeline env payload w = (inl e, w1) ->
  exists w',
    validateCvDataTask env payload w = (inl e, w') /\
    calls w' = calls w1 /\
    (model_calls w' <= model_calls w + 1)%nat /\
    (update_fault env MarkFailed = None ->
     exists failed_row,
       table w' !! key = Some failed_row /\
       validationStatus failed_row = "failed"%string /\
       validationErrors failed_row = [error_message e] /\
       (forall message, e = ErrorObject message ->
                        validationErrors failed_row = [message]) /\
       (e = NotAnError ->
        validationErrors failed_row = ["Unknown validation error"%string]) /\
       validatedAt failed_row = Some (new_Date env)) /\
    (update_fault env MarkFailed <> None -> w' = w1).
Proof.
  intros Hid Hkey Hrow Hpipe.
  destruct (steps_pipeline env payload _ _ _ Hpipe) as [Hkept Hcalls].
  destruct (Hkept key (ex_intro _ row Hrow)) as [row1 Hrow1].
  unfold validateCvDataTask, try_finally, try_catch. rewrite Hpipe.
  unfold on_error, bind. rewrite Hid. cbn [truthy].
  destruct (String.eqb_spec key "") as [Heq|_]; [contradiction|].
  cbn [negb]. unfold try_catch, update_where, update.
  destruct (update_fault env MarkFailed) as [updateError|].
  - unfold ret, throw, disconnect. exists w1.
    split; [reflexivity|]. split; [reflexivity|].
    split; [lia|]. split; [discriminate|]. reflexivity.
  - rewrite Hrow1. unfold throw, disconnect.
    eexists. split; [reflexivity|].
    unfold set_table. cbn [table calls].
    split; [reflexivity|].
    split; [unfold model_calls in *; cbn [calls]; lia|].
    split; [|intros H; contradiction].
    intros _. eexists. split; [apply lookup_insert_eq|].
    split; [reflexivity|]. split; [reflexivity|].
    split; [intros message ->; reflexivity|].
    split; [intros ->; reflexivity|reflexivity].
Qed.

Lemma failure_marks_record_witness :
  prop "cvId" Examples.payload1 = VString "cv1" /\
  "cv1"%string <> ""%string /\
  table Examples.one_cv !! "cv1"%string = Some Examples.row1 /\
  exists w1,
    pipeline Examples.task_env Examples.payload1 Examples.one_cv
    = (inl (ErrorObject "Unexpected token S in JSON at position 0"), w1) /\
    exists w',
      validateCvDataTask Examples.task_env Examples.payload1 Examples.one_cv
      = (inl (ErrorObject "Unexpected token S in JSON at position 0"), w') /\
      calls w' = calls w1 /\
      (model_calls w' <= model_calls Examples.one_cv + 1)%nat /\
      (update_fault Examples.task_env MarkFailed = None ->
       exists failed_row,
         table w' !! "cv1"%string = Some failed_row /\
         validationStatus failed_row = "failed"%string /\
         validationErrors failed_row
         = [error_message
              (ErrorObject "Unexpected token S in JSON at position 0")] /\
         (forall message,
            ErrorObject "Unexpected token S in JSON at position 0"
            = ErrorObject message ->
            validationErrors failed_row = [message]) /\
         (ErrorObject "Unexpected token S in JSON at position 0" = NotAnError ->
          validationErrors failed_row = ["Unknown validation error"%string]) /\
         validatedAt failed_row = Some (new_Date Examples.task_env)) /\
      (update_fault Examples.task_env MarkFailed <> None -> w' = w1).
Proof.
  split; [reflexivity|]. split; [discriminate|].
  split; [vm_compute; reflexivity|].
  eexists. split; [vm_compute; reflexivity|].
  apply (failure_marks_record Examples.task_env Examples.payload1
           Examples.one_cv _ "cv1" Examples.row1).
  - reflexivity.
  - discriminate.
  - vm_compute; reflexivity.
  - vm_compute; reflexivity.
Defined.

(** The failure rule as the specification words it does not hold when the
    database is lost during the run: the model call fails, the update of the
    [catch] block fails too, and the row stays [validating]. *)
Lemma failure_not_always_marked :
  ~ Spec.failure_forces_failed Samples.database_lost_env Examples.payload1
      Examples.one_cv.
Proof.
  intros H.
  edestruct (H "cv1"%string Examples.row1) as (w' & failed_row & Hrun & Hrow & Hst & _).
  - reflexivity.
  - vm_compute; reflexivity.
  - vm_compute; reflexivity.
  - vm_compute in Hrun. injection Hrun as <-.
    vm_compute in Hrow. injection Hrow as <-.
    discriminate Hst.
Qed.

(** What that run leaves behind: the error of the model call is thrown, the
    row is [validating] without a time of validation, and the form keeps
    polling. *)
Example database_lost_run :
  exists w',
    validateCvDataTask Samples.database_lost_env Examples.payload1 Examples.one_cv
    = (inl (ErrorObject "fetch failed"), w') /\
    (validationStatus <$> table w' !! "cv1"%string) = Some "validating"%string /\
    (validatedAt <$> table w' !! "cv1"%string) = Some None /\
    Client.refetchInterval (Some "validating"%string) = Some 3000%N.
Proof. eexists. vm_compute. repeat split; reflexivity. Qed.

(** A payload that fails the schema but names the row: the row is marked
    with the message of the schema error, and nothing was requested. *)
Example shape_error_marks_record :
  exists w',
    validateCvDataTask Examples.task_env Examples.payload_without_url Examples.one_cv
    = (inl (ErrorObject "Required"), w') /\
    (validationStatus <$> table w' !! "cv1"%string) = Some "failed"%string /\
    (validationErrors <$> table w' !! "cv1"%string) = Some ["Required"%string] /\
    calls w' = [].
Proof. eexists. vm_compute. repeat split; reflexivity. Qed.

(** Without a payload there is no row to mark: reading [payload.cvId] throws
    before the schema is asked, the error is thrown again and the table is
    as before. *)
Example no_id_no_update :
  validateCvDataTask Examples.task_env VNull Examples.one_cv
  = (inl (ErrorObject "Cannot read properties of null (reading 'cvId')"),
     Examples.one_cv).
Proof. reflexivity. Qed.

End TaskRun.

(** ** More on the response aggregator *)

Section AggregationMore.
  Import Number Aggregator Spec.

  Implicit Types (fs : list ValidationField) (r : AIValidationResponse).

Lemma filter_all {A} (p : A -> bool) (l : list A) :
  forallb p l = true -> List.filter p l = l.
Proof.
  induction l as [|a l IH]; simpl; [reflexivity|].
  intros H. apply andb_prop in H as [Ha Hl]. rewrite Ha, (IH Hl). reflexivity.
Qed.

Lemma filter_none {A} (p q : A -> bool) (l : list A) :
  (forall a, p a = true -> q a = false) ->
  forallb p l = true -> List.filter q l = [].
Proof.
  intros Hpq. induction l as [|a l IH]; simpl; [reflexivity|].
  intros H. apply andb_prop in H as [Ha Hl]. rewrite (Hpq a Ha). exact (IH Hl).
Qed.

Lemma filter_permutation {A} (p : A -> bool) (l l' : list A) :
  Permutation l l' -> Permutation (List.filter p l) (List.filter p l').
Proof.
  induction 1 as [|a l l' _ IH|a b l|l1 l2 l3 _ IH1 _ IH2]; simpl.
  - constructor.
  - destruct (p a); [constructor|]; exact IH.
  - destruct (p a), (p b); try constructor; apply Permutation_refl.
  - eapply Permutation_trans; eassumption.
Qed.

(** The status that is decided depends on the four counters only. *)
Lemma decide_status_counts (t t' : Tally) :
  t_match t = t_match t' -> t_partial t = t_partial t' ->
  t_noMatch t = t_noMatch t' -> t_total t = t_total t' ->
  fst (decide_status t) = fst (decide_status t').
Proof.
  intros Hm Hp Hn Ht. unfold decide_status. rewrite Hm, Hp, Hn, Ht.
  destruct (0 <? t_noMatch t')%nat; [reflexivity|].
  destruct ((t_match t' =? t_total t')%nat && (0 <? t_total t')%nat);
    [reflexivity|].
  destruct (ge_integral _ _); reflexivity.
Qed.

(** The error list follows the pushed entries: it is these entries, or the
    generic message when the outcome is [failed] without any. *)
Lemma decide_status_errors (t : Tally) :
  List.length (t_errors t) = t_noMatch t ->
  snd (decide_status t)
  = match fst (decide_status t), t_errors t with
    | failed, [] => [generic_error]
    | _, errs => errs
    end.
Proof.
  intros Hlen. unfold decide_status.
  destruct (0 <? t_noMatch t)%nat eqn:E; simpl.
  - apply Nat.ltb_lt in E. destruct (t_errors t); simpl in *; [lia|reflexivity].
  - destruct ((t_match t =? t_total t)%nat && (0 <? t_total t)%nat); simpl;
      [reflexivity|].
    destruct (ge_integral _ _); simpl; [reflexivity|].
    destruct (t_errors t); reflexivity.
Qed.

Lemma filter_checked fs s :
  s <> not_found ->
  List.filter (is_status s) (checked fs) = List.filter (is_status s) fs.
Proof.
  intros Hs. unfold checked.
  induction fs as [|f fs IH]; simpl; [reflexivity|].
  destruct (is_status not_found f) eqn:Enf; simpl.
  - assert (Hsf : is_status s f = false).
    { unfold is_status in *. destruct (fstatus f), s; simpl in *;
        try discriminate; try reflexivity. congruence. }
    rewrite Hsf. exact IH.
  - destruct (is_status s f); rewrite IH; reflexivity.
Qed.

Lemma checked_checked fs : checked (checked fs) = checked fs.
Proof.
  unfold checked. induction fs as [|f fs IH]; simpl; [reflexivity|].
  destruct (negb (is_status not_found f)) eqn:E; simpl; rewrite ?E, IH;
    reflexivity.
Qed.

Lemma checked_or_not_found fs :
  (List.length (checked fs) + count not_found fs)%nat = List.length fs.
Proof.
  unfold checked, count, is_status.
  induction fs as [|f fs IH]; simpl; [reflexivity|].
  destruct (status_eqb (fstatus f) not_found); simpl; lia.
Qed.

(** Every verdict a match: the outcome is [validated] without errors, for
    the empty list as well, and every verdict was checked and counted. *)
Theorem all_match_validated (r : AIValidationResponse) :
  forallb (is_status match_) (fields r) = true ->
  overallStatus (processValidationResults r) = validated /\
  errors (processValidationResults r) = [] /\
  matchCount (summary (processedResults (processValidationResults r)))
  = List.length (fields r) /\
  totalChecked (summary (processedResults (processValidationResults r)))
  = List.length (fields r).
Proof.
  intros Hall.
  rewrite processed_status, processed_errors, processed_summary. simpl.
  destruct (tally_counts (fields r)) as (Hm & Hp & Hn & Ht & He).
  assert (Hmatch : count match_ (fields r) = List.length (fields r))
    by (unfold count; rewrite (filter_all _ _ Hall); reflexivity).
  assert (Hchk : checked (fields r) = fields r).
  { unfold checked. apply filter_all.
    apply forallb_forall. intros f Hf.
    apply (proj1 (forallb_forall _ _) Hall) in Hf. unfold is_status in *.
    destruct (fstatus f); simpl in *; congruence. }
  assert (Hnone : forall s, s <> match_ -> List.filter (is_status s) (fields r) = []).
  { intros s Hs. apply (filter_none (is_status match_)); [|exact Hall].
    intros f Hf. unfold is_status in *.
    destruct (fstatus f), s; simpl in *; congruence. }
  unfold decide_status. rewrite Hm, Hp, Hn, Ht, He, Hmatch, Hchk.
  unfold count. rewrite !Hnone by discriminate. simpl.
  rewrite Nat.eqb_refl. simpl.
  destruct (fields r) as [|f fs]; simpl; repeat split; reflexivity.
Qed.

Lemma all_match_validated_witness :
  forallb (is_status match_) (fields Samples.all_matches) = true /\
  (overallStatus (processValidationResults Samples.all_matches) = validated /\
   errors (processValidationResults Samples.all_matches) = [] /\
   matchCount (summary (processedResults
     (processValidationResults Samples.all_matches)))
   = List.length (fields Samples.all_matches) /\
   totalChecked (summary (processedResults
     (processValidationResults Samples.all_matches)))
   = List.length (fields Samples.all_matches)).
Proof.
  split; [reflexivity|].
  apply (all_match_validated Samples.all_matches). reflexivity.
Defined.

(** A [validated] outcome comes with no error and no mismatch. *)
Theorem validated_reports_no_errors (r : AIValidationResponse) :
  overallStatus (processValidationResults r) = validated ->
  errors (processValidationResults r) = [] /\
  noMatchCount (summary (processedResults (processValidationResults r))) = 0%nat.
Proof.
  rewrite processed_status, processed_errors, processed_summary. simpl.
  destruct (tally_counts (fields r)) as (Hm & Hp & Hn & Ht & He).
  assert (Hlen : List.length (t_errors (tally (fields r)))
                 = t_noMatch (tally (fields r)))
    by (rewrite He, Hn, length_map; reflexivity).
  intros Hv. rewrite decide_status_errors by apply tally_errors_length. rewrite Hv.
  unfold decide_status in Hv.
  destruct (0 <? t_noMatch (tally (fields r)))%nat eqn:E0; [discriminate|].
  apply Nat.ltb_ge in E0.
  destruct (t_errors (tally (fields r))); simpl in Hlen; split; try lia;
    reflexivity.
Qed.

Lemma validated_reports_no_errors_witness :
  overallStatus (processValidationResults Examples.seven_three) = validated /\
  (errors (processValidationResults Examples.seven_three) = [] /\
   noMatchCount (summary (processedResults
     (processValidationResults Examples.seven_three))) = 0%nat).
Proof.
  split; [reflexivity|].
  apply (validated_reports_no_errors Examples.seven_three). reflexivity.
Defined.

(** When every status is one of the four of the interface, the outcome is
    [failed] exactly when some verdict is [no_match], and the error list is
    the list of the entries ["<field>: <reason>"] of the mismatches: the
    threshold of 70% never decides, and the generic message is never
    produced. *)
Theorem interface_failed_iff_no_match (r : AIValidationResponse) :
  array_length_ok (fields r) ->
  forallb (fun f => match fstatus f with other _ => false | _ => true end)
          (fields r) = true ->
  (overallStatus (processValidationResults r) = failed
   <-> existsb (fun f => status_eqb (fstatus f) no_match) (fields r) = true) /\
  errors (processValidationResults r)
  = map (fun f => String.append (field f) (String.append ": " (reason f)))
        (List.filter (fun f => status_eqb (fstatus f) no_match) (fields r)).
Proof.
  intros Hlen Hint.
  change ((overallStatus (processValidationResults r) = failed
           <-> existsb (is_status no_match) (fields r) = true) /\
          errors (processValidationResults r)
          = map field_error (List.filter (is_status no_match) (fields r))).
  destruct (tally_counts (fields r)) as (Hm & Hp & Hn & Ht & He).
  destruct (existsb (is_status no_match) (fields r)) eqn:Eno.
  - assert (Hf : overallStatus (processValidationResults r) = failed).
    { rewrite (processed_outcome r Hlen). unfold outcome. rewrite Eno.
      reflexivity. }
    split; [tauto|].
    rewrite processed_errors, decide_status_errors by apply tally_errors_length.
    rewrite <- processed_status, Hf, He.
    rewrite existsb_filter_length in Eno. apply Nat.ltb_lt in Eno.
    destruct (List.filter (is_status no_match) (fields r)); simpl in *;
      [lia|reflexivity].
  - pose proof (interface_threshold_met r Hlen Hint Eno) as Hv.
    split; [rewrite Hv; split; discriminate|].
    rewrite processed_errors, decide_status_errors by apply tally_errors_length.
    rewrite <- processed_status, Hv.
    exact He.
Qed.

Lemma interface_failed_iff_no_match_witness :
  array_length_ok (fields Examples.one_mismatch) /\
  forallb (fun f => match fstatus f with other _ => false | _ => true end)
          (fields Examples.one_mismatch) = true /\
  ((overallStatus (processValidationResults Examples.one_mismatch) = failed
    <-> existsb (fun f => status_eqb (fstatus f) no_match)
                (fields Examples.one_mismatch) = true) /\
   errors (processValidationResults Examples.one_mismatch)
   = ["email: about email"%string; "skills: about skills"%string]).
Proof.
  split; [reflexivity|]. split; [reflexivity|].
  apply (interface_failed_iff_no_match Examples.one_mismatch); reflexivity.
Defined.

(** The summary: the verdicts are handed on as they came, every verdict is
    either checked or [not_found], and matches, partial matches and
    mismatches are among the checked ones. *)
Theorem summary_counts (r : AIValidationResponse) :
  let s := summary (processedResults (processValidationResults r)) in
  pfields (processedResults (processValidationResults r)) = fields r /\
  (totalChecked s + count not_found (fields r))%nat = List.length (fields r) /\
  (matchCount s + partialMatchCount s + noMatchCount s <= totalChecked s)%nat /\
  noMatchCount s = count no_match (fields r).
Proof.
  intros s. subst s. rewrite processed_summary. simpl.
  destruct (tally_counts (fields r)) as (Hm & Hp & Hn & Ht & He).
  rewrite Hm, Hp, Hn, Ht.
  split.
  { unfold processValidationResults.
    destruct (decide_status (tally (fields r))); reflexivity. }
  split; [apply checked_or_not_found|].
  split; [apply checked_split|reflexivity].
Qed.

(** The order of the verdicts does not matter for the outcome and the
    counters; the errors come in the order of the verdicts. *)
Theorem outcome_ignores_order (r r' : AIValidationResponse) :
  Permutation (fields r) (fields r') ->
  overallStatus (processValidationResults r)
  = overallStatus (processValidationResults r') /\
  totalChecked (summary (processedResults (processValidationResults r)))
  = totalChecked (summary (processedResults (processValidationResults r'))) /\
  matchCount (summary (processedResults (processValidationResults r)))
  = matchCount (summary (processedResults (processValidationResults r'))) /\
  Permutation (errors (processValidationResults r))
              (errors (processValidationResults r')).
Proof.
  intros Hperm.
  rewrite !processed_status, !processed_errors, !processed_summary. simpl.
  destruct (tally_counts (fields r)) as (Hm & Hp & Hn & Ht & He).
  destruct (tally_counts (fields r')) as (Hm' & Hp' & Hn' & Ht' & He').
  assert (Hc : forall s, count s (fields r) = count s (fields r')).
  { intros s. unfold count. apply Permutation_length, filter_permutation, Hperm. }
  assert (Hk : List.length (checked (fields r)) = List.length (checked (fields r'))).
  { unfold checked. apply Permutation_length, filter_permutation, Hperm. }
  assert (Hst : fst (decide_status (tally (fields r)))
                = fst (decide_status (tally (fields r')))).
  { apply decide_status_counts; congruence. }
  split; [exact Hst|]. split; [congruence|]. split; [rewrite Hm, Hm'; apply Hc|].
  assert (He2 : Permutation (t_errors (tally (fields r)))
                            (t_errors (tally (fields r')))).
  { rewrite He, He'. apply Permutation_map, filter_permutation, Hperm. }
  rewrite !decide_status_errors by apply tally_errors_length. rewrite <- Hst.
  destruct (fst (decide_status (tally (fields r)))); [exact He2|].
  destruct (t_errors (tally (fields r))) as [|e es] eqn:E1,
           (t_errors (tally (fields r'))) as [|e' es'] eqn:E2;
    try exact He2; try apply Permutation_refl.
  - apply Permutation_length in He2. discriminate.
  - apply Permutation_length in He2. discriminate.
Qed.

Lemma outcome_ignores_order_witness :
  Permutation (fields Examples.one_mismatch)
              (fields Samples.one_mismatch_reordered) /\
  (overallStatus (processValidationResults Examples.one_mismatch)
   = overallStatus (processValidationResults Samples.one_mismatch_reordered) /\
   totalChecked (summary (processedResults
     (processValidationResults Examples.one_mismatch)))
   = totalChecked (summary (processedResults
       (processValidationResults Samples.one_mismatch_reordered))) /\
   matchCount (summary (processedResults
     (processValidationResults Examples.one_mismatch)))
   = matchCount (summary (processedResults
       (processValidationResults Samples.one_mismatch_reordered))) /\
   Permutation (errors (processValidationResults Examples.one_mismatch))
               (errors (processValidationResults Samples.one_mismatch_reordered))).
Proof.
  assert (H : Permutation (fields Examples.one_mismatch)
                          (fields Samples.one_mismatch_reordered)).
  { simpl. apply Permutation_rev. }
  split; [exact H|].
  apply (outcome_ignores_order Examples.one_mismatch
           Samples.one_mismatch_reordered H).
Defined.

(** Verdicts that are [not_found] count for nothing: without them the
    outcome, the errors and the four counters are the same. *)
Theorem not_found_ignored (r : AIValidationResponse) :
  let r' := {| fields := checked (fields r) |} in
  overallStatus (processValidationResults r')
  = overallStatus (processValidationResults r) /\
  errors (processValidationResults r') = errors (processValidationResults r) /\
  totalChecked (summary (processedResults (processValidationResults r')))
  = totalChecked (summary (processedResults (processValidationResults r))) /\
  matchCount (summary (processedResults (processValidationResults r')))
  = matchCount (summary (processedResults (processValidationResults r))) /\
  partialMatchCount (summary (processedResults (processValidationResults r')))
  = partialMatchCount (summary (processedResults (processValidationResults r))) /\
  noMatchCount (summary (processedResults (processValidationResults r')))
  = noMatchCount (summary (processedResults (processValidationResults r))).
Proof.
  intros r'. subst r'.
  rewrite !processed_status, !processed_errors, !processed_summary. simpl.
  destruct (tally_counts (fields r)) as (Hm & Hp & Hn & Ht & He).
  destruct (tally_counts (checked (fields r))) as (Hm' & Hp' & Hn' & Ht' & He').
  pose proof (filter_checked (fields r)) as Hf.
  pose proof (checked_checked (fields r)) as Hcc.
  assert (Hmm : t_match (tally (checked (fields r))) = t_match (tally (fields r)))
    by (rewrite Hm, Hm'; unfold count; rewrite Hf by discriminate; reflexivity).
  assert (Hpp : t_partial (tally (checked (fields r)))
                = t_partial (tally (fields r)))
    by (rewrite Hp, Hp'; unfold count; rewrite Hf by discriminate; reflexivity).
  assert (Hnn : t_noMatch (tally (checked (fields r)))
                = t_noMatch (tally (fields r)))
    by (rewrite Hn, Hn'; unfold count; rewrite Hf by discriminate; reflexivity).
  assert (Htt : t_total (tally (checked (fields r))) = t_total (tally (fields r)))
    by (rewrite Ht, Ht', Hcc; reflexivity).
  assert (Hee : t_errors (tally (checked (fields r)))
                = t_errors (tally (fields r)))
    by (rewrite He, He', Hf by discriminate; reflexivity).
  assert (Hst : fst (decide_status (tally (checked (fields r))))
                = fst (decide_status (tally (fields r))))
    by (apply decide_status_counts; assumption).
  split; [exact Hst|].
  split; [rewrite !decide_status_errors by apply tally_errors_length;
          rewrite Hst, Hee; reflexivity|].
  repeat split; assumption.
Qed.

(** [Math.ceil(n * 0.7)], computed in binary64, is the least integer [c]
    with [7 n <= 10 c] for every count below [2^49]: the rounding of the
    product never moves the threshold. *)
Theorem threshold_is_least_bound (n : nat) :
  Z.of_nat n < 2 ^ 49 ->
  exists c, threshold n = Int c /\
            7 * Z.of_nat n <= 10 * c /\
            forall c', 7 * Z.of_nat n <= 10 * c' -> c <= c'.
Proof.
  intros Hn. exists (ceil_70_percent n). split; [exact (threshold_exact n Hn)|].
  unfold ceil_70_percent.
  pose proof (Z.div_mod (7 * Z.of_nat n + 9) 10 ltac:(lia)) as Hd.
  pose proof (Z.mod_pos_bound (7 * Z.of_nat n + 9) 10 ltac:(lia)) as Hb.
  split; [lia|]. intros c' Hc'. lia.
Qed.

Lemma threshold_is_least_bound_witness :
  Z.of_nat 30 < 2 ^ 49 /\
  exists c, threshold 30 = Int c /\
            7 * Z.of_nat 30 <= 10 * c /\
            forall c', 7 * Z.of_nat 30 <= 10 * c' -> c <= c'.
Proof.
  split; [reflexivity|]. apply (threshold_is_least_bound 30). reflexivity.
Defined.

End AggregationMore.

(** ** More on the clean-up of the reply *)

Section FencesMore.
  Import Text.

  Implicit Types (s x y w p : jstring) (c : code_unit).

Lemma trimStart_split s :
  exists l, s = l ++ trimStart s /\ all_space l = true.
Proof.
  induction s as [|c s [l [Hs Hl]]]; simpl.
  - exists []. split; reflexivity.
  - destruct (is_space c) eqn:Ec.
    + exists (c :: l). simpl. rewrite Ec, Hl, <- Hs. split; reflexivity.
    + exists []. split; reflexivity.
Qed.

Lemma trimStart_head s c rest : trimStart s = c :: rest -> is_space c = false.
Proof.
  induction s as [|d s IH]; simpl; [discriminate|].
  destruct (is_space d) eqn:Ed; [exact IH|].
  intros H. injection H as <- _. exact Ed.
Qed.

Lemma trimEnd_split s :
  exists r, s = trimEnd s ++ r /\ all_space r = true.
Proof.
  induction s as [|c s [r [Hs Hr]]]; simpl.
  - exists []. split; reflexivity.
  - destruct (trimEnd s) as [|d t] eqn:E.
    + simpl in Hs. subst r. destruct (is_space c) eqn:Ec.
      * exists (c :: s). simpl. rewrite Ec, Hr. split; reflexivity.
      * exists s. split; [reflexivity|exact Hr].
    + exists r. split; [|exact Hr]. simpl. f_equal. exact Hs.
Qed.

Lemma trimEnd_last s init c : trimEnd s = init ++ [c] -> is_space c = false.
Proof.
  revert init. induction s as [|d s IH]; intros init; simpl.
  - destruct init; discriminate.
  - destruct (trimEnd s) as [|e t] eqn:E.
    + destruct (is_space d) eqn:Ed.
      * destruct init; discriminate.
      * destruct init as [|i [|j init]]; simpl; intros H; try discriminate.
        injection H as <-. exact Ed.
    + destruct init as [|i init]; simpl; intros H; [discriminate|].
      injection H as _ H. exact (IH init H).
Qed.

(** [trimEnd] keeps a first unit that is not white space. *)
Lemma trimEnd_head c s :
  is_space c = false -> exists rest, trimEnd (c :: s) = c :: rest.
Proof.
  intros Hc. simpl. destruct (trimEnd s) as [|d t].
  - rewrite Hc. exists []. reflexivity.
  - exists (d :: t). reflexivity.
Qed.

Lemma trim_head s c rest : trim s = c :: rest -> is_space c = false.
Proof.
  unfold trim. intros H.
  destruct (trimStart s) as [|d t] eqn:E; [discriminate|].
  pose proof (trimStart_head _ _ _ E) as Hd.
  destruct (trimEnd_head d t Hd) as [u Hu]. rewrite Hu in H.
  injection H as <- _. exact Hd.
Qed.

(** A reply that does not start with three backticks is handed to the parser
    with the white space around it removed and nothing else changed. *)
Theorem unfenced_reply_is_trimmed (x : jstring) :
  startsWith backticks (trim x) = false ->
  exists l r,
    x = l ++ clean x ++ r /\ all_space l = true /\ all_space r = true /\
    (forall c rest, clean x = c :: rest -> is_space c = false) /\
    (forall init c, clean x = init ++ [c] -> is_space c = false).
Proof.
  intros H. rewrite (clean_unfenced x H). unfold trim.
  destruct (trimStart_split x) as [l [Hl Hsl]].
  destruct (trimEnd_split (trimStart x)) as [r [Hr Hsr]].
  exists l, r. split; [rewrite <- Hr; exact Hl|].
  split; [exact Hsl|]. split; [exact Hsr|]. split.
  - intros c rest. apply trim_head.
  - intros init c. apply trimEnd_last.
Qed.

Lemma unfenced_reply_is_trimmed_witness :
  startsWith backticks (trim (units "  { }  ")) = false /\
  exists l r,
    units "  { }  " = l ++ clean (units "  { }  ") ++ r /\
    all_space l = true /\ all_space r = true /\
    (forall c rest, clean (units "  { }  ") = c :: rest -> is_space c = false) /\
    (forall init c, clean (units "  { }  ") = init ++ [c] -> is_space c = false).
Proof.
  split; [reflexivity|].
  apply (unfenced_reply_is_trimmed (units "  { }  ")). reflexivity.
Defined.

(** Only the tag [json] is removed with the fence.  With another language
    tag (one that does not begin with the letter j) the backticks go and the
    tag stays at the start of the text for the parser. *)
Theorem other_tag_is_kept (c : code_unit) (tag w1 x w2 : jstring) :
  is_space c = false -> c <> 106%N -> all_space w2 = true ->
  clean (fenced (c :: tag) w1 x w2) = trimEnd ((c :: tag) ++ w1 ++ x) /\
  exists rest, clean (fenced (c :: tag) w1 x w2) = c :: rest.
Proof.
  intros Hc Hj H2.
  assert (Hclean : clean (fenced (c :: tag) w1 x w2)
                   = trimEnd ((c :: tag) ++ w1 ++ x)).
  { unfold clean. rewrite trim_fenced. unfold fenced.
    assert (Hjson : startsWith (units "```json")
                      (backticks ++ (c :: tag) ++ w1 ++ x ++ w2 ++ backticks)
                    = false).
    { change (startsWith (units "```json")
                (backticks ++ (c :: tag) ++ w1 ++ x ++ w2 ++ backticks))
        with ((106 =? c)%N
              && startsWith (units "son") (tag ++ w1 ++ x ++ w2 ++ backticks)).
      destruct (N.eqb_spec 106 c) as [E|_]; [congruence|reflexivity]. }
    rewrite Hjson, startsWith_prefix, replace_open_prefix.
    change (trimStart ((c :: tag) ++ w1 ++ x ++ w2 ++ backticks))
      with (if is_space c then trimStart (tag ++ w1 ++ x ++ w2 ++ backticks)
            else (c :: tag) ++ w1 ++ x ++ w2 ++ backticks).
    rewrite Hc.
    replace ((c :: tag) ++ w1 ++ x ++ w2 ++ backticks)
      with (((c :: tag) ++ w1 ++ x) ++ w2 ++ backticks)
      by (rewrite <- !app_assoc; reflexivity).
    apply replace_close_app. exact H2. }
  split; [exact Hclean|]. rewrite Hclean.
  exact (trimEnd_head c (tag ++ w1 ++ x) Hc).
Qed.

Lemma other_tag_is_kept_witness :
  is_space 112%N = false /\ 112%N <> 106%N /\ all_space newline = true /\
  (clean (fenced (112%N :: units "ython") newline (units "{ }") newline)
   = trimEnd ((112%N :: units "ython") ++ newline ++ units "{ }") /\
   exists rest,
     clean (fenced (112%N :: units "ython") newline (units "{ }") newline)
     = 112%N :: rest).
Proof.
  split; [reflexivity|]. split; [discriminate|]. split; [reflexivity|].
  apply (other_tag_is_kept 112%N (units "ython") newline (units "{ }") newline).
  - reflexivity.
  - discriminate.
  - reflexivity.
Defined.

End FencesMore.

(** ** More on the prompt builder *)

Section PromptMore.
  Import Prompt.

  Local Infix "+++" := String.append (right associativity, at level 60).

Lemma string_length_app (a b : string) :
  String.length (a +++ b) = (String.length a + String.length b)%nat.
Proof.
  induction a as [|x a IH]; [reflexivity|].
  change (S (String.length (a +++ b)) = S (String.length a + String.length b)).
  rewrite IH. reflexivity.
Qed.

Lemma join_lines_length (l : string) (ls : list string) :
  String.length (join_lines (l :: ls))
  = (String.length l
     + list_sum (map (fun x => S (String.length x)) ls))%nat.
Proof.
  unfold join_lines. revert l. induction ls as [|b ls IH]; intros l.
  - simpl. lia.
  - change (String.concat nl (l :: b :: ls))
      with (l +++ nl +++ String.concat nl (b :: ls)).
    rewrite !string_length_app, IH. simpl. lia.
Qed.

(** The prompt is the fixed text of 2367 characters plus the five values as
    they were submitted: nothing is cut, escaped or added.  An absent phone,
    skills or experience counts for the twelve characters of
    [Not provided]; an empty string that was submitted counts for nothing. *)
Theorem prompt_length (formData : FormData) :
  let shown (x : option string) :=
    match x with
    | Some s => String.length s
    | None => 12%nat
    end in
  String.length (createDocumentValidationPrompt formData)
  = (2367 + String.length (fullName formData) + String.length (email formData)
     + shown (phone formData) + shown (skills formData)
     + shown (experience formData))%nat.
Proof.
  intros shown.
  assert (Hs : forall x, String.length (orNotProvided x) = shown x)
    by (intros [x|]; reflexivity).
  rewrite <- !Hs. clear Hs shown.
  unfold createDocumentValidationPrompt, prompt_lines.
  rewrite join_lines_length. unfold q.
  cbn [map list_sum].
  rewrite !string_length_app.
  generalize (String.length (fullName formData)) (String.length (email formData))
    (String.length (orNotProvided (phone formData)))
    (String.length (orNotProvided (skills formData)))
    (String.length (orNotProvided (experience formData))).
  intros a b c d e. vm_compute String.length.
  unfold list_sum, fold_right. lia.
Qed.

End PromptMore.

(** ** More on the upload route and the queries *)

Section UploadMore.
  Import Js Db Upload Frame.

  Local Infix "+++" := String.append (right associativity, at level 60).

Lemma substring_all (s : string) : String.substring 0 (String.length s) s = s.
Proof. induction s as [|c s IH]; simpl; [reflexivity|]. rewrite IH. reflexivity. Qed.

Lemma substring_skip (pre suf : string) :
  String.substring (String.length pre) (String.length suf) (pre +++ suf) = suf.
Proof.
  induction pre as [|c pre IH].
  - apply substring_all.
  - change (String c pre +++ suf) with (String c (pre +++ suf)).
    simpl. exact IH.
Qed.

Lemma substring_split (s : string) : forall m,
  (m <= String.length s)%nat ->
  s = String.substring 0 m s
      +++ String.substring m (String.length s - m) s.
Proof.
  induction s as [|c s IH]; intros m Hm.
  - destruct m; reflexivity.
  - destruct m as [|m].
    + change (String c s = "" +++ String.substring 0 (String.length (String c s))
                                    (String c s)).
      rewrite substring_all. reflexivity.
    + simpl in Hm. simpl String.substring.
      change (String c s = String c (String.substring 0 m s
                +++ String.substring m (String.length s - m) s)).
      rewrite <- IH by lia. reflexivity.
Qed.

(** [endsWith] decides whether the string ends with the suffix. *)
Lemma endsWith_spec (suffix s : string) :
  endsWith suffix s = true <-> ends_with suffix s.
Proof.
  unfold endsWith, ends_with. split.
  - intros H. apply andb_prop in H as [Hle Heq].
    apply Nat.leb_le in Hle. apply String.eqb_eq in Heq.
    exists (String.substring 0 (String.length s - String.length suffix) s).
    pose proof (substring_split s (String.length s - String.length suffix)
                  ltac:(lia)) as Hsp.
    replace (String.length s - (String.length s - String.length suffix))%nat
      with (String.length suffix) in Hsp by lia.
    rewrite Heq in Hsp. exact Hsp.
  - intros [pre ->]. rewrite string_length_app.
    replace (String.length pre + String.length suffix - String.length suffix)%nat
      with (String.length pre) by lia.
    rewrite substring_skip, String.eqb_refl, andb_true_r.
    apply Nat.leb_le. lia.
Qed.

(** When [validateFileContent] returns. *)
Lemma validateFileContent_inr (env : Env)
    (base64Content fileName : string) (buffer : list Byte.byte) :
  validateFileContent env base64Content fileName = inr buffer
  <-> (buffer = base64_decode env base64Content /\
       (4 <= N.of_nat (List.length buffer) <= MAX_FILE_SIZE)%N /\
       firstn 4 buffer = PDF_MAGIC_BYTES /\
       ends_with ".pdf" (toLowerCase fileName)).
Proof.
  unfold validateFileContent.
  destruct (MAX_FILE_SIZE <? N.of_nat (List.length (base64_decode env base64Content)))%N
    eqn:Esize.
  { apply N.ltb_lt in Esize. split; [discriminate|].
    intros (-> & [_ H] & _). lia. }
  apply N.ltb_ge in Esize.
  destruct (isPDF (base64_decode env base64Content)) eqn:Epdf; simpl.
  2:{ split; [discriminate|]. intros (-> & _ & H & _).
      apply isPDF_magic in H. congruence. }
  apply isPDF_magic in Epdf.
  destruct (endsWith ".pdf" (toLowerCase fileName)) eqn:Eext; simpl.
  2:{ split; [discriminate|]. intros (_ & _ & _ & H).
      apply endsWith_spec in H. congruence. }
  apply endsWith_spec in Eext. split.
  - intros H. injection H as <-. repeat split; try assumption.
    assert (Hl : List.length (firstn 4 (base64_decode env base64Content)) = 4%nat)
      by (rewrite Epdf; reflexivity).
    rewrite length_firstn in Hl. lia.
  - intros (-> & _). reflexivity.
Qed.

(** [validateFileContent] returns the decoded file exactly when it is at
    most 10MB long, starts with the bytes of [%PDF] and has a name ending in
    [.pdf] in whatever case; an accepted file has at least four bytes. *)
Theorem validateFileContent_accepts_iff (env : Env)
    (base64Content fileName : string) (buffer : list Byte.byte) :
  validateFileContent env base64Content fileName = inr buffer
  <-> (buffer = base64_decode env base64Content /\
       (4 <= N.of_nat (List.length buffer) <= MAX_FILE_SIZE)%N /\
       firstn 4 buffer = PDF_MAGIC_BYTES /\
       ends_with ".pdf" (toLowerCase fileName)).
Proof. exact (validateFileContent_inr env base64Content fileName buffer). Qed.

(** A failed upload leaves no row and no task behind and throws an [Error];
    the only trace it can leave is the object in the bucket. *)
Theorem failed_upload_leaves_no_row (env : Env) (input : Input) (w w' : World)
    (e : thrown) :
  upload env input w = (inl e, w') ->
  table w' = table w /\ queue w' = queue w /\ calls w' = calls w /\
  (exists message, e = ErrorObject message) /\
  (bucket w' = bucket w \/
   bucket w' = <[unique_name env input :=
                   base64_decode env (i_fileContent input)]> (bucket w)).
Proof.
  assert (Herr : forall e0, exists message, on_error e0 = ErrorObject message).
  { intros [msg|]; simpl; [|eexists; reflexivity].
    destruct (_ || _); [eexists; reflexivity|].
    destruct (_ || _); [eexists; reflexivity|].
    destruct (includes _ _); eexists; reflexivity. }
  unfold upload, try_catch, bind, lift.
  destruct (validateFileContent env (i_fileContent input) (i_fileName input))
    as [e0|buffer] eqn:Eval.
  { intros H. injection H as <- <-. repeat split; try reflexivity; try apply Herr;
    solve [eexists; reflexivity | left; reflexivity | right; reflexivity]. }
  apply validateFileContent_inr in Eval as (-> & _).
  unfold putObject, may_throw, bind.
  destruct (putObject_fault env _ _) as [e0|] eqn:Eput.
  { unfold throw. intros H. injection H as <- <-. repeat split; try reflexivity; try apply Herr;
    solve [eexists; reflexivity | left; reflexivity | right; reflexivity]. }
  unfold ret, modify, create, may_throw, bind.
  destruct (create_fault env _) as [e0|] eqn:Ecreate.
  { unfold throw. intros H. injection H as <- <-. repeat split; try reflexivity; try apply Herr;
    solve [eexists; reflexivity | left; reflexivity | right; reflexivity]. }
  unfold ret, gets, set_bucket. cbn [table].
  destruct (table w !! new_id env) as [old|] eqn:Eold.
  { unfold throw. intros H. injection H as <- <-. repeat split; try reflexivity; try apply Herr;
    solve [eexists; reflexivity | left; reflexivity | right; reflexivity]. }
  unfold modify, ret, trigger, may_throw, bind.
  destruct (trigger_fault env _); unfold throw, ret, modify; discriminate.
Qed.

Lemma failed_upload_leaves_no_row_witness :
  exists e w',
    upload Samples.storage_down_env Examples.good_input Examples.empty_world
    = (inl e, w') /\
    (table w' = table Examples.empty_world /\
     queue w' = queue Examples.empty_world /\
     calls w' = calls Examples.empty_world /\
     (exists message, e = ErrorObject message) /\
     (bucket w' = bucket Examples.empty_world \/
      bucket w'
      = <[unique_name Samples.storage_down_env Examples.good_input :=
            base64_decode Samples.storage_down_env
              (i_fileContent Examples.good_input)]>
          (bucket Examples.empty_world))).
Proof.
  eexists _, _. split; [reflexivity|].
  apply (failed_upload_leaves_no_row Samples.storage_down_env
           Examples.good_input Examples.empty_world).
  reflexivity.
Defined.

(** When the row cannot be created the object that was stored just before
    stays in the bucket: nothing is undone. *)
Theorem object_stays_when_create_fails (env : Env) (input : Input) (w : World)
    (buffer : list Byte.byte) :
  validateFileContent env (i_fileContent input) (i_fileName input) = inr buffer ->
  putObject_fault env (unique_name env input) buffer = None ->
  create_fault env (unique_name env input) <> None
  \/ table w !! new_id env <> None ->
  exists e w',
    upload env input w = (inl e, w') /\
    bucket w' !! unique_name env input = Some buffer /\
    table w' = table w /\ queue w' = queue w.
Proof.
  intros Hval Hput Hfail.
  unfold upload, try_catch, bind, lift. rewrite Hval.
  unfold putObject, may_throw, bind. rewrite Hput.
  unfold ret, modify, create, may_throw, bind.
  destruct (create_fault env (unique_name env input)) as [e0|] eqn:Ecreate.
  - unfold throw, set_bucket. eexists _, _. split; [reflexivity|].
    cbn [bucket table queue]. split; [apply lookup_insert_eq|]. split; reflexivity.
  - unfold ret, gets, set_bucket. cbn [table].
    destruct (table w !! new_id env) as [old|] eqn:Eold.
    + unfold throw. eexists _, _. split; [reflexivity|].
      cbn [bucket table queue]. split; [apply lookup_insert_eq|].
      split; reflexivity.
    + exfalso. destruct Hfail as [H|H]; apply H; reflexivity.
Qed.

Lemma object_stays_when_create_fails_witness :
  exists buffer,
    validateFileContent Samples.table_down_env
      (i_fileContent Examples.good_input) (i_fileName Examples.good_input)
    = inr buffer /\
    exists e w',
      upload Samples.table_down_env Examples.good_input Examples.empty_world
      = (inl e, w') /\
      bucket w' !! unique_name Samples.table_down_env Examples.good_input
      = Some buffer /\
      table w' = table Examples.empty_world /\
      queue w' = queue Examples.empty_world.
Proof.
  exists (Examples.raw_bytes "%PDF-1.4 ..."). split; [reflexivity|].
  apply (object_stays_when_create_fails Samples.table_down_env
           Examples.good_input Examples.empty_world).
  - reflexivity.
  - reflexivity.
  - left. discriminate.
Defined.

(** Once the file passed the checks, what the client is told about a failure
    is one of three fixed messages: the message of a storage or table error
    is not passed on (unless it happens to contain one of the phrases of
    the file checks). *)
Theorem internal_errors_are_hidden (env : Env) (input : Input) (w w' : World)
    (buffer : list Byte.byte) (e : thrown) :
  validateFileContent env (i_fileContent input) (i_fileName input) = inr buffer ->
  plain_fault (putObject_fault env (unique_name env input) buffer) = true ->
  plain_fault (create_fault env (unique_name env input)) = true ->
  upload env input w = (inl e, w') ->
  e = storage_unavailable \/ e = already_exists \/ e = upload_failed.
Proof.
  intros Hval Hp Hc.
  assert (Hplain : forall f e0, plain_fault f = true -> f = Some e0 ->
            on_error e0 = storage_unavailable \/ on_error e0 = already_exists
            \/ on_error e0 = upload_failed).
  { intros f [msg|] Hf ->; [|right; right; reflexivity].
    cbn [plain_fault] in Hf. apply negb_true_iff in Hf.
    unfold on_error.
    change (includes "File too large" msg || includes "Invalid file format" msg
            || includes "Invalid file extension" msg)
      with (validation_phrase msg).
    rewrite Hf.
    destruct (_ || _); [left; reflexivity|].
    destruct (includes _ _); [right; left|right; right]; reflexivity. }
  unfold upload, try_catch, bind, lift. rewrite Hval.
  unfold putObject, may_throw, bind.
  destruct (putObject_fault env _ _) as [e0|] eqn:Eput.
  { unfold throw. intros H. injection H as <- _. exact (Hplain _ _ Hp eq_refl). }
  unfold ret, modify, create, may_throw, bind.
  destruct (create_fault env _) as [e0|] eqn:Ecreate.
  { unfold throw. intros H. injection H as <- _. exact (Hplain _ _ Hc eq_refl). }
  unfold ret, gets, set_bucket. cbn [table].
  destruct (table w !! new_id env) as [old|] eqn:Eold.
  { unfold throw. intros H. injection H as <- _. right; left. reflexivity. }
  unfold modify, ret, trigger, may_throw, bind.
  destruct (trigger_fault env _); unfold throw, ret, modify; discriminate.
Qed.

Lemma internal_errors_are_hidden_witness :
  exists buffer e w',
    validateFileContent Samples.storage_down_env
      (i_fileContent Examples.good_input) (i_fileName Examples.good_input)
    = inr buffer /\
    upload Samples.storage_down_env Examples.good_input Examples.empty_world
    = (inl e, w') /\
    (e = storage_unavailable \/ e = already_exists \/ e = upload_failed).
Proof.
  exists (Examples.raw_bytes "%PDF-1.4 ..."). eexists _, _.
  split; [reflexivity|]. split; [reflexivity|].
  eapply (internal_errors_are_hidden Samples.storage_down_env Examples.good_input
            Examples.empty_world _ (Examples.raw_bytes "%PDF-1.4 ...")).
  - reflexivity.
  - reflexivity.
  - reflexivity.
  - reflexivity.
Defined.



End UploadMore.

(** ** The queries, and the payload between the route and the task *)

Section RouterAndWire.
  Import Js Db Upload Task Router Wire Frame.

  Local Infix "+++" := String.append (right associativity, at level 60).


(** Right after a successful upload the status query for the new id answers
    [pending] with no results and no errors, and the form keeps polling. *)
Theorem status_after_upload (env : Upload.Env) (input : Input) (w w' : World)
    (res : Result) :
  upload env input w = (inr res, w') ->
  exists view,
    getValidationStatus (r_id res) w' = (inr view, w') /\
    v_id view = r_id res /\
    v_validationStatus view = "pending"%string /\
    v_validationResults view = None /\
    v_validationErrors view = [] /\
    v_validatedAt view = None /\
    Client.refetchInterval (Some (v_validationStatus view)) = Some 3000%N.
Proof.
  unfold upload, try_catch, bind, lift.
  destruct (validateFileContent env (i_fileContent input) (i_fileName input))
    as [e0|buffer]; [discriminate|].
  unfold putObject, may_throw, bind.
  destruct (putObject_fault env _ _) as [e0|]; [discriminate|].
  unfold ret, modify, create, may_throw, bind.
  destruct (create_fault env _) as [e0|]; [discriminate|].
  unfold ret, gets, set_bucket. cbn [table].
  destruct (table w !! new_id env) as [old|]; [discriminate|].
  unfold modify, ret, trigger, may_throw, bind. cbn [id].
  destruct (trigger_fault env _) as [e0|];
    unfold throw, ret, modify, set_table, enqueue; cbn [bucket table queue calls];
    intros H; injection H as <- <-;
    unfold getValidationStatus, bind, gets; cbn [table r_id uploaded];
    rewrite lookup_insert_eq; eexists; split; try reflexivity;
    repeat split.
Qed.

Lemma status_after_upload_witness :
  exists res w' view,
    upload Samples.working_env Examples.good_input Examples.empty_world
    = (inr res, w') /\
    getValidationStatus (r_id res) w' = (inr view, w') /\
    v_validationStatus view = "pending"%string /\
    Client.refetchInterval (Some (v_validationStatus view)) = Some 3000%N.
Proof.
  eexists _, _.
  destruct (status_after_upload Samples.working_env Examples.good_input
              Examples.empty_world _ _ eq_refl)
    as (view & Hq & _ & Hst & _ & _ & _ & Hpoll).
  exists view. split; [reflexivity|]. split; [exact Hq|].
  split; [exact Hst|exact Hpoll].
Defined.

Lemma z_string_inv v s : z_string v = Some s -> v = VString s.
Proof. destruct v; simpl; intros H; try discriminate. congruence. Qed.

(** A payload that passes the schema carries its [cvId] as a string. *)
Lemma parse_payload_cvId payload p :
  parse_payload payload = Some p -> prop "cvId" payload = VString (cvId p).
Proof.
  unfold parse_payload. destruct payload; try discriminate.
  destruct (z_string (prop "cvId" (VObject props))) as [i|] eqn:Ei;
    [|discriminate].
  destruct (z_string (prop "fileUrl" (VObject props))); [|discriminate].
  destruct (parse_formData (prop "formData" (VObject props))); [|discriminate].
  intros H. injection H as <-. simpl. apply z_string_inv. exact Ei.
Qed.

(** The payload that the route builds always passes the schema of the task,
    and the task reads back exactly what the route put in, absent optional
    fields included. *)
Theorem payload_round_trip (env : Task.Env) (p : TaskPayload) :
  CVValidationPayload_parse env (payload_value p) = inr p /\
  prop "cvId" (payload_value p) = VString (cvId p).
Proof.
  destruct p as [i u [n e [ph|] [sk|] [ex|]]]; split; reflexivity.
Qed.

Lemma toLowerCase_app (a b : string) :
  toLowerCase (a +++ b) = toLowerCase a +++ toLowerCase b.
Proof.
  induction a as [|c a IH]; [reflexivity|].
  change (String (lower_ascii c) (toLowerCase (a +++ b))
          = String (lower_ascii c) (toLowerCase a +++ toLowerCase b)).
  rewrite IH. reflexivity.
Qed.

Lemma includes_right (needle a s : string) :
  includes needle s = true -> includes needle (a +++ s) = true.
Proof.
  intros H. induction a as [|c a IH]; [exact H|].
  change (String c a +++ s) with (String c (a +++ s)).
  simpl. rewrite IH. apply orb_true_r.
Qed.

(** The URL of an accepted upload always counts as a PDF for the task: the
    branch for images is never taken for what the route stores. *)
Theorem uploaded_file_is_pdf (env : Upload.Env) (input : Input)
    (buffer : list Byte.byte) :
  validateFileContent env (i_fileContent input) (i_fileName input) = inr buffer ->
  includes ".pdf" (toLowerCase (file_url env (unique_name env input))) = true.
Proof.
  intros H. apply validateFileContent_inr in H as (_ & _ & _ & [pre Hpre]).
  unfold file_url, unique_name.
  rewrite !toLowerCase_app, Hpre.
  repeat apply includes_right. reflexivity.
Qed.

Lemma uploaded_file_is_pdf_witness :
  exists buffer,
    validateFileContent Samples.working_env
      (i_fileContent Examples.good_input) (i_fileName Examples.good_input)
    = inr buffer /\
    includes ".pdf"
      (toLowerCase (file_url Samples.working_env
                      (unique_name Samples.working_env Examples.good_input)))
    = true.
Proof.
  exists (Examples.raw_bytes "%PDF-1.4 ..."). split; [reflexivity|].
  apply (uploaded_file_is_pdf Samples.working_env Examples.good_input
           (Examples.raw_bytes "%PDF-1.4 ...")).
  reflexivity.
Defined.

End RouterAndWire.

(** ** More on the background task *)

Section TaskMore.
  Import Js Db Task Logic Frame.

  Local Infix "+++" := String.append (right associativity, at level 60).

  Implicit Types (w : World) (e : thrown).

Lemma split_slash_cons s : exists x xs, split_slash s = x :: xs.
Proof.
  induction s as [|c s [x [xs IH]]]; simpl; [eauto|].
  destruct (Ascii.eqb c "/"); [eauto|]. rewrite IH. eauto.
Qed.

Lemma split_slash_app (a s : string) :
  split_slash (a +++ "/" +++ s) = split_slash a ++ split_slash s.
Proof.
  induction a as [|c a IH]; [reflexivity|].
  change (String c a +++ "/" +++ s) with (String c (a +++ "/" +++ s)).
  simpl. rewrite IH. destruct (Ascii.eqb c "/"); [reflexivity|].
  destruct (split_slash_cons a) as [x [xs ->]]. reflexivity.
Qed.

Lemma split_slash_plain s : no_slash s = true -> split_slash s = [s].
Proof.
  induction s as [|c s IH]; simpl; [reflexivity|].
  intros H. apply andb_prop in H as [Hc Hs].
  apply negb_true_iff in Hc. rewrite Hc, (IH Hs). reflexivity.
Qed.

Lemma split_slash_parts s : Forall (fun x => no_slash x = true) (split_slash s).
Proof.
  induction s as [|c s IH]; simpl; [repeat constructor|].
  destruct (Ascii.eqb c "/") eqn:Ec; [constructor; [reflexivity|exact IH]|].
  destruct (split_slash s) as [|x xs]; [repeat constructor; simpl; rewrite Ec;
                                          reflexivity|].
  inversion IH as [|? ? Hx Hxs]; subst. constructor; [|exact Hxs].
  simpl. rewrite Ec, Hx. reflexivity.
Qed.

Lemma last_app_cons {A} (l : list A) (x : A) (xs : list A) (d : A) :
  List.last (l ++ x :: xs) d = List.last (x :: xs) d.
Proof.
  induction l as [|a l IH]; [reflexivity|].
  simpl app. rewrite <- IH. simpl. destruct (l ++ x :: xs) eqn:E; [|reflexivity].
  destruct l; discriminate.
Qed.

Lemma last_in {A} (x : A) (xs : list A) (d : A) : In (List.last (x :: xs) d) (x :: xs).
Proof.
  revert x. induction xs as [|y ys IH]; intros x; [left; reflexivity|].
  right. exact (IH y).
Qed.

Lemma no_slash_app (a b : string) :
  no_slash (a +++ b) = no_slash a && no_slash b.
Proof.
  induction a as [|c a IH]; [reflexivity|].
  change (no_slash (String c (a +++ b)) = no_slash (String c a) && no_slash b).
  simpl. rewrite IH, andb_assoc. reflexivity.
Qed.

Lemma no_slash_uint (d : Decimal.uint) :
  no_slash (DecimalString.NilEmpty.string_of_uint d) = true.
Proof. induction d; simpl; assumption || reflexivity. Qed.

Lemma no_slash_decimal (n : N) : no_slash (decimal_string n) = true.
Proof.
  unfold decimal_string, DecimalString.NilZero.string_of_uint.
  destruct (N.to_uint n) eqn:E; try reflexivity; rewrite <- E;
    apply no_slash_uint.
Qed.

(** The last segment of the URL that the route stores is the name of the
    object. *)
Lemma last_segment_of_url (env : Upload.Env) (name : string) :
  List.last (split_slash (Upload.file_url env name)) "" 
  = List.last (split_slash name) "".
Proof.
  unfold Upload.file_url.
  set (protocol := if String.eqb (Upload.MINIO_USE_SSL env) "true"
                   then "https"%string else "http"%string).
  change ("/cvs/" +++ name) with ("/cvs" +++ "/" +++ name).
  rewrite <- !string_app_assoc.
  rewrite (string_app_assoc _ "/" name).
  rewrite split_slash_app.
  destruct (split_slash_cons name) as [x [xs ->]].
  apply last_app_cons.
Qed.

(** When the public download fails the task asks the object store for the
    last segment of the URL.  That is the name under which the route stored
    the file exactly when the uploaded file name has no slash in it; with a
    slash the task asks for an object that was not stored under that name. *)
Theorem fallback_asks_for_stored_object (env : Upload.Env) (input : Upload.Input) :
  List.last (split_slash (Upload.file_url env (Upload.unique_name env input))) ""
  = Upload.unique_name env input
  <-> no_slash (Upload.i_fileName input) = true.
Proof.
  rewrite last_segment_of_url.
  assert (Hname : no_slash (Upload.unique_name env input)
                  = no_slash (Upload.i_fileName input)).
  { unfold Upload.unique_name. rewrite !no_slash_app, no_slash_decimal.
    reflexivity. }
  split.
  - intros H. rewrite <- Hname, <- H.
    destruct (split_slash_cons (Upload.unique_name env input)) as [x [xs Hx]].
    pose proof (split_slash_parts (Upload.unique_name env input)) as Hall.
    rewrite Hx in Hall |- *.
    exact (proj1 (List.Forall_forall _ _) Hall _ (last_in x xs "")).
  - intros H. rewrite split_slash_plain by (rewrite Hname; exact H).
    reflexivity.
Qed.

(** A payload whose [cvId] is not a string makes the task throw and change
    nothing at all: no row is marked and no request is made.  What is thrown
    is the TypeError of reading [payload.cvId] when the payload is [null] or
    [undefined], and the error of the schema otherwise. *)
Theorem payload_without_id_changes_nothing (env : Env) (payload : value)
    (w : World) :
  (forall key, prop "cvId" payload <> VString key) ->
  validateCvDataTask env payload w
  = (inl (match payload with
          | VUndefined =>
              ErrorObject "Cannot read properties of undefined (reading 'cvId')"
          | VNull =>
              ErrorObject "Cannot read properties of null (reading 'cvId')"
          | _ => ErrorObject (zod_message env payload)
          end), w).
Proof.
  intros Hid.
  assert (Hparse : parse_payload payload = None).
  { destruct (parse_payload payload) as [p|] eqn:E; [|reflexivity].
    exfalso. exact (Hid _ (parse_payload_cvId _ _ E)). }
  assert (Hcatch : forall e,
            on_error env payload e w = (inl e, w)).
  { intros e. unfold on_error, bind, try_catch, update_where, throw, ret.
    destruct (prop "cvId" payload) as [| |b|n|s|props] eqn:E; simpl;
      try reflexivity.
    - destruct b; reflexivity.
    - destruct n as [| | |? ? ?]; try destruct s; reflexivity.
    - exfalso. exact (Hid s eq_refl). }
  unfold validateCvDataTask, try_finally, try_catch, pipeline, bind, lift,
    disconnect.
  destruct payload as [| |b|n|s|props]; cbn [read_cvId];
    try (rewrite Hcatch; reflexivity);
    unfold pipeline_after_log, bind, lift, CVValidationPayload_parse;
    rewrite Hparse, Hcatch; reflexivity.
Qed.

Lemma payload_without_id_changes_nothing_witness :
  (forall key, prop "cvId" (VNumber (Number.of_Z 7)) <> VString key) /\
  validateCvDataTask Examples.task_env (VNumber (Number.of_Z 7)) Examples.one_cv
  = (inl (ErrorObject
            (zod_message Examples.task_env (VNumber (Number.of_Z 7)))),
     Examples.one_cv).
Proof.
  assert (H : forall key, prop "cvId" (VNumber (Number.of_Z 7)) <> VString key)
    by (intros key; discriminate).
  split; [exact H|].
  apply (payload_without_id_changes_nothing Examples.task_env
           (VNumber (Number.of_Z 7)) Examples.one_cv H).
Defined.

(** The task ends as its body ends.  A result is returned as it is.  An
    error is thrown again as it is, also when marking the row fails, and
    after the error nothing is requested, stored or queued any more. *)
Theorem task_mirrors_pipeline (env : Env) (payload : value) (w : World) :
  match pipeline env payload w with
  | (inr result, w1) => validateCvDataTask env payload w = (inr result, w1)
  | (inl e, w1) =>
      exists w', validateCvDataTask env payload w = (inl e, w') /\
                 calls w' = calls w1 /\ bucket w' = bucket w1 /\
                 queue w' = queue w1
  end.
Proof.
  unfold validateCvDataTask, try_finally, try_catch.
  destruct (pipeline env payload w) as [[e|result] w1]; [|reflexivity].
  unfold on_error, bind, try_catch, update_where, update, throw, ret, disconnect.
  destruct (truthy (prop "cvId" payload)); [|eauto].
  destruct (prop "cvId" payload); eauto.
  destruct (update_fault env MarkFailed); eauto.
  destruct (table w1 !! s); eauto.
Qed.

End TaskMore.

(** ** The task and the world *)

Section TaskFlow.
  Import Js Db Task Logic Frame.

  Local Infix "+++" := String.append (right associativity, at level 60).

  Implicit Types (w : World) (e : thrown).

(** *** Rules for a reflexive and transitive relation on worlds *)

Section Rules.
  Variable R : World -> World -> Prop.
  Hypothesis R_refl : forall w, R w w.
  Hypothesis R_trans : forall w1 w2 w3, R w1 w2 -> R w2 w3 -> R w1 w3.

Lemma rel_ret {A} (a : A) : steps R (ret a).
Proof. intros w r w' H. injection H as _ <-. apply R_refl. Qed.

Lemma rel_throw {A} e : steps R (throw (A := A) e).
Proof. intros w r w' H. injection H as _ <-. apply R_refl. Qed.

Lemma rel_lift {A} (x : thrown + A) : steps R (lift x).
Proof. intros w r w' H. injection H as _ <-. apply R_refl. Qed.

Lemma rel_bind {A B} (c : M A) (k : A -> M B) :
  steps R c -> (forall a, steps R (k a)) -> steps R (bind c k).
Proof.
  intros Hc Hk w r w' H. unfold bind in H.
  destruct (c w) as [[e|a] w1] eqn:E.
  - injection H as _ <-. exact (Hc _ _ _ E).
  - eapply R_trans; [exact (Hc _ _ _ E)|exact (Hk a _ _ _ H)].
Qed.

Lemma rel_try_catch {A} (c : M A) (h : thrown -> M A) :
  steps R c -> (forall e, steps R (h e)) -> steps R (try_catch c h).
Proof.
  intros Hc Hh w r w' H. unfold try_catch in H.
  destruct (c w) as [[e|a] w1] eqn:E.
  - eapply R_trans; [exact (Hc _ _ _ E)|exact (Hh e _ _ _ H)].
  - injection H as _ <-. exact (Hc _ _ _ E).
Qed.

End Rules.

Lemma same_upload_refl (a : CV) : same_upload a a.
Proof. repeat split. Qed.

Lemma same_upload_trans (a b c : CV) :
  same_upload a b -> same_upload b c -> same_upload a c.
Proof. unfold same_upload. intuition congruence. Qed.

Lemma validation_only_refl key w : validation_only key w w.
Proof.
  split; [repeat split|]. intros row H. exists row.
  split; [exact H|apply same_upload_refl].
Qed.

Lemma validation_only_trans key w1 w2 w3 :
  validation_only key w1 w2 -> validation_only key w2 w3 ->
  validation_only key w1 w3.
Proof.
  intros [(B1 & Q1 & T1) S1] [(B2 & Q2 & T2) S2]. split.
  - repeat split; try congruence. intros k Hk. rewrite T2, T1 by exact Hk.
    reflexivity.
  - intros row Hrow. destruct (S1 row Hrow) as [row2 [H2 E2]].
    destruct (S2 row2 H2) as [row3 [H3 E3]]. exists row3.
    split; [exact H3|exact (same_upload_trans _ _ _ E2 E3)].
Qed.

Lemma only_record_call key c : steps (validation_only key) (modify (record_call c)).
Proof.
  intros w r w' H. injection H as _ <-. split; [repeat split|].
  intros row Hrow. exists row. split; [exact Hrow|apply same_upload_refl].
Qed.

(** An update of the row [key] that changes validation columns only. *)
Lemma only_update fault key (f : CV -> CV) :
  (forall row, same_upload row (f row)) ->
  steps (validation_only key) (update fault key f).
Proof.
  intros Hf w r w' H. unfold update in H.
  destruct fault as [e0|]; [injection H as _ <-; apply validation_only_refl|].
  destruct (table w !! key) as [row|] eqn:E.
  - injection H as _ <-. unfold set_table. split.
    + repeat split. intros k Hk. cbn [table].
      apply lookup_insert_ne. congruence.
    + intros row0 Hrow0. cbn [table]. rewrite lookup_insert_eq.
      exists (f row). split; [reflexivity|].
      replace row0 with row by congruence. apply Hf.
  - injection H as _ <-. apply validation_only_refl.
Qed.

Lemma set_validating_same row : same_upload row (set_validating row).
Proof. repeat split. Qed.

Lemma set_results_same st res errs now row :
  same_upload row (set_results st res errs now row).
Proof. repeat split. Qed.

Lemma set_failed_same msg now row : same_upload row (set_failed msg now row).
Proof. repeat split. Qed.

(** Decompose a computation that touches the row [key] only. *)
Ltac framed key :=
  repeat first
    [ apply (rel_ret _ (validation_only_refl key))
    | apply (rel_throw _ (validation_only_refl key))
    | apply (rel_lift _ (validation_only_refl key))
    | apply only_record_call
    | apply only_update; intros ?;
        first [apply set_validating_same | apply set_results_same
              | apply set_failed_same]
    | apply (rel_try_catch _ (validation_only_trans key)); [|intros ?]
    | apply (rel_bind _ (validation_only_trans key)); [|intros ?]
    | match goal with
      | |- steps _ (if ?b then _ else _) => destruct b
      | |- steps _ (match ?x with _ => _ end) => destruct x
      end ].

Lemma only_build_request key env validatedPayload :
  steps (validation_only key) (build_request env validatedPayload).
Proof.
  unfold build_request, do_fetch, do_getObject. cbv zeta. framed key.
Qed.

Lemma only_handle_response env validatedPayload response :
  steps (validation_only (cvId validatedPayload))
        (handle_response env validatedPayload response).
Proof. unfold handle_response. cbv zeta. framed (cvId validatedPayload). Qed.

Lemma only_pipeline env payload key :
  prop "cvId" payload = VString key ->
  steps (validation_only key) (pipeline env payload).
Proof.
  intros Hid w r w' H. unfold pipeline in H. unfold bind at 1 in H.
  unfold lift at 1 in H.
  destruct (read_cvId payload) as [e0|logged_cvId].
  { injection H as _ <-. apply validation_only_refl. }
  unfold pipeline_after_log in H. unfold bind at 1 in H.
  unfold lift at 1, CVValidationPayload_parse in H.
  destruct (parse_payload payload) as [validatedPayload|] eqn:Eparse.
  2:{ injection H as _ <-. apply validation_only_refl. }
  assert (Hkey : cvId validatedPayload = key).
  { pose proof (parse_payload_cvId _ _ Eparse) as Hp. congruence. }
  subst key. revert H. generalize w r w'. clear.
  change (steps (validation_only (cvId validatedPayload))
    (let! _ := update (update_fault env MarkValidating)
                      (cvId validatedPayload) set_validating in
     let! requestBody := build_request env validatedPayload in
     let! response := do_chat env requestBody in
     handle_response env validatedPayload response)).
  apply (rel_bind _ (validation_only_trans _));
    [apply only_update, set_validating_same|intros _].
  apply (rel_bind _ (validation_only_trans _));
    [apply only_build_request|intros requestBody].
  apply (rel_bind _ (validation_only_trans _));
    [|intros response; apply only_handle_response].
  unfold do_chat.
  apply (rel_bind _ (validation_only_trans _));
    [apply only_record_call|intros _].
  apply (rel_lift _ (validation_only_refl _)).
Qed.

(** Whatever happens, the task changes nothing but the validation columns
    of the row that its payload names: the other rows, the uploaded data of
    that row, the bucket and the queue are as before. *)
Theorem task_changes_validation_columns_only (env : Env) (payload : value)
    (key : string) (w w' : World) (r : thrown + TaskResult) :
  prop "cvId" payload = VString key ->
  validateCvDataTask env payload w = (r, w') ->
  bucket w' = bucket w /\ queue w' = queue w /\
  (forall k, k <> key -> table w' !! k = table w !! k) /\
  (forall row, table w !! key = Some row ->
     exists row', table w' !! key = Some row' /\
                  id row' = id row /\ fullName row' = fullName row /\
                  email row' = email row /\ fileName row' = fileName row /\
                  fileUrl row' = fileUrl row).
Proof.
  intros Hid H.
  assert (Hall : validation_only key w w').
  { revert H. unfold validateCvDataTask, try_finally.
    destruct (try_catch (pipeline env payload) (on_error env payload) w)
      as [r0 w0] eqn:E.
    intros H. injection H as _ <-. unfold disconnect.
    revert E. generalize w r0 w0.
    change (steps (validation_only key)
              (try_catch (pipeline env payload) (on_error env payload))).
    apply (rel_try_catch _ (validation_only_trans key));
      [apply only_pipeline, Hid|intros e].
    unfold on_error. rewrite Hid. unfold update_where. cbv zeta.
    framed key. }
  destruct Hall as [(Hb & Hq & Ht) Hs].
  split; [exact Hb|]. split; [exact Hq|]. split; [exact Ht|].
  intros row Hrow. destruct (Hs row Hrow) as [row' [Hrow' Hsame]].
  exists row'. split; [exact Hrow'|].
  unfold same_upload in Hsame. intuition congruence.
Qed.

Lemma task_changes_validation_columns_only_witness :
  prop "cvId" Examples.payload1 = VString "cv1" /\
  exists r w',
    validateCvDataTask Examples.task_env Examples.payload1 Examples.one_cv
    = (r, w') /\
    bucket w' = bucket Examples.one_cv /\ queue w' = queue Examples.one_cv /\
    (forall k, k <> "cv1"%string ->
               table w' !! k = table Examples.one_cv !! k) /\
    (forall row, table Examples.one_cv !! "cv1"%string = Some row ->
       exists row', table w' !! "cv1"%string = Some row' /\
                    id row' = id row /\ fullName row' = fullName row /\
                    email row' = email row /\ fileName row' = fileName row /\
                    fileUrl row' = fileUrl row).
Proof.
  split; [reflexivity|]. eexists _, _. split; [vm_compute; reflexivity|].
  eapply (task_changes_validation_columns_only Examples.task_env
            Examples.payload1 "cv1" Examples.one_cv).
  - reflexivity.
  - vm_compute; reflexivity.
Defined.

End TaskFlow.

(** ** The outcome of a run of the task *)

Section TaskOutcome.
  Import Js Db Task Logic Frame.

  Implicit Types (w : World) (e : thrown).

Lemma bind_inr {A B} (c : M (St := World) A) (k : A -> M B) w b w' :
  bind c k w = (inr b, w') ->
  exists a w1, c w = (inr a, w1) /\ k a w1 = (inr b, w').
Proof.
  unfold bind. destruct (c w) as [[e|a] w1]; [discriminate|]. eauto.
Qed.

Lemma update_inr fault key (f : CV -> CV) w u w' :
  update fault key f w = (inr u, w') ->
  fault = None /\
  exists row, table w !! key = Some row /\
              w' = set_table (fun t => <[key := f row]> t) w.
Proof.
  unfold update. destruct fault as [e0|]; [discriminate|].
  destruct (table w !! key) as [row|]; [|discriminate].
  intros H. injection H as _ <-. eauto.
Qed.

(** The request that was built carries the prompt for the form data. *)
Lemma build_request_inr env validatedPayload w body w' :
  build_request env validatedPayload w = (inr body, w') ->
  model body = gemini /\
  prompt_text body
  = Prompt.createDocumentValidationPrompt (formData validatedPayload).
Proof.
  unfold build_request. cbv zeta.
  destruct (includes ".pdf" _ || includes "pdf" _).
  - intros H. apply bind_inr in H as (pdfBuffer & w1 & _ & H).
    unfold ret in H. injection H as <- _. split; reflexivity.
  - unfold ret. intros H. injection H as <- _. split; reflexivity.
Qed.

(** What a response of the model leads to when the rest of the body
    succeeds. *)
Lemma handle_response_inr env validatedPayload response w result w' :
  handle_response env validatedPayload response w = (inr result, w') ->
  exists completion reply ai row,
    c_ok response = true /\
    c_json response = inr completion /\
    first_content completion = inr (Some reply) /\
    JSON_parse env (Text.clean reply) = inr ai /\
    table w !! cvId validatedPayload = Some row /\
    result
    = {| t_success := true;
         t_cvId := cvId validatedPayload;
         t_status :=
           Aggregator.overall_string
             (Aggregator.overallStatus (Aggregator.processValidationResults ai));
         t_results :=
           Aggregator.processedResults (Aggregator.processValidationResults ai);
         t_errors :=
           Aggregator.errors (Aggregator.processValidationResults ai) |} /\
    w' = set_table
           (fun t =>
              <[cvId validatedPayload :=
                  set_results
                    (Aggregator.overall_string
                       (Aggregator.overallStatus
                          (Aggregator.processValidationResults ai)))
                    (json_round_trip
                       (Aggregator.processedResults
                          (Aggregator.processValidationResults ai)))
                    (Aggregator.errors (Aggregator.processValidationResults ai))
                    (new_Date env) row]> t) w.
Proof.
  unfold handle_response. intros H.
  apply bind_inr in H as (u & w1 & H1 & H).
  assert (Hok : c_ok response = true /\ w1 = w).
  { destruct (c_ok response); simpl in H1.
    - injection H1 as _ <-. split; reflexivity.
    - unfold bind, lift, throw in H1. destruct (c_text response); discriminate. }
  destruct Hok as [Hok ->].
  apply bind_inr in H as (completion & w2 & H2 & H).
  unfold lift in H2. injection H2 as H2 <-.
  apply bind_inr in H as (aiResponse & w3 & H3 & H).
  unfold lift in H3. injection H3 as H3 <-.
  destruct aiResponse as [[|c reply]|]; try discriminate.
  cbv zeta in H.
  apply bind_inr in H as (ai & w4 & H4 & H).
  unfold lift in H4. injection H4 as H4 <-.
  apply bind_inr in H as (u2 & w5 & H5 & H).
  apply update_inr in H5 as (_ & row & Hrow & ->).
  unfold ret in H. injection H as <- <-.
  exists completion, (c :: reply), ai, row. repeat split; assumption.
Qed.

(** What a successful run of the body has done. *)
Lemma pipeline_inr env payload w result w' :
  pipeline env payload w = (inr result, w') ->
  exists validatedPayload body response completion reply ai row,
    parse_payload payload = Some validatedPayload /\
    model body = gemini /\
    prompt_text body
    = Prompt.createDocumentValidationPrompt (formData validatedPayload) /\
    chat_completions env body = inr response /\
    c_ok response = true /\
    c_json response = inr completion /\
    first_content completion = inr (Some reply) /\
    JSON_parse env (Text.clean reply) = inr ai /\
    result
    = {| t_success := true;
         t_cvId := cvId validatedPayload;
         t_status :=
           Aggregator.overall_string
             (Aggregator.overallStatus (Aggregator.processValidationResults ai));
         t_results :=
           Aggregator.processedResults (Aggregator.processValidationResults ai);
         t_errors :=
           Aggregator.errors (Aggregator.processValidationResults ai) |} /\
    table w' !! cvId validatedPayload
    = Some (set_results (t_status result) (json_round_trip (t_results result))
              (t_errors result) (new_Date env) row) /\
    model_calls w' = (model_calls w + 1)%nat.
Proof.
  unfold pipeline. intros H.
  apply bind_inr in H as (logged_cvId & w0 & H0 & H).
  unfold lift in H0. injection H0 as _ <-.
  unfold pipeline_after_log in H.
  apply bind_inr in H as (validatedPayload & w1 & H1 & H).
  unfold lift, CVValidationPayload_parse in H1.
  destruct (parse_payload payload) as [p|] eqn:Eparse; [|discriminate].
  injection H1 as <- <-.
  apply bind_inr in H as (u & w2 & H2 & H).
  pose proof (steps_update _ _ _ _ _ _ H2) as [_ C2].
  apply bind_inr in H as (requestBody & w3 & H3 & H).
  pose proof (steps_build_request _ _ _ _ _ H3) as [_ C3].
  apply build_request_inr in H3 as [Hmodel Hprompt].
  apply bind_inr in H as (response & w4 & H4 & H).
  pose proof (steps_do_chat _ _ _ _ _ H4) as [_ C4].
  assert (Hchat : chat_completions env requestBody = inr response).
  { unfold do_chat, bind, modify, lift in H4. injection H4 as H4 _. exact H4. }
  pose proof (steps_handle_response _ _ _ _ _ _ H) as [_ C5].
  apply handle_response_inr in H
    as (completion & reply & ai & row & Hok & Hjson & Hfirst & Hai & Hrow & -> & ->).
  exists p, requestBody, response, completion, reply, ai, row.
  repeat (split; [first [reflexivity | assumption]|]).
  split; [cbn [table set_table t_status t_results t_errors];
          apply lookup_insert_eq|].
  lia.
Qed.

(** A run that returns a result has recorded it.  The payload passed the
    schema; the model was sent the prompt for its form data and called
    exactly once; the reply, cleaned, was parsed; the returned result is the
    aggregation of the parsed reply, with status [validated] or [failed]; and
    the row named by the payload carries that status, those errors, the time
    of validation, and the results as they come back from JSON. *)
Theorem success_is_recorded (env : Env) (payload : value) (w w' : World)
    (result : TaskResult) :
  validateCvDataTask env payload w = (inr result, w') ->
  exists validatedPayload body response completion reply ai row,
    parse_payload payload = Some validatedPayload /\
    prop "cvId" payload = VString (t_cvId result) /\
    model body = "google/gemini-2.0-flash-001"%string /\
    prompt_text body
    = Prompt.createDocumentValidationPrompt (formData validatedPayload) /\
    chat_completions env body = inr response /\
    c_ok response = true /\
    c_json response = inr completion /\
    first_content completion = inr (Some reply) /\
    JSON_parse env (Text.clean reply) = inr ai /\
    t_success result = true /\
    t_cvId result = cvId validatedPayload /\
    t_status result
    = Aggregator.overall_string
        (Aggregator.overallStatus (Aggregator.processValidationResults ai)) /\
    t_results result
    = Aggregator.processedResults (Aggregator.processValidationResults ai) /\
    t_errors result
    = Aggregator.errors (Aggregator.processValidationResults ai) /\
    (t_status result = "validated"%string \/ t_status result = "failed"%string) /\
    table w' !! t_cvId result = Some row /\
    validationStatus row = t_status result /\
    validationResults row = Some (json_round_trip (t_results result)) /\
    validationErrors row = t_errors result /\
    validatedAt row = Some (new_Date env) /\
    model_calls w' = (model_calls w + 1)%nat.
Proof.
  unfold validateCvDataTask, try_finally, try_catch.
  destruct (pipeline env payload w) as [[e|result0] w1] eqn:Epipe.
  { unfold on_error, bind, throw.
    destruct (if truthy (prop "cvId" payload) then _ else _) as [[e1|u] w2];
      discriminate. }
  intros H. injection H as <- <-. unfold disconnect.
  apply pipeline_inr in Epipe
    as (p & body & response & completion & reply & ai & row & Hparse & Hmodel
        & Hprompt & Hchat & Hok & Hjson & Hfirst & Hai & Hres & Hrow & Hcalls).
  exists p, body, response, completion, reply, ai,
    (set_results (t_status result0) (json_round_trip (t_results result0))
       (t_errors result0) (new_Date env) row).
  split; [exact Hparse|].
  split; [rewrite Hres; exact (parse_payload_cvId _ _ Hparse)|].
  split; [exact Hmodel|].
  split; [exact Hprompt|]. split; [exact Hchat|]. split; [exact Hok|].
  split; [exact Hjson|]. split; [exact Hfirst|]. split; [exact Hai|].
  split; [rewrite Hres; reflexivity|]. split; [rewrite Hres; reflexivity|].
  split; [rewrite Hres; reflexivity|]. split; [rewrite Hres; reflexivity|].
  split; [rewrite Hres; reflexivity|].
  split; [rewrite Hres; cbn [t_status];
          destruct (Aggregator.overallStatus _); [left|right]; reflexivity|].
  split; [rewrite Hres at 1; exact Hrow|].
  repeat split; try reflexivity. exact Hcalls.
Qed.

Lemma success_is_recorded_witness :
  exists result w',
    validateCvDataTask Samples.answering_env Examples.payload1 Examples.one_cv
    = (inr result, w') /\
    exists validatedPayload body response completion reply ai row,
      parse_payload Examples.payload1 = Some validatedPayload /\
      prop "cvId" Examples.payload1 = VString (t_cvId result) /\
      model body = "google/gemini-2.0-flash-001"%string /\
      prompt_text body
      = Prompt.createDocumentValidationPrompt (formData validatedPayload) /\
      chat_completions Samples.answering_env body = inr response /\
      c_ok response = true /\
      c_json response = inr completion /\
      first_content completion = inr (Some reply) /\
      JSON_parse Samples.answering_env (Text.clean reply) = inr ai /\
      t_success result = true /\
      t_cvId result = cvId validatedPayload /\
      t_status result
      = Aggregator.overall_string
          (Aggregator.overallStatus (Aggregator.processValidationResults ai)) /\
      t_results result
      = Aggregator.processedResults (Aggregator.processValidationResults ai) /\
      t_errors result
      = Aggregator.errors (Aggregator.processValidationResults ai) /\
      (t_status result = "validated"%string
       \/ t_status result = "failed"%string) /\
      table w' !! t_cvId result = Some row /\
      validationStatus row = t_status result /\
      validationResults row = Some (json_round_trip (t_results result)) /\
      validationErrors row = t_errors result /\
      validatedAt row = Some (new_Date Samples.answering_env) /\
      model_calls w' = (model_calls Examples.one_cv + 1)%nat.
Proof.
  eexists _, _. split; [vm_compute; reflexivity|].
  apply (success_is_recorded Samples.answering_env Examples.payload1
           Examples.one_cv).
  vm_compute; reflexivity.
Defined.

(** The sample run: two matches are recorded as [validated]. *)
Example answering_run :
  exists result w',
    validateCvDataTask Samples.answering_env Examples.payload1 Examples.one_cv
    = (inr result, w') /\
    t_status result = "validated"%string /\
    (validationStatus <$> table w' !! "cv1"%string) = Some "validated"%string /\
    (validationResults <$> table w' !! "cv1"%string)
    = Some (Some (json_round_trip (t_results result))).
Proof. eexists _, _. vm_compute. repeat split; reflexivity. Qed.

(** When the results cannot be stored the run throws the error of that
    update, and the row is marked [failed] with its message although the
    verdicts all matched. *)
Example results_rejected_run :
  exists w',
    validateCvDataTask Samples.results_rejected_env Examples.payload1
      Examples.one_cv
    = (inl (ErrorObject "Query timed out"), w') /\
    (validationStatus <$> table w' !! "cv1"%string) = Some "failed"%string /\
    (validationErrors <$> table w' !! "cv1"%string)
    = Some ["Query timed out"%string] /\
    (validationResults <$> table w' !! "cv1"%string) = Some None /\
    model_calls w' = 1%nat.
Proof. eexists. vm_compute. repeat split; reflexivity. Qed.

(** [JSON.stringify] on the numbers that JSON cannot write. *)
Example json_number_examples :
  json_number S754_nan = None /\
  json_number (S754_infinity false) = None /\
  json_number (S754_zero true) = Some (S754_zero false) /\
  json_number Spec.lit_0_9 = Some Spec.lit_0_9.
Proof. repeat split; reflexivity. Qed.

(** The state of the named row after a run in which the update of the
    [catch] block is accepted. *)
Lemma final_status_of_run (env : Env) (payload : value)
    (w w' : World) (key : string) (row : CV) (r : thrown + TaskResult) :
  prop "cvId" payload = VString key ->
  key <> ""%string ->
  table w !! key = Some row ->
  update_fault env MarkFailed = None ->
  validateCvDataTask env payload w = (r, w') ->
  exists row',
    table w' !! key = Some row' /\
    (validationStatus row' = "validated"%string
     \/ validationStatus row' = "failed"%string) /\
    validatedAt row' = Some (new_Date env) /\
    Client.refetchInterval (Some (validationStatus row')) = None /\
    (validationStatus row' = "validated"%string -> exists result, r = inr result).
Proof.
  intros Hid Hkey Hrow Hmark.
  unfold validateCvDataTask, try_finally, try_catch.
  destruct (pipeline env payload w) as [[e|result] w1] eqn:Epipe.
  - destruct (steps_pipeline env payload _ _ _ Epipe) as [Hkept _].
    destruct (Hkept key (ex_intro _ row Hrow)) as [row1 Hrow1].
    unfold on_error, bind. rewrite Hid. cbn [truthy].
    destruct (String.eqb_spec key "") as [Heq|_]; [contradiction|].
    cbn [negb]. unfold try_catch, update_where, update. rewrite Hmark, Hrow1.
    unfold throw, disconnect, set_table.
    intros H. injection H as <- <-. cbn [table].
    eexists. split; [apply lookup_insert_eq|].
    cbn [set_failed validationStatus validatedAt].
    split; [right; reflexivity|]. split; [reflexivity|].
    split; [reflexivity|]. discriminate.
  - intros H. injection H as <- <-. unfold disconnect.
    apply pipeline_inr in Epipe
      as (p & body & response & completion & reply & ai & row1 & Hparse & _ & _
          & _ & _ & _ & _ & _ & Hres & Hrow1 & _).
    assert (Hk : cvId p = key).
    { pose proof (parse_payload_cvId _ _ Hparse). congruence. }
    rewrite Hk in Hrow1. eexists. split; [exact Hrow1|].
    rewrite Hres. cbn [set_results validationStatus validatedAt t_status].
    split; [destruct (Aggregator.overallStatus _); [left|right]; reflexivity|].
    split; [reflexivity|].
    split; [destruct (Aggregator.overallStatus _); reflexivity|].
    intros _. eexists. reflexivity.
Qed.

(** Every run for a payload that names an existing row, in which the
    database accepts the update of the [catch] block, ends with that row in
    a final state: its status is [validated] or [failed], never [pending]
    or [validating], the time of validation is set, and the form stops
    polling.  The status is [validated] only if the run returned. *)
Theorem task_ends_in_final_status (env : Env) (payload : value)
    (w w' : World) (key : string) (row : CV) (r : thrown + TaskResult) :
  prop "cvId" payload = VString key ->
  key <> ""%string ->
  table w !! key = Some row ->
  update_fault env MarkFailed = None ->
  validateCvDataTask env payload w = (r, w') ->
  exists row',
    table w' !! key = Some row' /\
    (validationStatus row' = "validated"%string
     \/ validationStatus row' = "failed"%string) /\
    validatedAt row' = Some (new_Date env) /\
    Client.refetchInterval (Some (validationStatus row')) = None /\
    (validationStatus row' = "validated"%string -> exists result, r = inr result).
Proof. exact (final_status_of_run env payload w w' key row r). Qed.

Lemma task_ends_in_final_status_witness :
  prop "cvId" Examples.payload1 = VString "cv1" /\
  "cv1"%string <> ""%string /\
  table Examples.one_cv !! "cv1"%string = Some Examples.row1 /\
  update_fault Samples.answering_env MarkFailed = None /\
  exists r w',
    validateCvDataTask Samples.answering_env Examples.payload1 Examples.one_cv
    = (r, w') /\
    exists row',
      table w' !! "cv1"%string = Some row' /\
      (validationStatus row' = "validated"%string
       \/ validationStatus row' = "failed"%string) /\
      validatedAt row' = Some (new_Date Samples.answering_env) /\
      Client.refetchInterval (Some (validationStatus row')) = None /\
      (validationStatus row' = "validated"%string ->
       exists result, r = inr result).
Proof.
  split; [reflexivity|]. split; [discriminate|].
  split; [vm_compute; reflexivity|]. split; [reflexivity|].
  eexists _, _. split; [vm_compute; reflexivity|].
  eapply (task_ends_in_final_status Samples.answering_env Examples.payload1
            Examples.one_cv _ "cv1" Examples.row1).
  - reflexivity.
  - discriminate.
  - vm_compute; reflexivity.
  - reflexivity.
  - vm_compute; reflexivity.
Defined.

End TaskOutcome.

(** ** From the upload to the final status *)

Section EndToEnd.
  Import Js Db Task Logic Frame.

  Implicit Types (w : World) (e : thrown).

Lemma upload_inr (env : Upload.Env) (input : Upload.Input) w res w' :
  Upload.upload env input w = (inr res, w') ->
  res = Upload.uploaded (Upload.new_id env) /\
  exists cv, table w' !! Upload.new_id env = Some cv.
Proof.
  unfold Upload.upload, try_catch, bind, lift.
  destruct (Upload.validateFileContent env _ _) as [e0|buffer]; [discriminate|].
  unfold Upload.putObject, may_throw, bind.
  destruct (Upload.putObject_fault env _ _) as [e0|]; [discriminate|].
  unfold ret, modify, Upload.create, may_throw, bind.
  destruct (Upload.create_fault env _) as [e0|]; [discriminate|].
  unfold ret, gets, set_bucket. cbn [table].
  destruct (table w !! Upload.new_id env) as [old|]; [discriminate|].
  unfold modify, ret, Upload.trigger, may_throw, bind. cbn [id].
  destruct (Upload.trigger_fault env _) as [e0|];
    unfold throw, ret, modify, set_table, enqueue; cbn [bucket table queue calls];
    intros H; injection H as <- <-; cbn [table];
    (split; [reflexivity|]); eexists; apply lookup_insert_eq.
Qed.

(** From the upload to the end of validation: when the task runs on the
    payload that a successful upload built and the database accepts the
    update of the [catch] block, then whatever the network and the model do,
    the status query for the uploaded CV afterwards answers [validated] or
    [failed], and the form stops polling. *)
Theorem uploaded_cv_gets_final_status (uenv : Upload.Env)
    (input : Upload.Input) (tenv : Env) (w w1 w2 : World)
    (res : Upload.Result) (r : thrown + TaskResult) :
  Upload.upload uenv input w = (inr res, w1) ->
  Upload.r_id res <> ""%string ->
  update_fault tenv MarkFailed = None ->
  validateCvDataTask tenv
    (Wire.payload_value
       (Upload.task_payload input (Upload.r_id res)
          (Upload.file_url uenv (Upload.unique_name uenv input)))) w1
  = (r, w2) ->
  exists view,
    Router.getValidationStatus (Upload.r_id res) w2 = (inr view, w2) /\
    (Router.v_validationStatus view = "validated"%string
     \/ Router.v_validationStatus view = "failed"%string) /\
    Router.v_validatedAt view = Some (new_Date tenv) /\
    Client.refetchInterval (Some (Router.v_validationStatus view)) = None.
Proof.
  intros Hup Hid Hmark Hrun.
  apply upload_inr in Hup as [-> [cv Hcv]]. cbn [Upload.r_id Upload.uploaded] in *.
  assert (Hp : prop "cvId"
                 (Wire.payload_value
                    (Upload.task_payload input (Upload.new_id uenv)
                       (Upload.file_url uenv (Upload.unique_name uenv input))))
               = VString (Upload.new_id uenv)) by reflexivity.
  destruct (final_status_of_run tenv _ w1 w2 (Upload.new_id uenv) cv r
              Hp Hid Hcv Hmark Hrun)
    as (row' & Hrow' & Hst & Hat & Hpoll & _).
  exists (Router.select_validation row').
  unfold Router.getValidationStatus, bind, gets, ret. rewrite Hrow'.
  repeat split; assumption.
Qed.

Lemma uploaded_cv_gets_final_status_witness :
  exists res w1 r w2,
    Upload.upload Samples.working_env Examples.good_input Examples.empty_world
    = (inr res, w1) /\
    Upload.r_id res <> ""%string /\
    update_fault Samples.answering_env MarkFailed = None /\
    validateCvDataTask Samples.answering_env
      (Wire.payload_value
         (Upload.task_payload Examples.good_input (Upload.r_id res)
            (Upload.file_url Samples.working_env
               (Upload.unique_name Samples.working_env Examples.good_input))))
      w1
    = (r, w2) /\
    exists view,
      Router.getValidationStatus (Upload.r_id res) w2 = (inr view, w2) /\
      (Router.v_validationStatus view = "validated"%string
       \/ Router.v_validationStatus view = "failed"%string) /\
      Router.v_validatedAt view = Some (new_Date Samples.answering_env) /\
      Client.refetchInterval (Some (Router.v_validationStatus view)) = None.
Proof.
  eexists _, _, _, _. split; [vm_compute; reflexivity|].
  split; [discriminate|]. split; [reflexivity|].
  split; [vm_compute; reflexivity|].
  eapply (uploaded_cv_gets_final_status Samples.working_env Examples.good_input
            Samples.answering_env Examples.empty_world).
  - vm_compute; reflexivity.
  - discriminate.
  - reflexivity.
  - vm_compute; reflexivity.
Defined.

(** The requests for the document: none for a URL that does not look like a
    PDF, where the model is given the URL itself; otherwise the URL is
    fetched once, and the object store is asked, for the last segment of the
    URL, only when that fetch did not deliver the bytes.  Building the
    request changes nothing else. *)
Theorem document_requests (env : Env) (validatedPayload : TaskPayload)
    (w w' : World) (r : thrown + RequestBody) :
  build_request env validatedPayload w = (r, w') ->
  let url := p_fileUrl validatedPayload in
  let isPdf := includes ".pdf" (toLowerCase url)
               || includes "pdf" (toLowerCase url) in
  let delivered :=
    match fetch env url with
    | inr response =>
        ok response
        && match arrayBuffer response with inr _ => true | inl _ => false end
    | inl _ => false
    end in
  bucket w' = bucket w /\ table w' = table w /\ queue w' = queue w /\
  calls w'
  = calls w
    ++ (if isPdf
        then CallFetch url
             :: (if delivered then []
                 else [CallGetObject (List.last (split_slash url) "")])
        else []) /\
  (isPdf = false ->
   exists body, r = inr body /\ attachment body = ImageUrl url) /\
  (isPdf = true -> delivered = false ->
   forall e, getObject env (List.last (split_slash url) "") = inl e ->
             r = inl e).
Proof.
  intros H url isPdf delivered. revert H.
  unfold build_request. fold url. fold isPdf. cbv zeta.
  destruct isPdf.
  - unfold bind, try_catch, do_fetch, do_getObject, bind, modify, lift, throw,
      ret, record_call. cbn [bucket table queue calls].
    subst delivered.
    destruct (fetch env url) as [e0|response]; cbn [bucket table queue calls].
    + destruct (getObject env _) as [e1|bytes]; intros H; injection H as <- <-;
        cbn [bucket table queue calls]; rewrite <- app_assoc;
        repeat split; try discriminate; intros _ _ e He; congruence.
    + destruct (ok response); cbn [andb].
      * destruct (arrayBuffer response) as [e1|bytes];
          cbn [bucket table queue calls].
        -- destruct (getObject env _) as [e2|bytes]; intros H;
             injection H as <- <-; cbn [bucket table queue calls];
             rewrite <- app_assoc; repeat split; try discriminate;
             intros _ _ e He; congruence.
        -- intros H; injection H as <- <-; cbn [bucket table queue calls].
           repeat split; discriminate.
      * destruct (getObject env _) as [e2|bytes]; intros H;
          injection H as <- <-; cbn [bucket table queue calls];
          rewrite <- app_assoc; repeat split; try discriminate;
          intros _ _ e He; congruence.
  - unfold ret. intros H. injection H as <- <-. rewrite app_nil_r.
    repeat split; try discriminate. intros _. eexists. split; reflexivity.
Qed.

Lemma document_requests_witness :
  exists r w',
    build_request Samples.answering_env Samples.payload_of_ada Examples.one_cv
    = (r, w') /\
    calls w'
    = [CallFetch (p_fileUrl Samples.payload_of_ada);
       CallGetObject "1753962000000-cv.pdf"].
Proof.
  destruct (build_request Samples.answering_env Samples.payload_of_ada
              Examples.one_cv) as [r w'] eqn:E.
  exists r, w'. split; [reflexivity|].
  pose proof (document_requests Samples.answering_env Samples.payload_of_ada
                Examples.one_cv w' r E) as H.
  cbv zeta in H. destruct H as (_ & _ & _ & Hcalls & _).
  rewrite Hcalls. reflexivity.
Defined.

End EndToEnd.

(** ** The bucket at module load *)

Section BucketInit.
  Import Js Minio.

(** [initBucket] never throws and never removes the bucket.  When the store
    answers every call, the bucket exists afterwards with the public-read
    policy, whether it existed before or not.  When asking for the bucket or
    creating it fails, nothing is changed and the policy is not set. *)
Theorem initBucket_is_safe (env : Env) (s : Storage) :
  exists s',
    initBucket env s = (inr tt, s') /\
    (bucket_exists s = true -> bucket_exists s' = true) /\
    (bucketExists_fault env = None -> makeBucket_fault env = None ->
     setBucketPolicy_fault env = None ->
     bucket_exists s' = true /\ bucket_policy s' = Some policy_json) /\
    (bucketExists_fault env <> None
     \/ bucket_exists s = false /\ makeBucket_fault env <> None ->
     s' = s) /\
    (bucket_policy s' = bucket_policy s \/ bucket_policy s' = Some policy_json).
Proof.
  unfold initBucket, try_catch, bind, bucketExists, makeBucket, setBucketPolicy,
    may_throw, bind, gets, modify, throw, ret.
  destruct s as [ex pol].
  destruct (bucketExists_fault env) as [e1|]; cbn [bucket_exists bucket_policy].
  - eexists. split; [reflexivity|]. repeat split; try discriminate; auto.
  - destruct ex; cbn [negb bucket_exists bucket_policy].
    + destruct (setBucketPolicy_fault env) as [e3|];
        cbn [bucket_exists bucket_policy];
        (eexists; split; [reflexivity|]); cbn [bucket_exists bucket_policy];
        repeat split; try discriminate; auto;
        intros [H|[H _]]; congruence.
    + destruct (makeBucket_fault env) as [e2|];
        cbn [bucket_exists bucket_policy].
      * eexists. split; [reflexivity|]. repeat split; try discriminate; auto.
      * destruct (setBucketPolicy_fault env) as [e3|];
          cbn [bucket_exists bucket_policy];
          (eexists; split; [reflexivity|]); cbn [bucket_exists bucket_policy];
          repeat split; try discriminate; auto;
          intros [H|[_ H]]; congruence.
Qed.

Example initBucket_from_nothing :
  initBucket Samples.store_works Samples.storage_missing
  = (inr tt, {| bucket_exists := true; bucket_policy := Some policy_json |}).
Proof. reflexivity. Qed.

End BucketInit.
